(** * AgentFlow: the tool connection and caching layer of [core/mcp.go]

    A shallow embedding of the cache-key codec, the per-pair tool cache, the
    cache manager, the part of the connection manager that refreshes the tool
    catalogue and executes tools, and the tool-call parser, followed by the
    properties of these that the specification states.

    Conventions.
    - A Go [string] is a sequence of bytes: it is embedded as [string], one
      [ascii] per byte.
    - A Go [map[string]T] is a [gmap string T]; where the source ranges over a
      map, the order of the range is unspecified and is made explicit.
    - [time.Time] and [time.Duration] are counts of nanoseconds in [Z].
    - Functions of the Go standard library stand under modules whose names
      start with [Go]; functions of the repository keep their names, methods
      being placed in a module named after their receiver. *)

From Stdlib Require Import ZArith String Ascii List Bool Lia QArith.
From stdpp Require Import gmap strings list fin_maps sorting pretty.

#[local] Set Warnings "-register-all".
#[local] Open Scope string_scope.
#[local] Open Scope list_scope.
#[local] Open Scope Z_scope.

(** ** Part I: the embedding *)

(** *** Bytes of a string *)

Definition byte_of (c : ascii) : Z := Z.of_N (N_of_ascii c).

Definition bytes_of (s : string) : list Z :=
  List.map byte_of (list_ascii_of_string s).

(** The double quote, byte 34. *)
Definition dquote : ascii := Eval cbv in ascii_of_N 34.

(** A text with each apostrophe replaced by a double quote: the way the
    texts with quotes are written below. *)
Fixpoint requote (s : string) : string :=
  match s with
  | EmptyString => EmptyString
  | String c s' => String (if Ascii.eqb c "'" then dquote else c) (requote s')
  end.

(** *** [crypto/sha256] and [encoding/hex] *)

Module GoSha256.

Definition mask32 : Z := 0xffffffff.
Definition w32 (x : Z) : Z := Z.land x mask32.
Definition add32 (x y : Z) : Z := w32 (x + y).
Definition rotr (n x : Z) : Z :=
  Z.lor (Z.shiftr x n) (w32 (Z.shiftl x (32 - n))).
Definition shr (n x : Z) : Z := Z.shiftr x n.

Definition Ch (x y z : Z) : Z :=
  Z.lxor (Z.land x y) (Z.land (Z.lnot x) z).
Definition Maj (x y z : Z) : Z :=
  Z.lxor (Z.land x y) (Z.lxor (Z.land x z) (Z.land y z)).
Definition bsig0 (x : Z) : Z :=
  Z.lxor (rotr 2 x) (Z.lxor (rotr 13 x) (rotr 22 x)).
Definition bsig1 (x : Z) : Z :=
  Z.lxor (rotr 6 x) (Z.lxor (rotr 11 x) (rotr 25 x)).
Definition ssig0 (x : Z) : Z :=
  Z.lxor (rotr 7 x) (Z.lxor (rotr 18 x) (shr 3 x)).
Definition ssig1 (x : Z) : Z :=
  Z.lxor (rotr 17 x) (Z.lxor (rotr 19 x) (shr 10 x)).

(** The round constants are the first 32 bits of the fractional parts of the
cube roots of the first 64 primes, and the initial state those of the
square roots of the first 8. *)
Definition isPrime (n : Z) : bool :=
  forallb (fun d => negb (n mod d =? 0)) (seqZ 2 (n - 2)).

Definition primes : list Z := List.filter isPrime (seqZ 2 310).

(** The largest [x + k] with [k] below 2 to the [bits] whose cube does not
exceed [n], for an [x] that is a multiple of 2 to the [bits]. *)
Fixpoint cubeRoot (bits : nat) (n x : Z) : Z :=
  match bits with
  | O => x
  | S b =>
      let y := x + 2 ^ Z.of_nat b in
      cubeRoot b n (if y * y * y <=? n then y else x)
  end.

Definition K : list Z :=
  Eval vm_compute in List.map (fun p => w32 (cubeRoot 40 (p * 2 ^ 96) 0)) primes.

Definition init : list Z :=
  Eval vm_compute in List.map (fun p => w32 (Z.sqrt (p * 2 ^ 64))) (firstn 8 primes).

(** The message is followed by the byte 0x80, by zero bytes up to 56 modulo
    64, and by its length in bits as a big-endian 64-bit number. *)
Definition be_bytes (n : nat) (x : Z) : list Z :=
  List.map (fun i => Z.land (Z.shiftr x (8 * Z.of_nat i)) 0xff) (rev (seq 0 n)).

Definition pad (msg : list Z) : list Z :=
  let len := Z.of_nat (length msg) in
  let zeros := Z.to_nat ((55 - len) mod 64) in
  msg ++ 0x80 :: repeat 0 zeros ++ be_bytes 8 (8 * len).

Fixpoint be_word (bs : list Z) (acc : Z) : Z :=
  match bs with
  | [] => acc
  | b :: bs' => be_word bs' (Z.lor (Z.shiftl acc 8) b)
  end.

Fixpoint words (n : nat) (bs : list Z) : list Z :=
  match n with
  | O => []
  | S n' => be_word (firstn 4 bs) 0 :: words n' (skipn 4 bs)
  end.

(** The message schedule: [w] holds the words produced so far. *)
Fixpoint schedule (n : nat) (w : list Z) : list Z :=
  match n with
  | O => w
  | S n' =>
      let t := length w in
      let at_ (k : nat) := nth (t - k) w 0 in
      let x := add32 (add32 (ssig1 (at_ 2%nat)) (at_ 7%nat))
                     (add32 (ssig0 (at_ 15%nat)) (at_ 16%nat)) in
      schedule n' (w ++ [x])
  end.

Record regs := Regs { ra : Z; rb : Z; rc : Z; rd : Z;
                      re : Z; rf : Z; rg : Z; rh : Z }.

Definition round (r : regs) (kw : Z * Z) : regs :=
  let t1 := add32 (add32 (add32 (rh r) (bsig1 (re r)))
                         (add32 (Ch (re r) (rf r) (rg r)) (fst kw))) (snd kw) in
  let t2 := add32 (bsig0 (ra r)) (Maj (ra r) (rb r) (rc r)) in
  Regs (add32 t1 t2) (ra r) (rb r) (rc r) (add32 (rd r) t1) (re r) (rf r) (rg r).

Definition regs_of (h : list Z) : regs :=
  Regs (nth 0 h 0) (nth 1 h 0) (nth 2 h 0) (nth 3 h 0)
       (nth 4 h 0) (nth 5 h 0) (nth 6 h 0) (nth 7 h 0).

Definition list_of (r : regs) : list Z :=
  [ra r; rb r; rc r; rd r; re r; rf r; rg r; rh r].

Definition compress (h : list Z) (block : list Z) : list Z :=
  let w := schedule 48 (words 16 block) in
  let r := fold_left round (combine K w) (regs_of h) in
  List.map (fun p => add32 (fst p) (snd p)) (combine h (list_of r)).

Fixpoint blocks (n : nat) (h : list Z) (bs : list Z) : list Z :=
  match n with
  | O => h
  | S n' => blocks n' (compress h (firstn 64 bs)) (skipn 64 bs)
  end.

(** [Sum256]: the 32 bytes of the digest of [msg]. *)
Definition Sum256 (msg : list Z) : list Z :=
  let p := pad msg in
  flat_map (be_bytes 4) (blocks (length p / 64) init p).

(** A [hash.Hash] made by [sha256.New]: [Write] appends to what was written
    before, and [Sum(nil)] is the digest of everything written so far. *)
Definition hasher := list Z.
Definition New : hasher := [].
Definition Write (h : hasher) (p : string) : hasher := h ++ bytes_of p.
Definition Sum (h : hasher) : list Z := Sum256 h.

End GoSha256.

Module GoHex.

Definition digit (d : Z) : ascii :=
  if d <? 10 then ascii_of_N (Z.to_N (48 + d)) else ascii_of_N (Z.to_N (87 + d)).

Fixpoint EncodeToString (bs : list Z) : string :=
  match bs with
  | [] => ""
  | b :: bs' =>
      String (digit (Z.shiftr b 4)) (String (digit (Z.land b 0xf)) (EncodeToString bs'))
  end.

End GoHex.

(** *** [strings]

    The cut sets and separators the source passes are ASCII, and a byte of a
    multi-byte UTF-8 sequence is never an ASCII byte, so the functions below
    work on bytes.  [ToLower] and [TrimSpace] are given on ASCII: bytes from
    0x80 on are left as they are (the Unicode case tables and the white space
    outside ASCII are not part of the model). *)

Module GoStrings.

Definition HasPrefix (s pre : string) : bool := String.prefix pre s.

Fixpoint drop (n : nat) (s : string) : string :=
  match n, s with
  | O, _ => s
  | S n', String _ s' => drop n' s'
  | S _, EmptyString => EmptyString
  end.

Definition HasSuffix (s suf : string) : bool :=
  (String.length suf <=? String.length s)%nat
  && String.eqb (drop (String.length s - String.length suf) s) suf.

Fixpoint Contains (s sub : string) : bool :=
  String.prefix sub s
  || match s with
     | EmptyString => false
     | String _ s' => Contains s' sub
     end.

Fixpoint mem (c : ascii) (cutset : string) : bool :=
  match cutset with
  | EmptyString => false
  | String d cutset' => Ascii.eqb c d || mem c cutset'
  end.

Fixpoint TrimLeftFunc (f : ascii -> bool) (s : string) : string :=
  match s with
  | EmptyString => EmptyString
  | String c s' => if f c then TrimLeftFunc f s' else s
  end.

Fixpoint TrimRightFunc (f : ascii -> bool) (s : string) : string :=
  match s with
  | EmptyString => EmptyString
  | String c s' =>
      match TrimRightFunc f s' with
      | EmptyString => if f c then EmptyString else String c EmptyString
      | r => String c r
      end
  end.

Definition TrimFunc (f : ascii -> bool) (s : string) : string :=
  TrimRightFunc f (TrimLeftFunc f s).

Definition Trim (s cutset : string) : string :=
  TrimFunc (fun c => mem c cutset) s.

(** '\t', '\n', '\v', '\f', '\r' and ' '. *)
Definition isSpace (c : ascii) : bool :=
  let n := byte_of c in ((9 <=? n) && (n <=? 13)) || (n =? 32).

Definition TrimSpace (s : string) : string := TrimFunc isSpace s.

Definition lower (c : ascii) : ascii :=
  let n := byte_of c in
  if (65 <=? n) && (n <=? 90) then ascii_of_N (Z.to_N (n + 32)) else c.

Fixpoint ToLower (s : string) : string :=
  match s with
  | EmptyString => EmptyString
  | String c s' => String (lower c) (ToLower s')
  end.

(** [Split s sep] for a separator that is not empty: the pieces between the
    occurrences of [sep], found from the left and not overlapping.  After an
    occurrence, [skip] counts the bytes of it still to pass. *)
Fixpoint split_from (sep s : string) (skip : nat) : list string :=
  match s with
  | EmptyString => [EmptyString]
  | String c s' =>
      match skip with
      | S k => split_from sep s' k
      | O =>
          if String.prefix sep s
          then EmptyString :: split_from sep s' (String.length sep - 1)
          else match split_from sep s' O with
               | p :: ps => String c p :: ps
               | [] => [String c EmptyString]
               end
      end
  end.

Definition Split (s sep : string) : list string := split_from sep s O.

(** [Cut s sep]: the text before and after the first occurrence of [sep]. *)
Fixpoint Cut (s sep : string) : option (string * string) :=
  if String.prefix sep s then Some (EmptyString, drop (String.length sep) s)
  else match s with
       | EmptyString => None
       | String c s' =>
           match Cut s' sep with
           | Some (a, b) => Some (String c a, b)
           | None => None
           end
       end.

(** [SplitN s sep 2] *)
Definition SplitN2 (s sep : string) : list string :=
  match Cut s sep with
  | Some (a, b) => [a; b]
  | None => [s]
  end.

End GoStrings.

(** *** [sort.Strings]: ascending in the byte-wise order of strings *)

Module GoSort.
Definition Strings (l : list string) : list string := merge_sort String.le l.
End GoSort.

(** *** [time]

    An instant is a count of nanoseconds on one clock; a [Duration] is an
    [int64] count of nanoseconds, and [Time.Sub] saturates at its bounds. *)

Module GoTime.
Definition Time := Z.
Definition Duration := Z.
Definition maxDuration : Z := 2 ^ 63 - 1.
Definition minDuration : Z := - 2 ^ 63.
Definition Nanosecond : Duration := 1.
Definition Millisecond : Duration := 1000000.
Definition Second : Duration := 1000000000.
Definition Minute : Duration := 60 * Second.

Definition Sub (t u : Time) : Duration :=
  let d := t - u in
  if maxDuration <? d then maxDuration
  else if d <? minDuration then minDuration
  else d.
End GoTime.

(** *** Values of type [interface{}] that the code handles: what a JSON
    document decodes to.  A number is kept as its literal. *)

Inductive value : Type :=
  | VNull
  | VBool (b : bool)
  | VNumber (lit : string)
  | VString (s : string)
  | VArray (l : list value)
  | VObject (m : gmap string value).

(** A Go [error]: [None] is [nil], [Some msg] an error with that message. *)
Definition error := option string.

(** [%w] and [%s] of [fmt.Errorf] *)
Definition Errorf2 (pre : string) (a : string) (mid : string) (b : string) : error :=
  Some (pre +:+ a +:+ mid +:+ b).

(** *** The types of [core/mcp.go] *)

Module MCPServerConfig.
Record t := Make {
  Name : string;
  Type_ : string;
  Host : string;
  Port : Z;
  Command : string;
  Enabled : bool }.
End MCPServerConfig.

Module MCPToolInfo.
Record t := Make {
  Name : string;
  Description : string;
  Schema : gmap string value;
  ServerName : string }.
End MCPToolInfo.

Module MCPToolExecution.
Record t := Make {
  ToolName : string;
  Arguments : gmap string value;
  ServerName : string }.
End MCPToolExecution.

Module MCPContent.
Record t := Make {
  Type_ : string;
  Text : string;
  Data : string;
  MimeType : string;
  Metadata : gmap string value }.
End MCPContent.

Module MCPToolResult.
Record t := Make {
  ToolName : string;
  ServerName : string;
  Success : bool;
  Content : list MCPContent.t;
  Error : string;
  Duration : GoTime.Duration }.

(** [MCPToolResult{}] *)
Definition zero : t := Make "" "" false [] "" 0.
End MCPToolResult.

Module MCPCacheKey.
Record t := Make {
  ToolName : string;
  ServerName : string;
  Args : gmap string string;
  Hash : string }.
End MCPCacheKey.

Module MCPCachedResult.
Record t := Make {
  Key : MCPCacheKey.t;
  Result : MCPToolResult.t;
  Timestamp : GoTime.Time;
  TTL : GoTime.Duration;
  AccessCount : Z;
  Metadata : gmap string value }.
End MCPCachedResult.

Module MCPCacheStats.
Record t := Make {
  TotalKeys : Z;
  HitCount : Z;
  MissCount : Z;
  HitRate : Q;
  EvictionCount : Z;
  TotalSize : Z;
  AverageLatency : GoTime.Duration;
  LastCleanup : GoTime.Time }.

(** [var totalStats MCPCacheStats] *)
Definition zero : t := Make 0 0 0 0%Q 0 0 0 0.
End MCPCacheStats.

Module MCPCacheConfig.
Record t := Make {
  Enabled : bool;
  DefaultTTL : GoTime.Duration;
  MaxSize : Z;
  MaxKeys : Z;
  EvictionPolicy : string;
  CleanupInterval : GoTime.Duration;
  ToolTTLs : gmap string GoTime.Duration;
  Backend : string;
  BackendConfig : gmap string string }.
End MCPCacheConfig.

(** *** Section 10 of the source: cache utilities *)

(** [for k, v := range args]: the entries of [args] in the order the range
    visits them, which Go leaves unspecified.  [range_of args order] says that
    [order] is such an order. *)
Definition range_of {V : Type} (args : gmap string V) (order : list (string * V)) : Prop :=
  order ≡ₚ map_to_list args.

(** [normalizeArgs], the range visiting the entries in [order].  When two
    keys normalize to the same key, the entry visited last is the one that
    stays. *)
Definition normalizeArgs_in (order : list (string * string)) : gmap string string :=
  fold_left
    (fun normalized kv =>
       <[GoStrings.ToLower (GoStrings.TrimSpace kv.1) := GoStrings.TrimSpace kv.2]> normalized)
    order ∅.

Definition normalizeArgs (args : gmap string string) : gmap string string :=
  normalizeArgs_in (map_to_list args).

(** [generateArgHash], the first range visiting the keys in the order of
    [order]; the keys are then sorted. *)
Definition generateArgHash_in (order : list (string * string))
    (args : gmap string string) : string :=
  let keys := GoSort.Strings (fold_left (fun keys kv => keys ++ [kv.1]) order []) in
  let h :=
    fold_left
      (fun h k => GoSha256.Write h (k +:+ "=" +:+ default "" (args !! k) +:+ "|"))
      keys GoSha256.New in
  String.substring 0 16 (GoHex.EncodeToString (GoSha256.Sum h)).

Definition generateArgHash (args : gmap string string) : string :=
  generateArgHash_in (map_to_list args) args.

Definition GenerateCacheKey (toolName serverName : string)
    (args : gmap string string) : MCPCacheKey.t :=
  MCPCacheKey.Make toolName serverName (normalizeArgs args) (generateArgHash args).

(** [fmt.Sprintf("%s:%s:%s", key.ToolName, key.ServerName, key.Hash)] *)
Definition keyToString (key : MCPCacheKey.t) : string :=
  MCPCacheKey.ToolName key +:+ ":" +:+ MCPCacheKey.ServerName key +:+ ":"
  +:+ MCPCacheKey.Hash key.

(** *** The world outside: the clock, the network and the MCP client library

    [github.com/kunalkushwaha/mcp-navigator-go] is not part of the repository.
    Its client, [net.DialTimeout] and [time.Now] are operations on a state of
    the world of which nothing is assumed. *)

Module MCPClient.
(** What the client builder is given. *)
Record t := Make {
  Host : string;
  Port : Z;
  Name : string;
  Version : string;
  Timeout : GoTime.Duration }.
End MCPClient.

Module RemoteTool.
Record t := Make {
  Name : string;
  Description : string;
  InputSchema : option (gmap string value) }.
End RemoteTool.

Module RemoteContent.
Record t := Make {
  Type_ : string;
  Text : string;
  Data : string;
  MimeType : string }.
End RemoteContent.

Module CallToolResult.
Record t := Make {
  Content : list RemoteContent.t;
  IsError : bool }.
End CallToolResult.

Record Env (World : Type) := MkEnv {
  time_Now : World -> GoTime.Time * World;
  (** [net.DialTimeout(network, address, timeout)], the connection being
      closed at once when the dial succeeds *)
  net_DialTimeout : string -> string -> GoTime.Duration -> World -> error * World;
  client_Connect : MCPClient.t -> World -> error * World;
  client_Disconnect : MCPClient.t -> World -> World;
  (** [Initialize(ctx, mcp.ClientInfo{Name, Version})] *)
  client_Initialize : MCPClient.t -> string -> string -> World -> error * World;
  client_ListTools : MCPClient.t -> World -> list RemoteTool.t * error * World;
  client_CallTool :
    MCPClient.t -> string -> gmap string value -> World
    -> (CallToolResult.t + string) * World;
  (** [fmt.Sprintf("%v", v)] *)
  Sprintf_v : value -> string }.

Arguments time_Now {World} _ _.
Arguments net_DialTimeout {World} _ _ _ _ _.
Arguments client_Connect {World} _ _ _.
Arguments client_Disconnect {World} _ _ _.
Arguments client_Initialize {World} _ _ _ _ _.
Arguments client_ListTools {World} _ _ _.
Arguments client_CallTool {World} _ _ _ _ _.
Arguments Sprintf_v {World} _ _.

(** What a call does: it returns, or it never does. *)
Inductive outcome (A : Type) : Type :=
  | Returns (a : A)
  | Blocks.
Arguments Returns {A} a.
Arguments Blocks {A}.

(** [int] and [int64] addition *)
Definition wrap64 (x : Z) : Z := (x + 2 ^ 63) mod 2 ^ 64 - 2 ^ 63.
Definition add64 (x y : Z) : Z := wrap64 (x + y).

(** *** Section 14 of the source: the in-memory cache of one pair *)

Module realMCPCache.

Record t := Make { data : gmap string MCPCachedResult.t }.

Definition newRealMCPCache : t := Make ∅.

Section WithEnv.
Context {World : Type} (env : Env World).

(** [Get] returns the entry (or [nil]) and the error, and leaves the cache
    and the world in a new state.  The clock is read, by [time.Since],
    only for a key that is present. *)
Definition Get (c : t) (key : MCPCacheKey.t) (w : World)
    : option MCPCachedResult.t * error * t * World :=
  let keyStr := keyToString key in
  match data c !! keyStr with
  | None => (None, Some "cache miss", c, w)
  | Some result =>
      let '(now, w') := time_Now env w in
      if MCPCachedResult.TTL result <? GoTime.Sub now (MCPCachedResult.Timestamp result)
      then (None, Some "cache expired", Make (delete keyStr (data c)), w')
      else (Some result, None, c, w')
  end.

Definition Set_ (c : t) (key : MCPCacheKey.t) (result : MCPToolResult.t)
    (ttl : GoTime.Duration) (w : World) : error * t * World :=
  let keyStr := keyToString key in
  let '(now, w') := time_Now env w in
  let cachedResult := MCPCachedResult.Make key result now ttl 0 ∅ in
  (None, Make (<[keyStr := cachedResult]> (data c)), w').

End WithEnv.

Definition Delete (c : t) (key : MCPCacheKey.t) : error * t :=
  (None, Make (delete (keyToString key) (data c))).

Definition Clear (c : t) : error * t := (None, Make ∅).

Definition Size (c : t) : Z * error := (Z.of_nat (size (data c)), None).

Definition Exists (c : t) (key : MCPCacheKey.t) : bool * error * t :=
  let keyStr := keyToString key in
  match data c !! keyStr with
  | Some _ => (true, None, c)
  | None => (false, None, c)
  end.

Definition Stats (c : t) : MCPCacheStats.t * error :=
  (MCPCacheStats.Make (Z.of_nat (size (data c))) 0 0 0%Q 0 0 0 0, None).

Definition Close (c : t) : error * t := (None, Make ∅).

Section MoreWithEnv.
Context {World : Type} (env : Env World).

(** [TTL]: the time the entry has left.  The subtraction is one of [int64]
    durations. *)
Definition TTL (c : t) (key : MCPCacheKey.t) (w : World)
    : GoTime.Duration * error * World :=
  let keyStr := keyToString key in
  match data c !! keyStr with
  | None => (0, Some "key not found", w)
  | Some result =>
      let '(now, w') := time_Now env w in
      let elapsed := GoTime.Sub now (MCPCachedResult.Timestamp result) in
      let remaining := wrap64 (MCPCachedResult.TTL result - elapsed) in
      if remaining <? 0 then (0, None, w') else (remaining, None, w')
  end.

(** [Cleanup], the range visiting the entries in [order].  The clock is read
    once, before the range; an entry that is deleted is the one being
    visited, so every entry of the map is visited. *)
Definition Cleanup_in (order : list (string * MCPCachedResult.t)) (c : t) (w : World)
    : error * t * World :=
  let '(now, w') := time_Now env w in
  (None,
   Make (fold_left
           (fun data kv =>
              if MCPCachedResult.TTL kv.2
                 <? GoTime.Sub now (MCPCachedResult.Timestamp kv.2)
              then delete kv.1 data
              else data)
           order (data c)),
   w').

Definition Cleanup (c : t) (w : World) : error * t * World :=
  Cleanup_in (map_to_list (data c)) c w.

End MoreWithEnv.

End realMCPCache.

Module MCPConfig.
Record t := Make {
  EnableDiscovery : bool;
  DiscoveryTimeout : GoTime.Duration;
  ScanPorts : list Z;
  ConnectionTimeout : GoTime.Duration;
  MaxRetries : Z;
  RetryDelay : GoTime.Duration;
  Servers : list MCPServerConfig.t;
  EnableCaching : bool;
  CacheTimeout : GoTime.Duration;
  MaxConnections : Z }.
End MCPConfig.

Module MCPServerInfo.
Record t := Make {
  Name : string;
  Type_ : string;
  Address : string;
  Port : Z;
  Version : string;
  Description : string;
  Capabilities : gmap string value;
  Status : string }.
End MCPServerInfo.

Module MCPHealthStatus.
Record t := Make {
  Status : string;
  LastCheck : GoTime.Time;
  ResponseTime : GoTime.Duration;
  Error : string;
  ToolCount : Z }.
End MCPHealthStatus.

(** *** Section 9 of the source: configuration helpers *)

Definition NewMCPServerConfig (name serverType host : string) (port : Z)
    : MCPServerConfig.t * error :=
  let config := MCPServerConfig.Make name serverType host port "" true in
  if String.eqb name "" then (config, Some "server name cannot be empty")
  else if String.eqb serverType "tcp" || String.eqb serverType "websocket" then
    if String.eqb host "" then
      (config, Some (serverType +:+ " server must specify host"))
    else if (port <=? 0) || (65535 <? port) then
      (config, Some (serverType +:+ " server must specify valid port (1-65535)"))
    else (config, None)
  else if String.eqb serverType "stdio" then
    (* For STDIO, the host field is used as the command *)
    if String.eqb host "" then (config, Some "stdio server must specify command")
    else (MCPServerConfig.Make name serverType "" 0 host true, None)
  else if String.eqb serverType "docker" then (config, None)
  else (config, Some ("unsupported server type: " +:+ serverType)).

Definition NewTCPServerConfig (name host : string) (port : Z)
    : MCPServerConfig.t * error :=
  NewMCPServerConfig name "tcp" host port.

Definition NewSTDIOServerConfig (name command : string) : MCPServerConfig.t * error :=
  let config := MCPServerConfig.Make name "stdio" "" 0 command true in
  if String.eqb name "" then (config, Some "server name cannot be empty")
  else if String.eqb command "" then (config, Some "stdio server must specify command")
  else (config, None).

Definition NewWebSocketServerConfig (name host : string) (port : Z)
    : MCPServerConfig.t * error :=
  NewMCPServerConfig name "websocket" host port.

(** *** Section 13 of the source: the connection manager *)

Module realMCPManager.

Record t := Make {
  config : MCPConfig.t;
  connectedServers : gmap string bool;
  tools : list MCPToolInfo.t }.

Definition createRealMCPManager (config : MCPConfig.t) : t := Make config ∅ [].

Definition with_connected (m : t) (cs : gmap string bool) : t :=
  Make (config m) cs (tools m).
Definition with_tools (m : t) (ts : list MCPToolInfo.t) : t :=
  Make (config m) (connectedServers m) ts.

(** The first server of the configuration with that name. *)
Definition serverNamed (m : t) (name : string) : option MCPServerConfig.t :=
  List.find (fun server => String.eqb (MCPServerConfig.Name server) name)
            (MCPConfig.Servers (config m)).

(** [fmt.Sprintf("%s:%d", serverConfig.Host, serverConfig.Port)] *)
Definition addressOf (serverConfig : MCPServerConfig.t) : string :=
  MCPServerConfig.Host serverConfig +:+ ":" +:+ pretty (MCPServerConfig.Port serverConfig).

Section WithEnv.
Context {World : Type} (env : Env World).

Definition Connect (m : t) (serverName : string) (w : World) : error * t * World :=
  match serverNamed m serverName with
  | None =>
      (Some ("server " +:+ serverName +:+ " not found in configuration"), m, w)
  | Some serverConfig =>
      if String.eqb (MCPServerConfig.Type_ serverConfig) "tcp" then
        let address := addressOf serverConfig in
        match net_DialTimeout env "tcp" address (30 * GoTime.Second) w with
        | (Some err, w') =>
            (Errorf2 "connection failed to " address ": " err, m, w')
        | (None, w') =>
            (None, with_connected m (<[serverName := true]> (connectedServers m)), w')
        end
      else
        (Some ("unsupported server type: " +:+ MCPServerConfig.Type_ serverConfig), m, w)
  end.

Definition Disconnect (m : t) (serverName : string) : error * t :=
  (None, with_connected m (delete serverName (connectedServers m))).

Definition convertTool (serverName : string) (tool : RemoteTool.t) : MCPToolInfo.t :=
  MCPToolInfo.Make (RemoteTool.Name tool) (RemoteTool.Description tool)
    (default ∅ (RemoteTool.InputSchema tool)) serverName.

Definition discoverToolsFromServer (m : t) (serverName : string) (w : World)
    : list MCPToolInfo.t * error * World :=
  match serverNamed m serverName with
  | None => ([], Some ("server " +:+ serverName +:+ " not found"), w)
  | Some serverConfig =>
      if String.eqb (MCPServerConfig.Type_ serverConfig) "tcp" then
        let address := addressOf serverConfig in
        let mcpClient :=
          MCPClient.Make (MCPServerConfig.Host serverConfig)
            (MCPServerConfig.Port serverConfig)
            "agentflow-mcp-client" "1.0.0" (30 * GoTime.Second) in
        match client_Connect env mcpClient w with
        | (Some err, w1) =>
            ([], Errorf2 "failed to connect to MCP server " address ": " err, w1)
        | (None, w1) =>
            (* from here on the deferred [Disconnect] runs at every return *)
            match client_Initialize env mcpClient "agentflow-mcp-client" "1.0.0" w1 with
            | (Some err, w2) =>
                ([], Errorf2 "failed to initialize MCP session with " address ": " err,
                 client_Disconnect env mcpClient w2)
            | (None, w2) =>
                match client_ListTools env mcpClient w2 with
                | (_, Some err, w3) =>
                    ([], Errorf2 "failed to list tools from MCP server " address ": " err,
                     client_Disconnect env mcpClient w3)
                | (remote, None, w3) =>
                    (List.map (convertTool serverName) remote, None,
                     client_Disconnect env mcpClient w3)
                end
            end
        end
      else
        ([], Some ("unsupported server type: " +:+ MCPServerConfig.Type_ serverConfig), w)
  end.

(** One turn of the loop of [RefreshTools]. *)
Definition RefreshTools_server (st : t * World) (server : MCPServerConfig.t)
    : t * World :=
  let '(m, w) := st in
  if MCPServerConfig.Enabled server then
    match Connect m (MCPServerConfig.Name server) w with
    | (Some _, m1, w1) => (m1, w1)
    | (None, m1, w1) =>
        let isConnected :=
          default false (connectedServers m1 !! MCPServerConfig.Name server) in
        if isConnected then
          match discoverToolsFromServer m1 (MCPServerConfig.Name server) w1 with
          | (_, Some _, w2) => (m1, w2)
          | (serverTools, None, w2) =>
              (with_tools m1 (tools m1 ++ serverTools), w2)
          end
        else (m1, w1)
    end
  else (m, w).

Definition RefreshTools (m : t) (w : World) : error * t * World :=
  let m0 := with_tools m [] in
  let '(m', w') :=
    fold_left RefreshTools_server (MCPConfig.Servers (config m)) (m0, w) in
  (None, m', w').

Definition convertContent (content : RemoteContent.t) : MCPContent.t :=
  MCPContent.Make (RemoteContent.Type_ content) (RemoteContent.Text content)
    (RemoteContent.Data content) (RemoteContent.MimeType content) ∅.

(** [executeTool] holds the read lock of the manager from its first line
    to its return.  For a target server that is not marked connected it
    calls [Connect], which waits for the write lock of the same mutex:
    that call never returns.  On every other path the manager is only
    read. *)
Definition executeTool (m : t) (toolName : string) (args : gmap string value)
    (w : World) : outcome (MCPToolResult.t * error) * World :=
  let targetServer :=
    match List.find (fun tool => String.eqb (MCPToolInfo.Name tool) toolName) (tools m) with
    | Some tool => MCPToolInfo.ServerName tool
    | None => ""
    end in
  if String.eqb targetServer "" then
    (Returns (MCPToolResult.zero,
              Some ("tool " +:+ toolName +:+ " not found in any connected server")), w)
  else
    match serverNamed m targetServer with
    | None =>
        (Returns (MCPToolResult.zero,
                  Some ("server config for " +:+ targetServer +:+ " not found")), w)
    | Some serverConfig =>
        if negb (default false (connectedServers m !! targetServer)) then
          (Blocks, w)
        else
          let mcpClient :=
            MCPClient.Make (MCPServerConfig.Host serverConfig)
              (MCPServerConfig.Port serverConfig)
              "agentflow-tool-executor" "1.0.0" (30 * GoTime.Second) in
          let '(start, w0) := time_Now env w in
          match client_Connect env mcpClient w0 with
          | (Some err, w1) =>
              (Returns (MCPToolResult.zero,
                        Some ("failed to connect to MCP server: " +:+ err)), w1)
          | (None, w1) =>
              match client_Initialize env mcpClient "agentflow-tool-executor" "1.0.0" w1 with
              | (Some err, w2) =>
                  (Returns (MCPToolResult.zero,
                            Some ("failed to initialize MCP session: " +:+ err)),
                   client_Disconnect env mcpClient w2)
              | (None, w2) =>
                  match client_CallTool env mcpClient toolName args w2 with
                  | (inr err, w3) =>
                      (Returns (MCPToolResult.zero,
                                Some ("tool execution failed: " +:+ err)),
                       client_Disconnect env mcpClient w3)
                  | (inl result, w3) =>
                      let '(now, w4) := time_Now env w3 in
                      let duration := GoTime.Sub now start in
                      let isError := CallToolResult.IsError result in
                      let mcpResult :=
                        MCPToolResult.Make toolName targetServer
                          (if isError then false else negb isError)
                          (List.map convertContent (CallToolResult.Content result))
                          (if isError then "Tool execution returned error" else "")
                          duration in
                      (Returns (mcpResult, None), client_Disconnect env mcpClient w4)
                  end
              end
          end
    end.

(** [DisconnectAll] deletes the keys one by one, in the order of the range. *)
Definition DisconnectAll_in (order : list (string * bool)) (m : t) : error * t :=
  (None,
   with_connected m
     (fold_left (fun cs kv => delete kv.1 cs) order (connectedServers m))).

Definition DisconnectAll (m : t) : error * t :=
  DisconnectAll_in (map_to_list (connectedServers m)) m.

(** One turn of the loop of [DiscoverServers]. *)
Definition DiscoverServers_server (st : list MCPServerInfo.t * t * World)
    (server : MCPServerConfig.t) : list MCPServerInfo.t * t * World :=
  let '(servers, m, w) := st in
  if MCPServerConfig.Enabled server then
    let serverInfo (status : string) :=
      MCPServerInfo.Make (MCPServerConfig.Name server) (MCPServerConfig.Type_ server)
        (MCPServerConfig.Host server) (MCPServerConfig.Port server) "1.0.0" "" ∅ status in
    match Connect m (MCPServerConfig.Name server) w with
    | (Some _, m1, w1) => (servers ++ [serverInfo "unavailable"], m1, w1)
    | (None, m1, w1) => (servers ++ [serverInfo "connected"], m1, w1)
    end
  else st.

Definition DiscoverServers (m : t) (w : World)
    : list MCPServerInfo.t * error * t * World :=
  let '(servers, m', w') :=
    fold_left DiscoverServers_server (MCPConfig.Servers (config m)) ([], m, w) in
  (servers, None, m', w').

(** [for server := range m.connectedServers], in the order of the range *)
Definition ListConnectedServers_in (order : list (string * bool)) : list string :=
  fold_left (fun servers kv => servers ++ [kv.1]) order [].

Definition ListConnectedServers (m : t) : list string :=
  ListConnectedServers_in (map_to_list (connectedServers m)).

Definition GetServerInfo (m : t) (serverName : string)
    : option MCPServerInfo.t * error :=
  match serverNamed m serverName with
  | Some server =>
      let status :=
        if default false (connectedServers m !! serverName)
        then "connected" else "disconnected" in
      (Some (MCPServerInfo.Make (MCPServerConfig.Name server)
               (MCPServerConfig.Type_ server) (MCPServerConfig.Host server)
               (MCPServerConfig.Port server) "1.0.0" "" ∅ status), None)
  | None => (None, Some ("server " +:+ serverName +:+ " not found"))
  end.

Definition GetAvailableTools (m : t) : list MCPToolInfo.t := tools m.

Definition GetToolsFromServer (m : t) (serverName : string) : list MCPToolInfo.t :=
  List.filter (fun tool => String.eqb (MCPToolInfo.ServerName tool) serverName) (tools m).

(** One turn of the loop of [HealthCheck]: the clock is read for
    [LastCheck], then for [start], and after a connection for the response
    time. *)
Definition HealthCheck_server (st : gmap string MCPHealthStatus.t * t * World)
    (server : MCPServerConfig.t) : gmap string MCPHealthStatus.t * t * World :=
  let '(healthMap, m, w) := st in
  if MCPServerConfig.Enabled server then
    let name := MCPServerConfig.Name server in
    let toolCount := Z.of_nat (length (GetToolsFromServer m name)) in
    let '(lastCheck, w) := time_Now env w in
    let '(start, w) := time_Now env w in
    match Connect m name w with
    | (Some err, m, w) =>
        (<[name := MCPHealthStatus.Make "unhealthy" lastCheck 0 err toolCount]> healthMap,
         m, w)
    | (None, m, w) =>
        let '(now, w) := time_Now env w in
        (<[name := MCPHealthStatus.Make "healthy" lastCheck (GoTime.Sub now start) ""
                     toolCount]> healthMap,
         m, w)
    end
  else st.

Definition HealthCheck (m : t) (w : World)
    : gmap string MCPHealthStatus.t * t * World :=
  fold_left HealthCheck_server (MCPConfig.Servers (config m)) (∅, m, w).

End WithEnv.

End realMCPManager.

(** The global manager: an [MCPManager] is a [realMCPManager] or the product
    of some other registered factory. *)
Inductive MCPManager : Type :=
  | RealMCPManager (m : realMCPManager.t)
  | OtherMCPManager.

(** *** The cache manager *)

Module realMCPCacheManager.

(** [caches] holds pointers: the cache of a pair is the object found under
    the key of the pair, and an operation on it changes it in place there. *)
Record t := Make {
  config : MCPCacheConfig.t;
  caches : gmap string realMCPCache.t }.

Definition createRealMCPCacheManager (config : MCPCacheConfig.t) : t :=
  Make config ∅.

(** [fmt.Sprintf("%s:%s", toolName, serverName)] *)
Definition pairKey (toolName serverName : string) : string :=
  toolName +:+ ":" +:+ serverName.

(** [GetCache] returns the cache of the pair, as the key under which it is
    held, after creating it when there is none. *)
Definition GetCache (cm : t) (toolName serverName : string) : string * t :=
  let key := pairKey toolName serverName in
  match caches cm !! key with
  | Some _ => (key, cm)
  | None => (key, Make (config cm) (<[key := realMCPCache.newRealMCPCache]> (caches cm)))
  end.

(** The object a pointer returned by [GetCache] points to, and its update. *)
Definition deref (cm : t) (cache : string) : realMCPCache.t :=
  default realMCPCache.newRealMCPCache (caches cm !! cache).
Definition assign (cm : t) (cache : string) (c : realMCPCache.t) : t :=
  Make (config cm) (<[cache := c]> (caches cm)).

Section WithEnv.
Context {World : Type} (env : Env World).

Definition ExecuteWithCache (cm : t) (globalMCPManager : option MCPManager)
    (execution : MCPToolExecution.t) (w : World)
    : outcome (MCPToolResult.t * error) * t * World :=
  let toolName := MCPToolExecution.ToolName execution in
  let serverName := MCPToolExecution.ServerName execution in
  let args := Sprintf_v env <$> MCPToolExecution.Arguments execution in
  let cacheKey := GenerateCacheKey toolName serverName args in
  let '(cache, cm) := GetCache cm toolName serverName in
  (* Try to get from cache first *)
  let '(cached, cm, w) :=
    if MCPCacheConfig.Enabled (config cm) then
      match realMCPCache.Get env (deref cm cache) cacheKey w with
      | (Some cached, None, c, w') => (Some cached, assign cm cache c, w')
      | (_, _, c, w') => (None, assign cm cache c, w')
      end
    else (None, cm, w) in
  match cached with
  | Some cached => (Returns (MCPCachedResult.Result cached, None), cm, w)
  | None =>
      (* Execute the tool directly *)
      match globalMCPManager with
      | None =>
          (Returns (MCPToolResult.zero, Some "MCP manager not initialized"), cm, w)
      | Some OtherMCPManager =>
          (Returns (MCPToolResult.zero, Some "manager does not support tool execution"),
           cm, w)
      | Some (RealMCPManager realManager) =>
          match realMCPManager.executeTool env realManager toolName
                  (MCPToolExecution.Arguments execution) w with
          | (Blocks, w) => (Blocks, cm, w)
          | (Returns (result, Some err), w) => (Returns (result, Some err), cm, w)
          | (Returns (result, None), w) =>
              (* Cache the result if successful *)
              if MCPCacheConfig.Enabled (config cm) && MCPToolResult.Success result then
                let ttl := MCPCacheConfig.DefaultTTL (config cm) in
                let '(_, c, w) := realMCPCache.Set_ env (deref cm cache) cacheKey result ttl w in
                (Returns (result, None), assign cm cache c, w)
              else (Returns (result, None), cm, w)
          end
      end
  end.

(** Whether [ExecuteWithCache] answers from the cache: caching is enabled
    and [Get] on the cache of the pair returns no error. *)
Definition answersFromCache (cm : t) (execution : MCPToolExecution.t) (w : World)
    : bool :=
  let toolName := MCPToolExecution.ToolName execution in
  let serverName := MCPToolExecution.ServerName execution in
  let args := Sprintf_v env <$> MCPToolExecution.Arguments execution in
  let cacheKey := GenerateCacheKey toolName serverName args in
  let '(cache, cm) := GetCache cm toolName serverName in
  MCPCacheConfig.Enabled (config cm)
  && match realMCPCache.Get env (deref cm cache) cacheKey w with
     | (Some _, None, _, _) => true
     | _ => false
     end.

(** A run of executions through one manager, with the number of those
    answered from the cache (hits) and of the others (misses); the run
    stops at a call that does not return. *)
Fixpoint runExecutions (cm : t) (globalMCPManager : option MCPManager)
    (executions : list MCPToolExecution.t) (w : World) (hits misses : nat)
    : t * World * nat * nat :=
  match executions with
  | [] => (cm, w, hits, misses)
  | execution :: rest =>
      let hit := answersFromCache cm execution w in
      match ExecuteWithCache cm globalMCPManager execution w with
      | (Blocks, cm', w') =>
          (cm', w', hits, S misses)
      | (Returns _, cm', w') =>
          if hit then runExecutions cm' globalMCPManager rest w' (S hits) misses
          else runExecutions cm' globalMCPManager rest w' hits (S misses)
      end
  end.

End WithEnv.

Definition addStats (totalStats : MCPCacheStats.t) (cache : realMCPCache.t)
    : MCPCacheStats.t :=
  match realMCPCache.Stats cache with
  | (_, Some _) => totalStats
  | (stats, None) =>
      MCPCacheStats.Make
        (add64 (MCPCacheStats.TotalKeys totalStats) (MCPCacheStats.TotalKeys stats))
        (add64 (MCPCacheStats.HitCount totalStats) (MCPCacheStats.HitCount stats))
        (add64 (MCPCacheStats.MissCount totalStats) (MCPCacheStats.MissCount stats))
        (MCPCacheStats.HitRate totalStats)
        (MCPCacheStats.EvictionCount totalStats)
        (add64 (MCPCacheStats.TotalSize totalStats) (MCPCacheStats.TotalSize stats))
        (MCPCacheStats.AverageLatency totalStats)
        (MCPCacheStats.LastCleanup totalStats)
  end.

(** The quotient of the two [float64] conversions, as a rational. *)
Definition ratio (hits total : Z) : Q := (inject_Z hits / inject_Z total)%Q.

(** [GetGlobalStats], the range visiting the caches in [order]. *)
Definition GetGlobalStats_in (order : list (string * realMCPCache.t))
    : MCPCacheStats.t * error :=
  let totalStats := fold_left (fun total kv => addStats total kv.2) order MCPCacheStats.zero in
  let sum := add64 (MCPCacheStats.HitCount totalStats) (MCPCacheStats.MissCount totalStats) in
  if 0 <? sum then
    (MCPCacheStats.Make
       (MCPCacheStats.TotalKeys totalStats)
       (MCPCacheStats.HitCount totalStats)
       (MCPCacheStats.MissCount totalStats)
       (ratio (MCPCacheStats.HitCount totalStats) sum)
       (MCPCacheStats.EvictionCount totalStats)
       (MCPCacheStats.TotalSize totalStats)
       (MCPCacheStats.AverageLatency totalStats)
       (MCPCacheStats.LastCleanup totalStats), None)
  else (totalStats, None).

Definition GetGlobalStats (cm : t) : MCPCacheStats.t * error :=
  GetGlobalStats_in (map_to_list (caches cm)).

(** [InvalidateByPattern], the range visiting the caches in [order]: a cache
    whose key contains the pattern is cleared in place; an error of [Clear]
    ends the range. *)
Definition InvalidateByPattern_in (order : list (string * realMCPCache.t)) (cm : t)
    (pattern : string) : error * t :=
  fold_left
    (fun st kv =>
       match st with
       | (Some err, cm) => (Some err, cm)
       | (None, cm) =>
           if GoStrings.Contains kv.1 pattern then
             match realMCPCache.Clear (deref cm kv.1) with
             | (Some err, c) =>
                 (Errorf2 "failed to clear cache for " kv.1 ": " err, assign cm kv.1 c)
             | (None, c) => (None, assign cm kv.1 c)
             end
           else (None, cm)
       end)
    order (None, cm).

Definition InvalidateByPattern (cm : t) (pattern : string) : error * t :=
  InvalidateByPattern_in (map_to_list (caches cm)) cm pattern.

(** [Shutdown] clears every cache and then drops them all; an error of
    [Clear] is only logged. *)
Definition Shutdown_in (order : list (string * realMCPCache.t)) (cm : t) : error * t :=
  let cm1 :=
    fold_left (fun cm kv => assign cm kv.1 (realMCPCache.Clear (deref cm kv.1)).2)
      order cm in
  (None, Make (config cm1) ∅).

Definition Shutdown (cm : t) : error * t := Shutdown_in (map_to_list (caches cm)) cm.

Definition Configure (cm : t) (config : MCPCacheConfig.t) : error * t :=
  (None, Make config (caches cm)).

End realMCPCacheManager.

(** *** Section 8 of the source: [ExecuteMCPTool]

    The global manager and the global cache manager are arguments; the cache
    manager afterwards is returned. *)

Section Helpers.
Context {World : Type} (env : Env World).

Definition ExecuteMCPTool (globalMCPManager : option MCPManager)
    (globalCacheManager : option realMCPCacheManager.t)
    (toolName : string) (args : gmap string value) (w : World)
    : outcome (MCPToolResult.t * error) * option realMCPCacheManager.t * World :=
  match globalMCPManager with
  | None =>
      (Returns (MCPToolResult.zero, Some "MCP manager not initialized"),
       globalCacheManager, w)
  | Some manager =>
      (* Check if cache manager is available *)
      match globalCacheManager with
      | Some cacheManager =>
          (* Use cache-aware execution *)
          let execution := MCPToolExecution.Make toolName args "" in
          let '(o, cacheManager, w) :=
            realMCPCacheManager.ExecuteWithCache env cacheManager globalMCPManager
              execution w in
          (o, Some cacheManager, w)
      | None =>
          (* Direct execution without cache using the real MCP manager *)
          match manager with
          | OtherMCPManager =>
              (Returns (MCPToolResult.zero,
                        Some "manager does not support direct tool execution"),
               None, w)
          | RealMCPManager realManager =>
              let '(o, w) := realMCPManager.executeTool env realManager toolName args w in
              (o, None, w)
          end
      end
  end.

End Helpers.

(** *** Section 15 of the source: the registry of function tools

    A [FunctionTool] is an [mcpFunctionTool], which wraps a tool of the
    catalogue and points to a manager, or another implementation of the
    interface, given by its name and its [Call].  A call of an
    [mcpFunctionTool] reads the manager it points to at the time of the
    call, so [Call] takes the state of that manager.  A [map[string]any] that
    is returned is [None] when it is [nil]. *)

Inductive FunctionTool (World : Type) : Type :=
  | McpFunctionTool (toolInfo : MCPToolInfo.t)
  | OtherFunctionTool (name : string)
      (call : gmap string value -> World
              -> outcome (option (gmap string value) * error) * World).
Arguments McpFunctionTool {World} toolInfo.
Arguments OtherFunctionTool {World} name call.

Module mcpFunctionTool.

Section WithEnv.
Context {World : Type} (env : Env World).

(** [time.Duration.String] *)
Variable Duration_String : GoTime.Duration -> string.

(** The map built for one content of the result. *)
Definition contentMap (c : MCPContent.t) : value :=
  VObject {[ "type" := VString (MCPContent.Type_ c);
             "text" := VString (MCPContent.Text c);
             "data" := VString (MCPContent.Data c);
             "mimeType" := VString (MCPContent.MimeType c);
             "metadata" := VObject (MCPContent.Metadata c) ]}.

Definition Call (toolInfo : MCPToolInfo.t) (manager : MCPManager)
    (args : gmap string value) (w : World)
    : outcome (option (gmap string value) * error) * World :=
  match manager with
  | OtherMCPManager =>
      (Returns (None, Some "manager does not support tool execution"), w)
  | RealMCPManager realManager =>
      match realMCPManager.executeTool env realManager (MCPToolInfo.Name toolInfo) args w with
      | (Blocks, w) => (Blocks, w)
      | (Returns (_, Some err), w) => (Returns (None, Some err), w)
      | (Returns (result, None), w) =>
          if negb (MCPToolResult.Success result) then
            (Returns (None, Some ("tool execution failed: " +:+ MCPToolResult.Error result)),
             w)
          else
            (* Convert MCPContent to simple map *)
            let response : gmap string value :=
              <["duration" := VString (Duration_String (MCPToolResult.Duration result))]>
                (<["success" := VBool (MCPToolResult.Success result)]> ∅) in
            let response :=
              if (0 <? length (MCPToolResult.Content result))%nat then
                <["content" := VArray (List.map contentMap (MCPToolResult.Content result))]>
                  response
              else response in
            (Returns (Some response, None), w)
      end
  end.

End WithEnv.

End mcpFunctionTool.

Module realFunctionToolRegistry.

Section WithEnv.
Context {World : Type} (env : Env World).
Variable Duration_String : GoTime.Duration -> string.

Record t := Make { tools : gmap string (FunctionTool World) }.

Definition createRealFunctionToolRegistry : t := Make ∅.

(** [tool.Name()] *)
Definition Name (tool : FunctionTool World) : string :=
  match tool with
  | McpFunctionTool toolInfo => MCPToolInfo.Name toolInfo
  | OtherFunctionTool name _ => name
  end.

(** [tool.Call(ctx, args)], [manager] being the state of the manager that an
    [mcpFunctionTool] points to. *)
Definition Call (manager : MCPManager) (tool : FunctionTool World)
    (args : gmap string value) (w : World)
    : outcome (option (gmap string value) * error) * World :=
  match tool with
  | McpFunctionTool toolInfo =>
      mcpFunctionTool.Call env Duration_String toolInfo manager args w
  | OtherFunctionTool _ call => call args w
  end.

(** [Register]: [None] is the [nil] tool. *)
Definition Register (r : t) (tool : option (FunctionTool World)) : error * t :=
  match tool with
  | None => (Some "tool cannot be nil", r)
  | Some tool =>
      let name := Name tool in
      if String.eqb name "" then (Some "tool name cannot be empty", r)
      else
        match tools r !! name with
        | Some _ => (Some ("tool " +:+ name +:+ " already registered"), r)
        | None => (None, Make (<[name := tool]> (tools r)))
        end
  end.

Definition Get (r : t) (name : string) : option (FunctionTool World) * bool :=
  match tools r !! name with
  | Some tool => (Some tool, true)
  | None => (None, false)
  end.

(** [List], the range visiting the tools in [order] *)
Definition List_in (order : list (string * FunctionTool World)) : list string :=
  fold_left (fun names kv => names ++ [kv.1]) order [].

Definition List (r : t) : list string := List_in (map_to_list (tools r)).

Definition CallTool (manager : MCPManager) (r : t) (name : string)
    (args : gmap string value) (w : World)
    : outcome (option (gmap string value) * error) * World :=
  match tools r !! name with
  | None => (Returns (None, Some ("tool " +:+ name +:+ " not found")), w)
  | Some tool =>
      match Call manager tool args w with
      | (Blocks, w) => (Blocks, w)
      | (Returns (_, Some err), w) =>
          (Returns (None, Some ("tool execution failed: " +:+ err)), w)
      | (Returns (result, None), w) => (Returns (result, None), w)
      end
  end.

(** [RegisterMCPToolsWithRegistry], the global manager being a
    [realMCPManager] when there is one: the manager is refreshed and each
    tool of its catalogue is registered, an error of [Register] being only
    logged. *)
Definition RegisterMCPToolsWithRegistry (globalMCPManager : option realMCPManager.t)
    (globalMCPRegistry : option t) (w : World)
    : error * option realMCPManager.t * option t * World :=
  match globalMCPManager with
  | None => (Some "MCP manager not initialized", None, globalMCPRegistry, w)
  | Some manager =>
      match globalMCPRegistry with
      | None => (Some "MCP tool registry not initialized", Some manager, None, w)
      | Some registry =>
          (* Refresh tools from all connected servers *)
          let '(_, manager, w) := realMCPManager.RefreshTools env manager w in
          (* Get available tools and register them *)
          let tools := realMCPManager.GetAvailableTools manager in
          let registry :=
            fold_left
              (fun registry toolInfo =>
                 (Register registry (Some (McpFunctionTool toolInfo))).2)
              tools registry in
          (None, Some manager, Some registry, w)
      end
  end.

End WithEnv.

Arguments t World : clear implicits.

End realFunctionToolRegistry.

(** *** [encoding/json]: [Unmarshal] into a [map[string]interface{}]

    A decoder of the JSON grammar (RFC 8259), used where a property is about
    one given text.  The general properties of the parser below hold for
    every decoder.  A number is kept as its literal (the conversion to
    [float64] and its range error are not modelled), bytes from 0x80 on are
    copied as they are, and nesting is not limited. *)

Module GoJson.

Definition isSpace (c : ascii) : bool :=
  let n := byte_of c in (n =? 32) || (n =? 9) || (n =? 13) || (n =? 10).

Definition skipSpace (s : string) : string := GoStrings.TrimLeftFunc isSpace s.

Definition isDigit (c : ascii) : bool :=
  let n := byte_of c in (48 <=? n) && (n <=? 57).

Definition hexValue (c : ascii) : option Z :=
  let n := byte_of c in
  if (48 <=? n) && (n <=? 57) then Some (n - 48)
  else if (97 <=? n) && (n <=? 102) then Some (n - 87)
  else if (65 <=? n) && (n <=? 70) then Some (n - 55)
  else None.

(** The four hexadecimal digits after [\u]. *)
Definition hex4 (s : string) : option (Z * string) :=
  match s with
  | String a (String b (String c (String d r))) =>
      match hexValue a, hexValue b, hexValue c, hexValue d with
      | Some x, Some y, Some z, Some t => Some (((x * 16 + y) * 16 + z) * 16 + t, r)
      | _, _, _, _ => None
      end
  | _ => None
  end.

Definition chr (n : Z) : ascii := ascii_of_N (Z.to_N n).

Definition utf8 (cp : Z) : string :=
  if cp <? 0x80 then String (chr cp) ""
  else if cp <? 0x800 then
    String (chr (0xc0 + Z.shiftr cp 6)) (String (chr (0x80 + Z.land cp 0x3f)) "")
  else if cp <? 0x10000 then
    String (chr (0xe0 + Z.shiftr cp 12))
      (String (chr (0x80 + Z.land (Z.shiftr cp 6) 0x3f))
         (String (chr (0x80 + Z.land cp 0x3f)) ""))
  else
    String (chr (0xf0 + Z.shiftr cp 18))
      (String (chr (0x80 + Z.land (Z.shiftr cp 12) 0x3f))
         (String (chr (0x80 + Z.land (Z.shiftr cp 6) 0x3f))
            (String (chr (0x80 + Z.land cp 0x3f)) ""))).

Definition isSurrogate (cp : Z) : bool := (0xd800 <=? cp) && (cp <? 0xe000).

(** What a [\u] escape of value [cp] stands for, and the text after it: a
    surrogate pair is one code point, a lone surrogate is U+FFFD. *)
Definition unicodeEscape (cp : Z) (r : string) : string * string :=
  if isSurrogate cp then
    match r with
    | String "\" (String "u" r') =>
        match hex4 r' with
        | Some (lo, r'') =>
            if (cp <? 0xdc00) && (0xdc00 <=? lo) && (lo <? 0xe000)
            then (utf8 (0x10000 + (cp - 0xd800) * 0x400 + (lo - 0xdc00)), r'')
            else (utf8 0xfffd, r)
        | None => (utf8 0xfffd, r)
        end
    | _ => (utf8 0xfffd, r)
    end
  else (utf8 cp, r).

(** A string literal after its opening quote: its value and the text after
    its closing quote. *)
Fixpoint scanString (fuel : nat) (s : string) : option (string * string) :=
  match fuel with
  | O => None
  | S fuel' =>
      match s with
      | EmptyString => None
      | String c r =>
          if Ascii.eqb c dquote then Some ("", r)
          else if Ascii.eqb c "\" then
            match r with
            | EmptyString => None
            | String e r' =>
                let simple (x : Z) :=
                  match scanString fuel' r' with
                  | Some (v, rest) => Some (String (chr x) v, rest)
                  | None => None
                  end in
                if Ascii.eqb e dquote then simple 34
                else if Ascii.eqb e "\" then simple 92
                else if Ascii.eqb e "/" then simple 47
                else if Ascii.eqb e "b" then simple 8
                else if Ascii.eqb e "f" then simple 12
                else if Ascii.eqb e "n" then simple 10
                else if Ascii.eqb e "r" then simple 13
                else if Ascii.eqb e "t" then simple 9
                else if Ascii.eqb e "u" then
                  match hex4 r' with
                  | Some (cp, r'') =>
                      let '(u, r3) := unicodeEscape cp r'' in
                      match scanString fuel' r3 with
                      | Some (v, rest) => Some (u +:+ v, rest)
                      | None => None
                      end
                  | None => None
                  end
                else None
            end
          else if byte_of c <? 32 then None
          else
            match scanString fuel' r with
            | Some (v, rest) => Some (String c v, rest)
            | None => None
            end
      end
  end.

(** The longest run of digits at the head of [s], and the rest. *)
Fixpoint digits (s : string) : string * string :=
  match s with
  | String c r =>
      if isDigit c then let '(d, rest) := digits r in (String c d, rest)
      else ("", s)
  | EmptyString => ("", "")
  end.

(** A number literal: an optional minus sign, then 0 or digits that do not
    start with 0, then optionally a point and digits, then optionally an
    exponent: [e] or [E], an optional sign, and digits. *)
Definition scanNumber (s : string) : option (string * string) :=
  let '(sign, s1) :=
    match s with
    | String "-" r => ("-", r)
    | _ => ("", s)
    end in
  let '(int, s2) := digits s1 in
  if String.eqb int "" then None
  else if String.prefix "0" int && negb (String.eqb int "0") then None
  else
    let frac :=
      match s2 with
      | String "." r =>
          let '(d, rest) := digits r in
          if String.eqb d "" then None else Some ("." +:+ d, rest)
      | _ => Some ("", s2)
      end in
    match frac with
    | None => None
    | Some (f, s3) =>
        let exp :=
          match s3 with
          | String e r =>
              if Ascii.eqb e "e" || Ascii.eqb e "E" then
                let '(sg, r1) :=
                  match r with
                  | String "+" r' => ("+", r')
                  | String "-" r' => ("-", r')
                  | _ => ("", r)
                  end in
                let '(d, rest) := digits r1 in
                if String.eqb d "" then None
                else Some (String e "" +:+ sg +:+ d, rest)
              else Some ("", s3)
          | EmptyString => Some ("", s3)
          end in
        match exp with
        | None => None
        | Some (x, rest) => Some (sign +:+ int +:+ f +:+ x, rest)
        end
    end.

Definition literal (word : string) (v : value) (s : string) : option (value * string) :=
  if String.prefix word s then Some (v, GoStrings.drop (String.length word) s)
  else None.

Fixpoint scanValue (fuel : nat) (s : string) : option (value * string) :=
  match fuel with
  | O => None
  | S fuel' =>
      match skipSpace s with
      | String c r =>
          if Ascii.eqb c "{" then
            match skipSpace r with
            | String "}" r' => Some (VObject ∅, r')
            | _ => scanMembers fuel' r ∅
            end
          else if Ascii.eqb c "[" then
            match skipSpace r with
            | String "]" r' => Some (VArray [], r')
            | _ => scanElements fuel' r []
            end
          else if Ascii.eqb c dquote then
            match scanString (S (String.length r)) r with
            | Some (v, rest) => Some (VString v, rest)
            | None => None
            end
          else if Ascii.eqb c "t" then literal "true" (VBool true) (skipSpace s)
          else if Ascii.eqb c "f" then literal "false" (VBool false) (skipSpace s)
          else if Ascii.eqb c "n" then literal "null" VNull (skipSpace s)
          else
            match scanNumber (skipSpace s) with
            | Some (lit, rest) => Some (VNumber lit, rest)
            | None => None
            end
      | EmptyString => None
      end
  end
with scanMembers (fuel : nat) (s : string) (acc : gmap string value)
    : option (value * string) :=
  match fuel with
  | O => None
  | S fuel' =>
      match skipSpace s with
      | String c r =>
          if Ascii.eqb c dquote then
            match scanString (S (String.length r)) r with
            | Some (k, r1) =>
                match skipSpace r1 with
                | String ":" r2 =>
                    match scanValue fuel' r2 with
                    | Some (v, r3) =>
                        match skipSpace r3 with
                        | String "," r4 => scanMembers fuel' r4 (<[k := v]> acc)
                        | String "}" r4 => Some (VObject (<[k := v]> acc), r4)
                        | _ => None
                        end
                    | None => None
                    end
                | _ => None
                end
            | None => None
            end
          else None
      | EmptyString => None
      end
  end
with scanElements (fuel : nat) (s : string) (acc : list value)
    : option (value * string) :=
  match fuel with
  | O => None
  | S fuel' =>
      match scanValue fuel' s with
      | Some (v, r) =>
          match skipSpace r with
          | String "," r' => scanElements fuel' r' (acc ++ [v])
          | String "]" r' => Some (VArray (acc ++ [v]), r')
          | _ => None
          end
      | None => None
      end
  end.

(** [Unmarshal([]byte(s), &result)] for an empty map [result]: the map
    afterwards and the error.  A document that is an object fills the map,
    [null] leaves no entry, and every other document is an error. *)
Definition Unmarshal (s : string) : gmap string value * error :=
  match scanValue (2 * String.length s + 2) s with
  | Some (v, rest) =>
      if String.eqb (skipSpace rest) "" then
        match v with
        | VObject m => (m, None)
        | VNull => (∅, None)
        | _ => (∅, Some "json: cannot unmarshal into Go value of type map[string]interface {}")
        end
      else (∅, Some "invalid character after top-level value")
  | None => (∅, Some "invalid character or unexpected end of JSON input")
  end.

End GoJson.

(** *** The tool-call parser *)

Section Parser.

(** [json.Unmarshal] into the fresh map [result]: the map afterwards and
    the error. *)
Variable Unmarshal : string -> gmap string value * error.

(** The cut set of two bytes, the space and the double quote. *)
Definition quoteCutset : string := String " " (String dquote "").

(** [ParseToolCallJSON] calls itself on a value that is shorter than its
    argument; [fuel] bounds the depth of these calls. *)
Fixpoint ParseToolCallJSON_rec (fuel : nat) (jsonStr : string) : gmap string value :=
  match fuel with
  | O => ∅
  | S fuel' =>
      match Unmarshal jsonStr with
      | (result, None) => result
      | (result, Some _) =>
          (* Remove outer braces *)
          let jsonStr := GoStrings.Trim jsonStr "{}" in
          (* Split by commas (simple approach) *)
          let parts := GoStrings.Split jsonStr "," in
          fold_left
            (fun result part =>
               if GoStrings.Contains part ":" then
                 match GoStrings.SplitN2 part ":" with
                 | [k; v] =>
                     let key := GoStrings.Trim k quoteCutset in
                     let value := GoStrings.Trim v quoteCutset in
                     if String.eqb key "args"
                        && GoStrings.HasPrefix value "{"
                        && GoStrings.HasSuffix value "}"
                     then <[key := VObject (ParseToolCallJSON_rec fuel' value)]> result
                     else <[key := VString value]> result
                 | _ => result
                 end
               else result)
            parts result
      end
  end.

Definition ParseToolCallJSON (jsonStr : string) : gmap string value :=
  ParseToolCallJSON_rec (S (String.length jsonStr)) jsonStr.

(** The body of the loop of the fallback of [ParseToolCallJSON], its inner
    call written as a call of [ParseToolCallJSON]. *)
Definition fallbackEntry (result : gmap string value) (part : string)
    : gmap string value :=
  if GoStrings.Contains part ":" then
    match GoStrings.SplitN2 part ":" with
    | [k; v] =>
        let key := GoStrings.Trim k quoteCutset in
        let value := GoStrings.Trim v quoteCutset in
        if String.eqb key "args"
           && GoStrings.HasPrefix value "{"
           && GoStrings.HasSuffix value "}"
        then <[key := VObject (ParseToolCallJSON value)]> result
        else <[key := VString value]> result
    | _ => result
    end
  else result.

(** The loop that looks for the closing brace: [j] is the index of the
    byte at the head of [part].  The source ranges over the runes of
    [part]; a brace is one byte and no byte of a longer rune equals it, so
    the bytes are visited here, at the same indices. *)
Fixpoint findClosingBrace (part : string) (j braceCount : Z) : Z :=
  match part with
  | EmptyString => -1
  | String char rest =>
      if Ascii.eqb char "{" then findClosingBrace rest (j + 1) (braceCount + 1)
      else if Ascii.eqb char "}" then
        if braceCount - 1 =? 0 then j
        else findClosingBrace rest (j + 1) (braceCount - 1)
      else findClosingBrace rest (j + 1) braceCount
  end.

(** The body of the loop of [ParseLLMToolCalls] over [parts[1:]]. *)
Definition ParseLLMToolCalls_part (toolCalls : list (gmap string value))
    (part : string) : list (gmap string value) :=
  if GoStrings.HasPrefix part "{" then
    let endIndex := findClosingBrace part 0 0 in
    if 0 <? endIndex then
      let jsonStr := String.substring 0 (Z.to_nat (endIndex + 1)) part in
      let toolCall := ParseToolCallJSON jsonStr in
      if (0 <? size toolCall)%nat then toolCalls ++ [toolCall] else toolCalls
    else toolCalls
  else toolCalls.

Definition ParseLLMToolCalls (content : string) : list (gmap string value) :=
  let parts := GoStrings.Split content "TOOL_CALL" in
  fold_left ParseLLMToolCalls_part (tail parts) [].

End Parser.

(** *** Notions used to state the properties *)

(** The number of bytes of [s] equal to [c]. *)
Fixpoint countByte (c : ascii) (s : string) : Z :=
  match s with
  | EmptyString => 0
  | String d s' => (if Ascii.eqb d c then 1 else 0) + countByte c s'
  end.

(** A brace sequence that is never closed: every prefix of [seg] that is not
    empty has more opening than closing braces. *)
Definition neverCloses (seg : string) : Prop :=
  forall n : nat, (0 < n <= String.length seg)%nat ->
    countByte "}" (String.substring 0 n seg) < countByte "{" (String.substring 0 n seg).

(** The entry held for the key string [keyStr] by the cache that the manager
    holds under [pair], if there is such a cache and such an entry. *)
Definition entryAt (cm : realMCPCacheManager.t) (pair keyStr : string)
    : option MCPCachedResult.t :=
  realMCPCacheManager.caches cm !! pair ≫= fun c => realMCPCache.data c !! keyStr.

(** The number of entries of all the caches of a manager. *)
Definition totalEntries (caches : list (string * realMCPCache.t)) : Z :=
  fold_right (fun kv n => Z.of_nat (size (realMCPCache.data kv.2)) + n) 0 caches.

(** The invariant of the catalogue: every tool names a server that is
    marked connected and whose configuration, of type [tcp], is found. *)
Definition catalogued (m : realMCPManager.t) : Prop :=
  Forall
    (λ tool,
       realMCPManager.connectedServers m !! MCPToolInfo.ServerName tool = Some true
       ∧ ∃ serverConfig,
           realMCPManager.serverNamed m (MCPToolInfo.ServerName tool) = Some serverConfig
           ∧ MCPServerConfig.Type_ serverConfig = "tcp")
    (realMCPManager.tools m).

(** What the description [info] says of the configured [server]: its name,
    type, host and port, and the status [connected], the server then being
    marked connected in [m'], or [unavailable]. *)
Definition describes (m' : realMCPManager.t) (info : MCPServerInfo.t)
    (server : MCPServerConfig.t) : Prop :=
  MCPServerInfo.Name info = MCPServerConfig.Name server
  ∧ MCPServerInfo.Type_ info = MCPServerConfig.Type_ server
  ∧ MCPServerInfo.Address info = MCPServerConfig.Host server
  ∧ MCPServerInfo.Port info = MCPServerConfig.Port server
  ∧ MCPServerInfo.Version info = "1.0.0"
  ∧ ((MCPServerInfo.Status info = "connected"
      ∧ realMCPManager.connectedServers m' !! MCPServerConfig.Name server = Some true)
     ∨ MCPServerInfo.Status info = "unavailable").

(** What a health status says of a server, for the manager [m0] before the
    check and the manager [m'] after it. *)
Definition reports (m0 m' : realMCPManager.t) (name : string)
    (h : MCPHealthStatus.t) : Prop :=
  MCPHealthStatus.ToolCount h
  = Z.of_nat (length (realMCPManager.GetToolsFromServer m0 name))
  ∧ ((MCPHealthStatus.Status h = "healthy"
      ∧ MCPHealthStatus.Error h = ""
      ∧ realMCPManager.connectedServers m' !! name = Some true)
     ∨ (MCPHealthStatus.Status h = "unhealthy"
        ∧ MCPHealthStatus.Error h ≠ ""
        ∧ MCPHealthStatus.ResponseTime h = 0)).

(** *** A world for the examples

    The state of the world is the reading of the clock.  Reading the clock
    does not move it and every operation on the network takes a millisecond.
    Every dial and every session succeeds; the server offers the tools
    [web_search] and [flaky], and a call of [flaky] returns an error result. *)

Module Demo.

Definition World := Z.

Definition later (w : World) : World := w + GoTime.Millisecond.

(** [%v] of a string, a boolean and [nil]; a number is shown by its
    literal and a composite value is not shown. *)
Definition show (v : value) : string :=
  match v with
  | VString s => s
  | VBool true => "true"
  | VBool false => "false"
  | VNull => "<nil>"
  | VNumber lit => lit
  | VArray _ | VObject _ => ""
  end.

Definition remoteTools : list RemoteTool.t :=
  [RemoteTool.Make "web_search" "Search the web" None;
   RemoteTool.Make "flaky" "Fails" None].

Definition callTool (toolName : string) : CallToolResult.t :=
  if String.eqb toolName "flaky"
  then CallToolResult.Make [RemoteContent.Make "text" "boom" "" ""] true
  else CallToolResult.Make [RemoteContent.Make "text" "ok" "" ""] false.

Definition env : Env World :=
  MkEnv World
    (fun w => (w, w))
    (fun _ _ _ w => (None, later w))
    (fun _ w => (None, later w))
    (fun _ w => later w)
    (fun _ _ _ w => (None, later w))
    (fun _ w => (remoteTools, None, later w))
    (fun _ toolName _ w => (inl (callTool toolName), later w))
    show.

(** The same world with no listener: every dial is refused. *)
Definition offline : Env World :=
  MkEnv World
    (fun w => (w, w))
    (fun _ _ _ w => (Some "connect: connection refused", later w))
    (fun _ w => (Some "connect: connection refused", later w))
    (fun _ w => later w)
    (fun _ _ _ w => (None, later w))
    (fun _ w => (remoteTools, None, later w))
    (fun _ toolName _ w => (inl (callTool toolName), later w))
    show.

Definition server : MCPServerConfig.t :=
  MCPServerConfig.Make "docker-mcp" "tcp" "localhost" 8811 "" true.

Definition mcpConfig (servers : list MCPServerConfig.t) : MCPConfig.t :=
  MCPConfig.Make true (10 * GoTime.Second) [8080; 8081; 8090; 8100; 3000; 3001]
    (30 * GoTime.Second) 3 (1 * GoTime.Second) servers true (5 * GoTime.Minute) 10.

(** The manager after [RefreshTools] in a world where the server answers. *)
Definition manager : realMCPManager.t :=
  (realMCPManager.RefreshTools env
     (realMCPManager.createRealMCPManager (mcpConfig [server])) 0).1.2.

Definition cacheConfig : MCPCacheConfig.t :=
  MCPCacheConfig.Make true (15 * GoTime.Minute) 100 10000 "lru" (5 * GoTime.Minute)
    {["web_search" := 5 * GoTime.Minute]} "memory" ∅.

Definition cacheManager : realMCPCacheManager.t :=
  realMCPCacheManager.createRealMCPCacheManager cacheConfig.

Definition search : MCPToolExecution.t :=
  MCPToolExecution.Make "web_search" {["query" := VString "x"]} "docker-mcp".

Definition fail : MCPToolExecution.t :=
  MCPToolExecution.Make "flaky" {["query" := VString "x"]} "docker-mcp".

End Demo.
(** ** Part II: properties *)

(** *** Strings *)

Section StringFacts.

Lemma str_app_cons (c : ascii) (a b : string) : String c a +:+ b = String c (a +:+ b).
Proof. reflexivity. Qed.

Lemma str_app_nil_l (b : string) : "" +:+ b = b.
Proof. reflexivity. Qed.

Lemma str_length_app (a b : string) :
  String.length (a +:+ b) = (String.length a + String.length b)%nat.
Proof.
  induction a as [|c a IH]; [done |]. rewrite str_app_cons. simpl. by rewrite IH.
Qed.

Lemma str_app_nil_r (a : string) : a +:+ "" = a.
Proof. induction a as [|c a IH]; [done |]. by rewrite str_app_cons, IH. Qed.



Lemma prefix_app (sep r : string) : String.prefix sep (sep +:+ r) = true.
Proof.
  induction sep as [|c sep IH]; [by destruct r |].
  rewrite str_app_cons. simpl. destruct (ascii_dec c c); [done | congruence].
Qed.

Lemma prefix_drop (sep s : string) :
  String.prefix sep s = true → s = sep +:+ GoStrings.drop (String.length sep) s.
Proof.
  revert s. induction sep as [|c sep IH]; intros s H; [done |].
  destruct s as [|d s]; simpl in H; [done |].
  destruct (ascii_dec c d) as [->|]; [| done].
  rewrite str_app_cons. simpl. f_equal. by apply IH.
Qed.

Lemma prefix_nil (sep : string) : String.prefix sep "" = true → sep = "".
Proof. by destruct sep. Qed.

Lemma drop_app (a s : string) : GoStrings.drop (String.length a) (a +:+ s) = s.
Proof. induction a as [|c a IH]; [by destruct s | by rewrite str_app_cons]. Qed.

Lemma drop_length (n : nat) (s : string) :
  (String.length (GoStrings.drop n s) ≤ String.length s)%nat.
Proof.
  revert s. induction n as [|n IH]; intros [|c s]; simpl; try lia.
  specialize (IH s). lia.
Qed.

(** [strings.Trim] and its kin never lengthen. *)
Lemma TrimLeftFunc_length f s :
  (String.length (GoStrings.TrimLeftFunc f s) ≤ String.length s)%nat.
Proof. induction s as [|c s IH]; simpl; [done |]. destruct (f c); simpl; lia. Qed.

Lemma TrimRightFunc_length f s :
  (String.length (GoStrings.TrimRightFunc f s) ≤ String.length s)%nat.
Proof.
  induction s as [|c s IH]; simpl; [done |].
  destruct (GoStrings.TrimRightFunc f s); [destruct (f c) |]; simpl in *; lia.
Qed.

Lemma Trim_length s cutset :
  (String.length (GoStrings.Trim s cutset) ≤ String.length s)%nat.
Proof.
  unfold GoStrings.Trim, GoStrings.TrimFunc.
  etrans; [apply TrimRightFunc_length | apply TrimLeftFunc_length].
Qed.

(** [strings.Split] *)
Lemma split_from_not_nil sep s k : GoStrings.split_from sep s k ≠ [].
Proof.
  revert k. induction s as [|c s IH]; intros k; cbn [GoStrings.split_from]; [done |].
  destruct k; [| apply IH].
  destruct (String.prefix sep (String c s)); [done |].
  by destruct (GoStrings.split_from sep s 0).
Qed.

Lemma split_from_skip sep a s :
  GoStrings.split_from sep (a +:+ s) (String.length a) = GoStrings.split_from sep s 0.
Proof. induction a as [|c a IH]; [by destruct s | by rewrite str_app_cons]. Qed.

Lemma split_from_length sep s k p :
  p ∈ GoStrings.split_from sep s k → (String.length p ≤ String.length s)%nat.
Proof.
  revert k p. induction s as [|c s IH]; intros k p; cbn [GoStrings.split_from].
  - intros ->%list_elem_of_singleton. done.
  - cbn [String.length]. destruct k.
    + destruct (String.prefix sep (String c s)).
      * intros [->|H]%elem_of_cons; [cbn; lia |]. apply IH in H. lia.
      * pose proof (split_from_not_nil sep s 0) as Hne.
        destruct (GoStrings.split_from sep s 0) as [|q qs] eqn:E; [done |].
        intros [->|H]%elem_of_cons.
        -- assert (q ∈ GoStrings.split_from sep s 0) as Hq by (rewrite E; left).
           apply IH in Hq. cbn [String.length]. lia.
        -- assert (p ∈ GoStrings.split_from sep s 0) as Hq by (rewrite E; by right).
           apply IH in Hq. lia.
    + intros H. apply IH in H. lia.
Qed.

Lemma Split_length s sep p :
  p ∈ GoStrings.Split s sep → (String.length p ≤ String.length s)%nat.
Proof. apply split_from_length. Qed.

(** At an occurrence of the separator a piece ends. *)
Lemma Split_at_sep sep r :
  sep ≠ "" → GoStrings.Split (sep +:+ r) sep = "" :: GoStrings.Split r sep.
Proof.
  intros Hne. unfold GoStrings.Split.
  destruct sep as [|c sep]; [done |].
  change (String c sep +:+ r) with (String c (sep +:+ r)).
  cbn [GoStrings.split_from].
  change (String c (sep +:+ r)) with (String c sep +:+ r).
  rewrite prefix_app. f_equal.
  replace (String.length (String c sep) - 1)%nat with (String.length sep)
    by (simpl; lia).
  apply split_from_skip.
Qed.

(** Elsewhere the byte at the head joins the first piece of the rest. *)
Lemma Split_step sep c s :
  String.prefix sep (String c s) = false →
  ∃ p ps, GoStrings.Split s sep = p :: ps
          ∧ GoStrings.Split (String c s) sep = String c p :: ps.
Proof.
  intros H. unfold GoStrings.Split. cbn [GoStrings.split_from]. rewrite H.
  pose proof (split_from_not_nil sep s 0) as Hne.
  destruct (GoStrings.split_from sep s 0) as [|p ps]; [done |]. eauto.
Qed.

Lemma Contains_cons s c sub :
  GoStrings.Contains (String c s) sub
  = String.prefix sub (String c s) || GoStrings.Contains s sub.
Proof. done. Qed.

(** A text without the separator is one piece. *)
Lemma Split_without sep s :
  GoStrings.Contains s sep = false → GoStrings.Split s sep = [s].
Proof.
  induction s as [|c s IH]; [done |].
  rewrite Contains_cons. intros [H1 H2]%orb_false_elim.
  destruct (Split_step sep c s H1) as (p & ps & E & ->).
  rewrite (IH H2) in E. by injection E as <- <-.
Qed.

(** The pieces around the first occurrence, when no occurrence starts
    inside [pre]. *)
Lemma Split_first sep pre r :
  sep ≠ "" →
  (∀ u v, pre = u +:+ v → v ≠ "" → String.prefix sep (v +:+ sep +:+ r) = false) →
  GoStrings.Split (pre +:+ sep +:+ r) sep = pre :: GoStrings.Split r sep.
Proof.
  intros Hne. induction pre as [|c pre IH]; intros H.
  - rewrite str_app_nil_l. by apply Split_at_sep.
  - assert (String.prefix sep (String c (pre +:+ sep +:+ r)) = false) as Hc
      by (by apply (H "" (String c pre))).
    rewrite str_app_cons.
    destruct (Split_step sep c _ Hc) as (p & ps & E & ->).
    rewrite IH in E.
    + by injection E as <- <-.
    + intros u v -> Hv. by apply (H (String c u) v).
Qed.

End StringFacts.

(** *** The marker [TOOL_CALL] *)

Section MarkerFacts.

(** No proper suffix of the marker is a prefix of it, so no occurrence of
    the marker starts inside a text in front of it and ends inside it. *)
Lemma prefix_cons (a b : ascii) (s1 s2 : string) :
  String.prefix (String a s1) (String b s2)
  = if ascii_dec a b then String.prefix s1 s2 else false.
Proof. reflexivity. Qed.

Lemma marker_no_straddle (v r : string) :
  v ≠ "" →
  String.prefix "TOOL_CALL" v = false →
  String.prefix "TOOL_CALL" (v +:+ "TOOL_CALL" +:+ r) = false.
Proof.
  intros Hv H.
  destruct v as [|c0 v]; [done |].
  rewrite str_app_cons. rewrite prefix_cons in H |- *.
  destruct (ascii_dec "T" c0); [| reflexivity].
  do 8 (destruct v as [|? v];
        [ reflexivity
        | rewrite str_app_cons; rewrite prefix_cons in H |- *;
          match goal with
          | |- context [ascii_dec ?a ?b] => destruct (ascii_dec a b); [| reflexivity]
          end ]).
  destruct v; discriminate.
Qed.

Lemma Contains_false_suffix (u v sub : string) :
  GoStrings.Contains (u +:+ v) sub = false → GoStrings.Contains v sub = false.
Proof.
  induction u as [|c u IH]; [done |].
  rewrite str_app_cons, Contains_cons. intros [_ H]%orb_false_elim. by apply IH.
Qed.

Lemma Contains_false_prefix (s sub : string) :
  GoStrings.Contains s sub = false → String.prefix sub s = false.
Proof. destruct s; simpl; [by rewrite orb_false_r | by intros [? _]%orb_false_elim]. Qed.

(** The text in front of the first marker is the first piece. *)
Lemma Split_marker_first (pre r : string) :
  GoStrings.Contains pre "TOOL_CALL" = false →
  GoStrings.Split (pre +:+ "TOOL_CALL" +:+ r) "TOOL_CALL"
  = pre :: GoStrings.Split r "TOOL_CALL".
Proof.
  intros H. apply Split_first; [done |].
  intros u v -> Hv. apply marker_no_straddle; [done |].
  apply Contains_false_prefix. by apply (Contains_false_suffix u).
Qed.

End MarkerFacts.

(** *** The tool-call parser *)

Section ParserFacts.

Variable Unmarshal : string → gmap string value * error.

Lemma fold_left_ext_in {A B : Type} (f g : A → B → A) (l : list B) (a : A) :
  (∀ x acc, x ∈ l → f acc x = g acc x) → fold_left f l a = fold_left g l a.
Proof.
  revert a. induction l as [|x l IH]; intros a H; [done |].
  cbn [fold_left]. rewrite (H x a) by left.
  apply IH. intros y acc Hy. apply H. by right.
Qed.

(** [strings.Cut] *)
Lemma Cut_Some (s sep a b : string) :
  GoStrings.Cut s sep = Some (a, b) → s = a +:+ sep +:+ b.
Proof.
  revert a. induction s as [|c s IH]; intros a; cbn [GoStrings.Cut].
  - destruct (String.prefix sep "") eqn:E; [| done].
    intros [= <- <-]. by apply prefix_drop.
  - destruct (String.prefix sep (String c s)) eqn:E.
    + intros [= <- <-]. by apply prefix_drop.
    + destruct (GoStrings.Cut s sep) as [[a' b']|]; [| done].
      intros [= <- <-]. rewrite str_app_cons. f_equal. by apply IH.
Qed.

Lemma Cut_length (s sep a b : string) :
  GoStrings.Cut s sep = Some (a, b) →
  (String.length b + String.length sep ≤ String.length s)%nat.
Proof. intros ->%Cut_Some. rewrite !str_length_app. lia. Qed.

(** The result of [ParseToolCallJSON] does not depend on the bound of the
    depth, once the bound exceeds the length of the text. *)
Lemma ParseToolCallJSON_rec_fuel (n m : nat) (s : string) :
  (String.length s < n)%nat → (String.length s < m)%nat →
  ParseToolCallJSON_rec Unmarshal n s = ParseToolCallJSON_rec Unmarshal m s.
Proof.
  revert m s. induction n as [|n IH]; intros m s Hn Hm; [lia |].
  destruct m as [|m]; [lia |].
  cbn [ParseToolCallJSON_rec].
  destruct (Unmarshal s) as [result [err|]]; [| done].
  apply fold_left_ext_in. intros part acc Hpart.
  destruct (GoStrings.Contains part ":"); [| done].
  unfold GoStrings.SplitN2.
  destruct (GoStrings.Cut part ":") as [[k v]|] eqn:E; [| done].
  destruct (_ && _); [| done].
  do 2 f_equal.
  apply Split_length in Hpart.
  pose proof (Trim_length s "{}").
  pose proof (Trim_length v quoteCutset).
  apply Cut_length in E. cbn [String.length] in E.
  apply IH; lia.
Qed.

(** The equation of [ParseToolCallJSON]: the decoded document when the
    strict decoding succeeds, and otherwise the entries of the pieces
    between the commas of the text without its outer braces, added from
    left to right to what the failed decoding left in the map. *)
Lemma ParseToolCallJSON_eq (s : string) :
  ParseToolCallJSON Unmarshal s
  = match Unmarshal s with
    | (result, None) => result
    | (result, Some _) =>
        fold_left (fallbackEntry Unmarshal)
          (GoStrings.Split (GoStrings.Trim s "{}") ",") result
    end.
Proof.
  unfold ParseToolCallJSON. cbn [ParseToolCallJSON_rec].
  destruct (Unmarshal s) as [result [err|]]; [| done].
  apply fold_left_ext_in. intros part acc Hpart.
  unfold fallbackEntry.
  destruct (GoStrings.Contains part ":"); [| done].
  unfold GoStrings.SplitN2.
  destruct (GoStrings.Cut part ":") as [[k v]|] eqn:E; [| done].
  destruct (_ && _); [| done].
  do 2 f_equal. unfold ParseToolCallJSON.
  apply Split_length in Hpart.
  pose proof (Trim_length s "{}").
  pose proof (Trim_length v quoteCutset).
  apply Cut_length in E. cbn [String.length] in E.
  apply ParseToolCallJSON_rec_fuel; lia.
Qed.

(** Splitting on a separator of one byte: joining the pieces with the
    separator gives the text back, and no piece holds the separator. *)
Lemma Split_byte_cons (c d : ascii) (s : string) :
  GoStrings.Split (String d s) (String c "")
  = if ascii_dec c d then "" :: GoStrings.Split s (String c "")
    else match GoStrings.Split s (String c "") with
         | p :: ps => String d p :: ps
         | [] => [String d ""]
         end.
Proof.
  unfold GoStrings.Split. cbn [GoStrings.split_from]. rewrite prefix_cons.
  destruct (ascii_dec c d); [| done]. by destruct s.
Qed.

Lemma concat_cons2 (sep x y : string) (l : list string) :
  String.concat sep (x :: y :: l) = x +:+ sep +:+ String.concat sep (y :: l).
Proof. reflexivity. Qed.

Lemma Split_byte_concat (c : ascii) (s : string) :
  String.concat (String c "") (GoStrings.Split s (String c "")) = s.
Proof.
  induction s as [|d s IH]; [done |].
  rewrite Split_byte_cons.
  pose proof (split_from_not_nil (String c "") s 0) as Hne.
  fold (GoStrings.Split s (String c "")) in Hne.
  destruct (GoStrings.Split s (String c "")) as [|p ps]; [done |].
  destruct (ascii_dec c d) as [->|].
  - by rewrite concat_cons2, IH.
  - destruct ps as [|q ps].
    + cbn [String.concat] in IH |- *. by rewrite IH.
    + rewrite concat_cons2 in IH |- *. by rewrite str_app_cons, IH.
Qed.

Lemma Split_byte_free (c : ascii) (s : string) :
  Forall (λ p, GoStrings.Contains p (String c "") = false)
         (GoStrings.Split s (String c "")).
Proof.
  induction s as [|d s IH]; [by repeat constructor |].
  rewrite Split_byte_cons.
  pose proof (split_from_not_nil (String c "") s 0) as Hne.
  fold (GoStrings.Split s (String c "")) in Hne.
  destruct (GoStrings.Split s (String c "")) as [|p ps]; [done |].
  destruct (ascii_dec c d) as [->|Hcd].
  - by constructor.
  - apply Forall_cons in IH as [Hp Hps]. constructor; [| done].
    rewrite Contains_cons, prefix_cons.
    destruct (ascii_dec c d); [done |]. by rewrite Hp.
Qed.

(** The loop looking for the closing brace *)
Lemma substring_0_S (n : nat) (c : ascii) (s : string) :
  String.substring 0 (S n) (String c s) = String c (String.substring 0 n s).
Proof. reflexivity. Qed.

Lemma findClosingBrace_never (s : string) (j braceCount : Z) :
  (∀ n : nat, (0 < n ≤ String.length s)%nat →
     0 < braceCount + countByte "{" (String.substring 0 n s)
         - countByte "}" (String.substring 0 n s)) →
  findClosingBrace s j braceCount = -1.
Proof.
  revert j braceCount. induction s as [|c s IH]; intros j b H; [done |].
  cbn [findClosingBrace].
  assert (∀ n : nat, (0 < n ≤ String.length s)%nat →
            0 < b + (if Ascii.eqb c "{" then 1 else 0)
                  - (if Ascii.eqb c "}" then 1 else 0)
                + countByte "{" (String.substring 0 n s)
                - countByte "}" (String.substring 0 n s)) as Htail.
  { intros n Hn. specialize (H (S n)). rewrite substring_0_S in H.
    cbn [countByte String.length] in H. lia. }
  assert (0 < b + (if Ascii.eqb c "{" then 1 else 0)
              - (if Ascii.eqb c "}" then 1 else 0)) as Hhead.
  { specialize (H 1%nat). rewrite substring_0_S in H.
    cbn [countByte String.length] in H.
    assert (String.substring 0 0 s = "") as E by (by destruct s).
    rewrite E in H. cbn [countByte] in H. lia. }
  destruct (Ascii.eqb c "{") eqn:E1.
  - apply Ascii.eqb_eq in E1 as ->. cbn in Htail.
    apply IH. intros n Hn. specialize (Htail n Hn). lia.
  - destruct (Ascii.eqb c "}") eqn:E2.
    + destruct (b - 1 =? 0) eqn:E3; [lia |].
      apply IH. intros n Hn. specialize (Htail n Hn). lia.
    + apply IH. intros n Hn. specialize (Htail n Hn). lia.
Qed.

(** [part[:n]] for a text that starts with [n] known bytes *)
Lemma substring_app_exact (a s : string) :
  String.substring 0 (String.length a) (a +:+ s) = a.
Proof.
  induction a as [|c a IH]; [by destruct s |].
  rewrite str_app_cons. cbn [String.length]. by rewrite substring_0_S, IH.
Qed.

Lemma Contains_app_free (a s : string) (c : ascii) (sub : string) :
  GoStrings.mem c a = false →
  GoStrings.Contains (a +:+ s) (String c sub) = GoStrings.Contains s (String c sub).
Proof.
  induction a as [|d a IH]; [done |].
  cbn [GoStrings.mem]. intros [Hd Ha]%orb_false_elim.
  rewrite str_app_cons, Contains_cons, prefix_cons.
  destruct (ascii_dec c d) as [->|]; [by rewrite Ascii.eqb_refl in Hd |].
  by apply IH.
Qed.

End ParserFacts.

(** *** Claims about the parser *)

(** C7: a text with one marker, followed at once by the JSON object of the
    specification's example, yields exactly one invocation, with name
    [search] and [args.query] equal to [x]; a marker followed by a brace
    sequence that is never closed yields no invocation; a text without marker
    yields none.  The parser is total, so it raises in no case. *)
Theorem ParseLLMToolCalls_robust :
  (∀ pre post : string,
     GoStrings.Contains pre "TOOL_CALL" = false →
     GoStrings.Contains post "TOOL_CALL" = false →
     ParseLLMToolCalls GoJson.Unmarshal
       (pre +:+ "TOOL_CALL"
            +:+ requote "{'name': 'search', 'args': {'query': 'x'}}" +:+ post)
     = [ {[ "name" := VString "search";
            "args" := VObject {[ "query" := VString "x" ]} ]} ])
  ∧ (∀ (Unmarshal : string → gmap string value * error) (pre seg : string),
       GoStrings.Contains pre "TOOL_CALL" = false →
       GoStrings.Contains seg "TOOL_CALL" = false →
       neverCloses seg →
       ParseLLMToolCalls Unmarshal (pre +:+ "TOOL_CALL" +:+ seg) = [])
  ∧ (∀ (Unmarshal : string → gmap string value * error) (content : string),
       GoStrings.Contains content "TOOL_CALL" = false →
       ParseLLMToolCalls Unmarshal content = []).
Proof.
  split; [| split].
  - intros pre post Hpre Hpost. unfold ParseLLMToolCalls.
    let js := eval vm_compute in (requote "{'name': 'search', 'args': {'query': 'x'}}") in
    change (requote "{'name': 'search', 'args': {'query': 'x'}}") with js.
    rewrite Split_marker_first by done.
    rewrite Split_without by (by rewrite Contains_app_free).
    cbn [tail fold_left]. unfold ParseLLMToolCalls_part.
    match goal with
    | |- context [findClosingBrace (?js +:+ post) 0 0] =>
        change (GoStrings.HasPrefix (js +:+ post) "{") with true;
        change (findClosingBrace (js +:+ post) 0 0) with 41;
        change (Z.to_nat (41 + 1)) with (String.length js);
        rewrite (substring_app_exact js post)
    end.
    vm_compute. reflexivity.
  - intros Unmarshal pre seg Hpre Hseg Hopen. unfold ParseLLMToolCalls.
    rewrite Split_marker_first by done.
    rewrite Split_without by done.
    cbn [tail fold_left]. unfold ParseLLMToolCalls_part.
    destruct (GoStrings.HasPrefix seg "{"); [| done].
    rewrite findClosingBrace_never; [done |].
    intros n Hn. specialize (Hopen n Hn). lia.
  - intros Unmarshal content H. unfold ParseLLMToolCalls.
    by rewrite Split_without.
Qed.

Lemma ParseLLMToolCalls_robust_witness :
  ParseLLMToolCalls GoJson.Unmarshal
    ("I will search. " +:+ "TOOL_CALL"
       +:+ requote "{'name': 'search', 'args': {'query': 'x'}}" +:+ " Done.")
  = [ {[ "name" := VString "search";
         "args" := VObject {[ "query" := VString "x" ]} ]} ]
  ∧ ParseLLMToolCalls GoJson.Unmarshal ("" +:+ "TOOL_CALL" +:+ "{not json at all") = []
  ∧ ParseLLMToolCalls GoJson.Unmarshal "plain text, no marker" = [].
Proof.
  destruct ParseLLMToolCalls_robust as (H1 & H2 & H3).
  split; [| split].
  - apply H1; reflexivity.
  - apply H2; [reflexivity | reflexivity |].
    intros n Hn.
    do 17 (destruct n as [|n]; [cbn in Hn |- *; lia |]).
    cbn in Hn. lia.
  - apply H3. reflexivity.
Defined.

(** The specification's three texts, evaluated. *)
Example ParseLLMToolCalls_examples :
  (map_to_list <$> ParseLLMToolCalls GoJson.Unmarshal
     (requote "Let me look. TOOL_CALL{'name': 'search', 'args': {'query': 'x'}} ..."))
  = [[("args", VObject {[ "query" := VString "x" ]}); ("name", VString "search")]]
  ∧ ParseLLMToolCalls GoJson.Unmarshal "TOOL_CALL{not json at all" = []
  ∧ ParseLLMToolCalls GoJson.Unmarshal "plain text, no marker" = [].
Proof. repeat split; vm_compute; reflexivity. Qed.

(** The fallback, as the code has it: when the strict decoding of a text
    fails, the braces at both ends of the text are stripped and the rest is
    split on every comma, those inside a nested brace-delimited value as
    well: joining the pieces with commas gives the stripped text back and no
    piece holds a comma.  The result is what the pieces add, from left to
    right, to the map the failed decoding left. *)
Lemma ParseToolCallJSON_fallback_pieces :
  ∀ (Unmarshal : string → gmap string value * error) (s : string)
    (result : gmap string value) (err : string),
    Unmarshal s = (result, Some err) →
    let pieces := GoStrings.Split (GoStrings.Trim s "{}") "," in
    ParseToolCallJSON Unmarshal s = fold_left (fallbackEntry Unmarshal) pieces result
    ∧ String.concat "," pieces = GoStrings.Trim s "{}"
    ∧ Forall (λ p, GoStrings.Contains p "," = false) pieces.
Proof.
  intros Unmarshal s result err H pieces. split; [| split].
  - by rewrite ParseToolCallJSON_eq, H.
  - apply Split_byte_concat.
  - apply Split_byte_free.
Qed.

(** C8: the fallback does not decode a nested [args] object of a near-JSON
    call.  Whatever the strict decoder is, when it rejects the text
    [{name: search, args: {query: x, max: 10}}] the result holds [args] as
    the string [{query: x] and [max] as a field of its own, not the nested
    mapping of [query] and [max]: the text is split on every comma, the one
    inside the braces of [args] as well.  And when it rejects
    [{name: search, args: {query: x}}], where no comma is in the way, [args]
    is again the string [{query: x], not a mapping: stripping the outer
    braces took the closing brace of the nested object with it, so the value
    is not passed to the decoder.  The comments of the code say
    [Remove outer braces] and [Try to parse nested objects for args]. *)
Theorem ParseToolCallJSON_nested_args_lost
    (Unmarshal : string → gmap string value * error) (err1 err2 : string) :
  let s1 := "{name: search, args: {query: x, max: 10}}" in
  let s2 := "{name: search, args: {query: x}}" in
  Unmarshal s1 = (∅, Some err1) →
  Unmarshal s2 = (∅, Some err2) →
  (GoStrings.Trim s1 "{}" = "name: search, args: {query: x, max: 10"
   ∧ GoStrings.Split (GoStrings.Trim s1 "{}") ","
     = ["name: search"; " args: {query: x"; " max: 10"]
   ∧ ParseToolCallJSON Unmarshal s1
     = {[ "name" := VString "search";
          "args" := VString "{query: x";
          "max" := VString "10" ]}
   ∧ ParseToolCallJSON Unmarshal s1
     ≠ {[ "name" := VString "search";
          "args" := VObject {[ "query" := VString "x"; "max" := VString "10" ]} ]})
  ∧ (GoStrings.Trim s2 "{}" = "name: search, args: {query: x"
     ∧ ParseToolCallJSON Unmarshal s2
       = {[ "name" := VString "search"; "args" := VString "{query: x" ]}
     ∧ ParseToolCallJSON Unmarshal s2
       ≠ {[ "name" := VString "search";
            "args" := VObject {[ "query" := VString "x" ]} ]}).
Proof.
  intros s1 s2 H1 H2.
  assert (ParseToolCallJSON Unmarshal s1
          = {[ "name" := VString "search";
               "args" := VString "{query: x";
               "max" := VString "10" ]}) as E1.
  { rewrite ParseToolCallJSON_eq, H1. subst s1.
    change (GoStrings.Split _ ",") with ["name: search"; " args: {query: x"; " max: 10"].
    vm_compute. reflexivity. }
  assert (ParseToolCallJSON Unmarshal s2
          = {[ "name" := VString "search"; "args" := VString "{query: x" ]}) as E2.
  { rewrite ParseToolCallJSON_eq, H2. subst s2.
    change (GoStrings.Split _ ",") with ["name: search"; " args: {query: x"].
    vm_compute. reflexivity. }
  split; split_and!.
  - vm_compute. reflexivity.
  - vm_compute. reflexivity.
  - exact E1.
  - rewrite E1. intros E.
    apply (f_equal (λ m : gmap string value, m !! "max")) in E.
    vm_compute in E. discriminate.
  - vm_compute. reflexivity.
  - exact E2.
  - rewrite E2. intros E.
    apply (f_equal (λ m : gmap string value, m !! "args")) in E.
    vm_compute in E. discriminate.
Qed.

(** The decoder of [encoding/json] rejects both texts, whose keys are not
    quoted, and leaves the map empty. *)
Lemma ParseToolCallJSON_nested_args_lost_witness :
  let s1 := "{name: search, args: {query: x, max: 10}}" in
  let s2 := "{name: search, args: {query: x}}" in
  ParseToolCallJSON GoJson.Unmarshal s1
  = {[ "name" := VString "search";
       "args" := VString "{query: x";
       "max" := VString "10" ]}
  ∧ ParseToolCallJSON GoJson.Unmarshal s2
    = {[ "name" := VString "search"; "args" := VString "{query: x" ]}
  ∧ ParseLLMToolCalls GoJson.Unmarshal ("TOOL_CALL" +:+ s1)
    = [ {[ "name" := VString "search";
           "args" := VString "{query: x";
           "max" := VString "10" ]} ].
Proof.
  intros s1 s2.
  destruct (ParseToolCallJSON_nested_args_lost GoJson.Unmarshal
              "invalid character or unexpected end of JSON input"
              "invalid character or unexpected end of JSON input")
    as [(_ & _ & E1 & _) (_ & E2 & _)].
  - vm_compute. reflexivity.
  - vm_compute. reflexivity.
  - split; [exact E1 |]. split; [exact E2 |]. vm_compute. reflexivity.
Defined.

(** Where the inner call is reached: [args] with one entry, in front of
    another field.  As the last field it loses its closing brace to the
    stripping of the outer ones. *)
Example ParseToolCallJSON_nested_examples :
  ParseToolCallJSON GoJson.Unmarshal "{args: {query: x}, name: search}"
  = {[ "args" := VObject {[ "query" := VString "x" ]}; "name" := VString "search" ]}
  ∧ ParseToolCallJSON GoJson.Unmarshal "{name: search, args: {query: x}}"
    = {[ "name" := VString "search"; "args" := VString "{query: x" ]}.
Proof. split; vm_compute; reflexivity. Qed.

(** *** The cache key *)

Section KeyFacts.

Lemma fold_append_keys (order : list (string * string)) (keys : list string) :
  fold_left (λ keys kv, keys ++ [kv.1]) order keys = keys ++ order.*1.
Proof.
  revert keys. induction order as [|kv order IH]; intros keys; cbn [fold_left].
  - by rewrite app_nil_r.
  - rewrite IH. by rewrite <- app_assoc.
Qed.

(** Sorting makes the order of the range over the map irrelevant. *)
Lemma Strings_permutation (l1 l2 : list string) :
  l1 ≡ₚ l2 → GoSort.Strings l1 = GoSort.Strings l2.
Proof.
  intros H. unfold GoSort.Strings.
  apply (Sorted_unique String.le).
  - apply Sorted_merge_sort, _.
  - apply Sorted_merge_sort, _.
  - by rewrite !merge_sort_Permutation.
Qed.

(** The digest is the same whatever the order in which the range visits the
    entries: it does not depend on the order of insertion. *)
Lemma generateArgHash_range (args : gmap string string) (order : list (string * string)) :
  range_of args order → generateArgHash_in order args = generateArgHash args.
Proof.
  unfold range_of, generateArgHash, generateArgHash_in. intros H.
  rewrite !fold_append_keys. cbn [app].
  by rewrite (Strings_permutation (order.*1) ((map_to_list args).*1))
    by (by rewrite H).
Qed.

Lemma insert_order_irrelevant (k1 k2 v1 v2 : string) (args : gmap string string) :
  k1 ≠ k2 →
  generateArgHash (<[k1 := v1]> (<[k2 := v2]> args))
  = generateArgHash (<[k2 := v2]> (<[k1 := v1]> args)).
Proof. intros H. by rewrite insert_insert_ne. Qed.

End KeyFacts.

(** C1: the digest of [GenerateCacheKey] is computed from the arguments as
    they are passed, not from the normalized ones.  At three mappings that
    normalize to the mapping of [query] to [x], differing from it in the case
    of the key, in white space around the key, and in white space around the
    value, the digests differ from the digest of that mapping; the
    specification says they are identical. *)
Theorem GenerateCacheKey_hash_of_raw_args :
  let a0 : gmap string string := {[ "query" := "x" ]} in
  let a1 : gmap string string := {[ "Query" := "x" ]} in
  let a2 : gmap string string := {[ " query" := "x" ]} in
  let a3 : gmap string string := {[ "query" := "x " ]} in
  (normalizeArgs a0 = a0 ∧ normalizeArgs a1 = a0
   ∧ normalizeArgs a2 = a0 ∧ normalizeArgs a3 = a0)
  ∧ MCPCacheKey.Hash (GenerateCacheKey "search" "docker-mcp" a0) = "38e87be6a9e492b6"
  ∧ MCPCacheKey.Hash (GenerateCacheKey "search" "docker-mcp" a1) = "740ebcfb144d47e8"
  ∧ MCPCacheKey.Hash (GenerateCacheKey "search" "docker-mcp" a2) = "3b9c4095ec47ebf5"
  ∧ MCPCacheKey.Hash (GenerateCacheKey "search" "docker-mcp" a3) = "7c4b31585e141733".
Proof. repeat split; vm_compute; reflexivity. Qed.

Section JoinFacts.





End JoinFacts.




(** Two tools with the same arguments: one digest, two storage keys. *)
Example GenerateCacheKey_two_tools :
  let a : gmap string string := {[ "query" := "x" ]} in
  MCPCacheKey.Hash (GenerateCacheKey "search" "docker-mcp" a)
  = MCPCacheKey.Hash (GenerateCacheKey "fetch" "other" a)
  ∧ keyToString (GenerateCacheKey "search" "docker-mcp" a)
    = "search:docker-mcp:38e87be6a9e492b6"
  ∧ keyToString (GenerateCacheKey "fetch" "other" a) = "fetch:other:38e87be6a9e492b6".
Proof. repeat split; vm_compute; reflexivity. Qed.

(** *** The cache of one pair *)

Section CacheFacts.

Context {World : Type} (env : Env World).

(** [Time.Sub] is the difference when it fits a [Duration]. *)
Lemma Sub_exact (t u : GoTime.Time) :
  GoTime.minDuration ≤ t - u ≤ GoTime.maxDuration → GoTime.Sub t u = t - u.
Proof.
  unfold GoTime.Sub. intros H.
  destruct (GoTime.maxDuration <? t - u) eqn:E1; [lia |].
  destruct (t - u <? GoTime.minDuration) eqn:E2; lia.
Qed.

(** [Get] adds nothing to the cache. *)
Lemma Get_entries (c c' : realMCPCache.t) (key : MCPCacheKey.t) (w w' : World)
    (res : option MCPCachedResult.t) (err : error) :
  realMCPCache.Get env c key w = (res, err, c', w') →
  ∀ k e, realMCPCache.data c' !! k = Some e → realMCPCache.data c !! k = Some e.
Proof.
  unfold realMCPCache.Get. intros H k e.
  destruct (realMCPCache.data c !! keyToString key) as [r|]; [| by simplify_eq].
  destruct (time_Now env w) as [now w1].
  destruct (_ <? _); simplify_eq; [| done].
  cbn. by intros [_ ?]%lookup_delete_Some.
Qed.

(** [Get] returns an entry only without error, and then the entry it holds
    for the key. *)
Lemma Get_hit (c c' : realMCPCache.t) (key : MCPCacheKey.t) (w w' : World)
    (e : MCPCachedResult.t) (err : error) :
  realMCPCache.Get env c key w = (Some e, err, c', w') →
  err = None ∧ c' = c ∧ realMCPCache.data c !! keyToString key = Some e.
Proof.
  unfold realMCPCache.Get. intros H.
  destruct (realMCPCache.data c !! keyToString key) as [r|]; [| by simplify_eq].
  destruct (time_Now env w) as [now w1].
  destruct (_ <? _); by simplify_eq.
Qed.

End CacheFacts.

(** C3: [Get] on an absent key is a miss; on a present key it returns the
    stored entry, leaving the cache as it is, when the age of the entry (the
    time since its creation, as [time.Since] gives it) does not exceed its
    ttl; when the age exceeds the ttl it deletes the entry and returns a miss,
    and the number of entries is one less. *)
Theorem Get_semantics {World : Type} (env : Env World)
    (c : realMCPCache.t) (key : MCPCacheKey.t) (w : World) :
  let keyStr := keyToString key in
  let now := (time_Now env w).1 in
  let w' := (time_Now env w).2 in
  (realMCPCache.data c !! keyStr = None →
     realMCPCache.Get env c key w = (None, Some "cache miss", c, w))
  ∧ (∀ e, realMCPCache.data c !! keyStr = Some e →
       GoTime.Sub now (MCPCachedResult.Timestamp e) ≤ MCPCachedResult.TTL e →
       realMCPCache.Get env c key w = (Some e, None, c, w'))
  ∧ (∀ e, realMCPCache.data c !! keyStr = Some e →
       MCPCachedResult.TTL e < GoTime.Sub now (MCPCachedResult.Timestamp e) →
       ∃ c', realMCPCache.Get env c key w = (None, Some "cache expired", c', w')
             ∧ realMCPCache.data c' = delete keyStr (realMCPCache.data c)
             ∧ realMCPCache.data c' !! keyStr = None
             ∧ (size (realMCPCache.data c') + 1 = size (realMCPCache.data c))%nat).
Proof.
  intros keyStr now w'. subst keyStr now w'. unfold realMCPCache.Get.
  destruct (time_Now env w) as [now w'] eqn:E. cbn [fst snd].
  split; [| split].
  - by intros ->.
  - intros e -> H.
    destruct (_ <? _) eqn:E1; [lia | done].
  - intros e He H. rewrite He.
    destruct (_ <? _) eqn:E1; [| lia].
    eexists. split; [done |]. cbn [realMCPCache.data].
    split; [done |]. split; [apply lookup_delete_eq |].
    rewrite <- (insert_id _ _ _ He) at 2. rewrite <- insert_delete_eq.
    rewrite map_size_insert_None by apply lookup_delete_eq. lia.
Qed.

(** The boundary of the specification: an entry set at [t] with a ttl of
    100 ms is returned at [t] + 99 ms; at [t] + 101 ms it is deleted and the
    number of entries goes from one to zero; a key that was never set is a
    miss. *)
Lemma Get_semantics_witness :
  let key := GenerateCacheKey "web_search" "docker-mcp" {[ "query" := "x" ]} in
  let r := MCPToolResult.Make "web_search" "docker-mcp" true [] "" 0 in
  let t := 5000 in
  let c := (realMCPCache.Set_ Demo.env realMCPCache.newRealMCPCache key r
              (100 * GoTime.Millisecond) t).1.2 in
  let e := MCPCachedResult.Make key r t (100 * GoTime.Millisecond) 0 ∅ in
  realMCPCache.Get Demo.env realMCPCache.newRealMCPCache key t
  = (None, Some "cache miss", realMCPCache.newRealMCPCache, t)
  ∧ realMCPCache.Get Demo.env c key (t + 99 * GoTime.Millisecond)
    = (Some e, None, c, t + 99 * GoTime.Millisecond)
  ∧ ∃ c', realMCPCache.Get Demo.env c key (t + 101 * GoTime.Millisecond)
          = (None, Some "cache expired", c', t + 101 * GoTime.Millisecond)
          ∧ size (realMCPCache.data c) = 1%nat
          ∧ size (realMCPCache.data c') = 0%nat.
Proof.
  intros key r t c e.
  split; [| split].
  - apply (Get_semantics Demo.env realMCPCache.newRealMCPCache key t). reflexivity.
  - apply (Get_semantics Demo.env c key (t + 99 * GoTime.Millisecond) ).
    + vm_compute. reflexivity.
    + vm_compute. discriminate.
  - destruct (Get_semantics Demo.env c key (t + 101 * GoTime.Millisecond))
      as (_ & _ & H).
    destruct (H e) as (c' & H1 & H2 & H3 & H4).
    + vm_compute. reflexivity.
    + vm_compute. reflexivity.
    + exists c'. split; [exact H1 |].
      assert (size (realMCPCache.data c) = 1%nat) as Hc by (vm_compute; reflexivity).
      split; [exact Hc | lia].
Defined.

(** C6, as the code has it: [Exists] answers whether the key is present in
    the map, returns no error and leaves the cache as it is; it looks at
    neither the age nor the ttl of the entry.  For an absent key both [Exists]
    and [Get] answer no; for an entry whose age exceeds its ttl [Get] is a
    miss while [Exists] still answers yes. *)
Theorem Exists_presence_only {World : Type} (env : Env World)
    (c : realMCPCache.t) (key : MCPCacheKey.t) (w : World) :
  realMCPCache.Exists c key
  = (bool_decide (is_Some (realMCPCache.data c !! keyToString key)), None, c)
  ∧ (realMCPCache.data c !! keyToString key = None →
       (realMCPCache.Exists c key).1.1 = false
       ∧ (realMCPCache.Get env c key w).1.1.1 = None)
  ∧ (∀ e, realMCPCache.data c !! keyToString key = Some e →
       MCPCachedResult.TTL e
       < GoTime.Sub (time_Now env w).1 (MCPCachedResult.Timestamp e) →
       (realMCPCache.Exists c key).1.1 = true
       ∧ (realMCPCache.Get env c key w).1.1.1 = None).
Proof.
  unfold realMCPCache.Exists.
  split; [| split].
  - destruct (realMCPCache.data c !! keyToString key) eqn:E.
    + by rewrite bool_decide_eq_true_2.
    + rewrite bool_decide_eq_false_2; [done |]. by intros [? ?].
  - intros H. rewrite H. split; [done |].
    unfold realMCPCache.Get. by rewrite H.
  - intros e He H. rewrite He. split; [done |].
    unfold realMCPCache.Get. rewrite He.
    destruct (time_Now env w) as [now w']. cbn [fst] in H.
    destruct (_ <? _) eqn:E; [done | lia].
Qed.

Lemma Exists_presence_only_witness :
  let key := GenerateCacheKey "web_search" "docker-mcp" {[ "query" := "x" ]} in
  let r := MCPToolResult.Make "web_search" "docker-mcp" true [] "" 0 in
  let c := (realMCPCache.Set_ Demo.env realMCPCache.newRealMCPCache key r
              (100 * GoTime.Millisecond) 0).1.2 in
  (realMCPCache.Exists realMCPCache.newRealMCPCache key).1.1 = false
  ∧ (realMCPCache.Exists c key).1.1 = true
  ∧ (realMCPCache.Get Demo.env c key (101 * GoTime.Millisecond)).1.1.1 = None.
Proof.
  intros key r c.
  destruct (Exists_presence_only Demo.env realMCPCache.newRealMCPCache key 0)
    as (_ & H0 & _).
  destruct (Exists_presence_only Demo.env c key (101 * GoTime.Millisecond))
    as (_ & _ & H1).
  split; [apply H0; reflexivity |].
  apply (H1 (MCPCachedResult.Make key r 0 (100 * GoTime.Millisecond) 0 ∅)).
  - vm_compute. reflexivity.
  - vm_compute. reflexivity.
Defined.

(** C6, as the specification states it, fails: 101 ms after an entry was set
    with a ttl of 100 ms, [Get] finds it expired, and [Exists], asked at that
    moment instead, answers yes and deletes nothing. *)
Lemma Exists_expired_counterexample :
  let key := GenerateCacheKey "web_search" "docker-mcp" {[ "query" := "x" ]} in
  let r := MCPToolResult.Make "web_search" "docker-mcp" true [] "" 0 in
  let c := (realMCPCache.Set_ Demo.env realMCPCache.newRealMCPCache key r
              (100 * GoTime.Millisecond) 0).1.2 in
  (realMCPCache.Get Demo.env c key (101 * GoTime.Millisecond)).1.1
  = (None, Some "cache expired")
  ∧ realMCPCache.Exists c key = (true, None, c)
  ∧ realMCPCache.Exists c key ≠ (false, None, c).
Proof.
  intros key r c. split; [| split].
  - vm_compute. reflexivity.
  - vm_compute. reflexivity.
  - intros E. apply (f_equal (λ x, x.1.1)) in E. vm_compute in E. discriminate.
Qed.

(** *** The cache manager *)

Section ManagerFacts.

Context {World : Type} (env : Env World).

Lemma entryAt_deref (cm : realMCPCacheManager.t) (p k : string) :
  realMCPCache.data (realMCPCacheManager.deref cm p) !! k = entryAt cm p k.
Proof.
  unfold realMCPCacheManager.deref, entryAt.
  destruct (realMCPCacheManager.caches cm !! p); done.
Qed.

Lemma entryAt_assign (cm : realMCPCacheManager.t) (p p' k : string)
    (c : realMCPCache.t) :
  entryAt (realMCPCacheManager.assign cm p c) p' k
  = if decide (p = p') then realMCPCache.data c !! k else entryAt cm p' k.
Proof.
  unfold entryAt, realMCPCacheManager.assign. cbn [realMCPCacheManager.caches].
  destruct (decide (p = p')) as [->|Hne].
  - by rewrite lookup_insert_eq.
  - by rewrite lookup_insert_ne.
Qed.

(** [GetCache] returns the cache of the pair and changes no entry. *)
Lemma GetCache_entries (cm : realMCPCacheManager.t) (toolName serverName : string) :
  ∃ cm1,
    realMCPCacheManager.GetCache cm toolName serverName
    = (realMCPCacheManager.pairKey toolName serverName, cm1)
    ∧ realMCPCacheManager.config cm1 = realMCPCacheManager.config cm
    ∧ ∀ p k, entryAt cm1 p k = entryAt cm p k.
Proof.
  unfold realMCPCacheManager.GetCache.
  destruct (realMCPCacheManager.caches cm !! _) eqn:E; eexists; (split; [done |]).
  - done.
  - split; [done |]. intros p k. unfold entryAt. cbn [realMCPCacheManager.caches].
    destruct (decide (realMCPCacheManager.pairKey toolName serverName = p)) as [<-|Hne].
    + by rewrite lookup_insert_eq, E.
    + by rewrite lookup_insert_ne.
Qed.

(** What [ExecuteWithCache] does to the entries of the manager: the
    configuration stays, and an entry held afterwards was held before, or it
    is the entry of this execution, made from a result that was returned
    without error and with [Success], under the key of the execution in the
    cache of its pair, with the default ttl. *)
Lemma ExecuteWithCache_entries (cm cm' : realMCPCacheManager.t)
    (globalMCPManager : option MCPManager) (execution : MCPToolExecution.t)
    (w w' : World) (o : outcome (MCPToolResult.t * error)) :
  realMCPCacheManager.ExecuteWithCache env cm globalMCPManager execution w = (o, cm', w') →
  let pair :=
    realMCPCacheManager.pairKey (MCPToolExecution.ToolName execution)
      (MCPToolExecution.ServerName execution) in
  let key :=
    GenerateCacheKey (MCPToolExecution.ToolName execution)
      (MCPToolExecution.ServerName execution)
      (Sprintf_v env <$> MCPToolExecution.Arguments execution) in
  realMCPCacheManager.config cm' = realMCPCacheManager.config cm
  ∧ ∀ p k e, entryAt cm' p k = Some e →
      entryAt cm p k = Some e
      ∨ (p = pair ∧ k = keyToString key
         ∧ ∃ result,
             o = Returns (result, None)
             ∧ MCPToolResult.Success result = true
             ∧ MCPCachedResult.Key e = key
             ∧ MCPCachedResult.Result e = result
             ∧ MCPCachedResult.TTL e
               = MCPCacheConfig.DefaultTTL (realMCPCacheManager.config cm)).
Proof.
  intros H pair key. unfold realMCPCacheManager.ExecuteWithCache in H.
  destruct (GetCache_entries cm (MCPToolExecution.ToolName execution)
              (MCPToolExecution.ServerName execution)) as (cm1 & EG & Hcfg1 & Hent1).
  rewrite EG in H. fold pair key in H.
  (* the look-up *)
  assert (∃ cached cm2 w2,
            (if MCPCacheConfig.Enabled (realMCPCacheManager.config cm1)
             then match realMCPCache.Get env (realMCPCacheManager.deref cm1 pair) key w with
                  | (Some cached, None, c, w') =>
                      (Some cached, realMCPCacheManager.assign cm1 pair c, w')
                  | (_, _, c, w') => (None, realMCPCacheManager.assign cm1 pair c, w')
                  end
             else (None, cm1, w)) = (cached, cm2, w2)
            ∧ realMCPCacheManager.config cm2 = realMCPCacheManager.config cm
            ∧ ∀ p k e, entryAt cm2 p k = Some e → entryAt cm p k = Some e)
    as (cached & cm2 & w2 & E2 & Hcfg2 & Hent2).
  { destruct (MCPCacheConfig.Enabled (realMCPCacheManager.config cm1)).
    - destruct (realMCPCache.Get env (realMCPCacheManager.deref cm1 pair) key w)
        as [[[res err] c] w1] eqn:EGet.
      pose proof (Get_entries env _ _ _ _ _ _ _ EGet) as Hsub.
      assert (∀ p k e, entryAt (realMCPCacheManager.assign cm1 pair c) p k = Some e →
                       entryAt cm p k = Some e) as Hc.
      { intros p k e. rewrite entryAt_assign, <- Hent1.
        destruct (decide (pair = p)) as [<-|]; [| done].
        intros He%Hsub. by rewrite entryAt_deref in He. }
      destruct res as [cached|]; [destruct err |];
        (eexists _, _, _; split; [done |]; split; [exact Hcfg1 | exact Hc]).
    - exists None, cm1, w. split; [done |]. split; [done |].
      intros p k e. by rewrite Hent1. }
  rewrite E2 in H. clear E2.
  destruct cached as [cached|]; [by simplify_eq; split; [| eauto] |].
  destruct globalMCPManager as [[realManager|]|];
    [| by simplify_eq; split; [| eauto] | by simplify_eq; split; [| eauto]].
  destruct (realMCPManager.executeTool env realManager _ _ w2) as [[[result [err|]]|] w3];
    [by simplify_eq; split; [| eauto] | | by simplify_eq; split; [| eauto]].
  destruct (MCPCacheConfig.Enabled (realMCPCacheManager.config cm2)
            && MCPToolResult.Success result) eqn:Econd;
    [| by simplify_eq; split; [| eauto]].
  apply andb_prop in Econd as [_ Hsucc].
  unfold realMCPCache.Set_ in H. destruct (time_Now env w3) as [now w4].
  simplify_eq. split; [done |].
  intros p k e. rewrite entryAt_assign.
  destruct (decide (pair = p)) as [<-|]; [| eauto].
  cbn [realMCPCache.data].
  destruct (decide (keyToString key = k)) as [<-|Hk].
  - rewrite lookup_insert_eq. intros [= <-]. right.
    repeat split; [done..|]. eexists. repeat split; [done..|].
    cbn. by rewrite Hcfg2.
  - rewrite lookup_insert_ne by done. rewrite entryAt_deref. eauto.
Qed.

End ManagerFacts.

(** C2: an invocation that returns a result with [Success] false (the result
    of the underlying execution, since the key was absent and the cache could
    not answer) stores nothing: a key absent from the cache of the pair before
    the call is absent after it.  And whatever the call does, an entry held
    after it that was not held before wraps a result with [Success] true. *)
Theorem ExecuteWithCache_no_cache_on_failure {World : Type} (env : Env World)
    (cm : realMCPCacheManager.t) (globalMCPManager : option MCPManager)
    (execution : MCPToolExecution.t) (w : World) :
  let pair :=
    realMCPCacheManager.pairKey (MCPToolExecution.ToolName execution)
      (MCPToolExecution.ServerName execution) in
  let key :=
    GenerateCacheKey (MCPToolExecution.ToolName execution)
      (MCPToolExecution.ServerName execution)
      (Sprintf_v env <$> MCPToolExecution.Arguments execution) in
  let out := realMCPCacheManager.ExecuteWithCache env cm globalMCPManager execution w in
  (∀ r err,
     out.1.1 = Returns (r, err) →
     MCPToolResult.Success r = false →
     entryAt cm pair (keyToString key) = None →
     entryAt out.1.2 pair (keyToString key) = None)
  ∧ (∀ p k e,
       entryAt out.1.2 p k = Some e →
       entryAt cm p k = Some e
       ∨ MCPToolResult.Success (MCPCachedResult.Result e) = true).
Proof.
  intros pair key out.
  destruct out as [[o cm'] w'] eqn:E. subst out.
  destruct (ExecuteWithCache_entries env _ _ _ _ _ _ _ E) as [_ H].
  cbn [fst snd]. split.
  - intros r err -> Hr Habs.
    destruct (entryAt cm' pair (keyToString key)) as [e|] eqn:Ee; [| done].
    destruct (H _ _ _ Ee) as [He | (_ & _ & result & Ho & Hs & _)].
    + congruence.
    + congruence.
  - intros p k e He.
    destruct (H _ _ _ He) as [? | (_ & _ & result & _ & Hs & _ & <- & _)]; auto.
Qed.

(** The tool [flaky] returns an error result: the call returns it with
    [Success] false and the cache of the pair holds no entry afterwards. *)
Lemma ExecuteWithCache_no_cache_on_failure_witness :
  let gm := Some (RealMCPManager Demo.manager) in
  let out := realMCPCacheManager.ExecuteWithCache Demo.env Demo.cacheManager gm Demo.fail 0 in
  let key := GenerateCacheKey "flaky" "docker-mcp" {[ "query" := "x" ]} in
  (∃ r, out.1.1 = Returns (r, None) ∧ MCPToolResult.Success r = false)
  ∧ entryAt out.1.2 "flaky:docker-mcp" (keyToString key) = None.
Proof.
  intros gm out key.
  destruct (ExecuteWithCache_no_cache_on_failure Demo.env Demo.cacheManager gm Demo.fail 0)
    as [H _].
  assert (∃ r, out.1.1 = Returns (r, None) ∧ MCPToolResult.Success r = false) as Hr.
  { eexists. split; vm_compute; reflexivity. }
  split; [exact Hr |].
  destruct Hr as (r & Ho & Hs).
  apply (H r None Ho Hs). vm_compute. reflexivity.
Defined.

(** X10: The entry that [ExecuteWithCache] stores has the default ttl. *)
Lemma ExecuteWithCache_stores_DefaultTTL {World : Type} (env : Env World)
    (cm : realMCPCacheManager.t) (globalMCPManager : option MCPManager)
    (execution : MCPToolExecution.t) (w : World) (p k : string) (e : MCPCachedResult.t) :
  let out := realMCPCacheManager.ExecuteWithCache env cm globalMCPManager execution w in
  entryAt out.1.2 p k = Some e →
  entryAt cm p k = Some e
  ∨ MCPCachedResult.TTL e = MCPCacheConfig.DefaultTTL (realMCPCacheManager.config cm).
Proof.
  intros out He. destruct out as [[o cm'] w'] eqn:E. subst out.
  destruct (ExecuteWithCache_entries env _ _ _ _ _ _ _ E) as [_ H].
  destruct (H _ _ _ He) as [? | (_ & _ & result & _ & _ & _ & _ & ?)]; auto.
Qed.

(** C5: with a default ttl of 15 minutes and an override of 5 minutes for
    the tool [web_search], a successful execution of [web_search] is stored
    with a ttl of 15 minutes: [ExecuteWithCache] does not consult the
    per-tool overrides.  The specification says 5 minutes. *)
Theorem ExecuteWithCache_ignores_ToolTTLs :
  let gm := Some (RealMCPManager Demo.manager) in
  let out := realMCPCacheManager.ExecuteWithCache Demo.env Demo.cacheManager gm Demo.search 0 in
  let key := GenerateCacheKey "web_search" "docker-mcp" {[ "query" := "x" ]} in
  MCPCacheConfig.DefaultTTL Demo.cacheConfig = 15 * GoTime.Minute
  ∧ MCPCacheConfig.ToolTTLs Demo.cacheConfig !! "web_search" = Some (5 * GoTime.Minute)
  ∧ (∃ r, out.1.1 = Returns (r, None) ∧ MCPToolResult.Success r = true)
  ∧ MCPCachedResult.TTL <$> entryAt out.1.2 "web_search:docker-mcp" (keyToString key)
    = Some (15 * GoTime.Minute).
Proof.
  intros gm out key. split; [| split; [| split]].
  - vm_compute. reflexivity.
  - vm_compute. reflexivity.
  - eexists. split; vm_compute; reflexivity.
  - vm_compute. reflexivity.
Qed.

(** *** Statistics *)

Section StatsFacts.

Lemma wrap64_add (a b : Z) : add64 (wrap64 a) b = wrap64 (a + b).
Proof.
  unfold add64, wrap64.
  replace ((a + 2 ^ 63) mod 2 ^ 64 - 2 ^ 63 + b + 2 ^ 63)
    with ((a + 2 ^ 63) mod 2 ^ 64 + b) by lia.
  rewrite Zplus_mod_idemp_l. do 2 f_equal. lia.
Qed.

(** Summing the statistics of the caches keeps the counters of hits and
    misses and the hit rate at zero and counts the entries. *)
Lemma addStats_fold (order : list (string * realMCPCache.t))
    (total : MCPCacheStats.t) (n : Z) :
  MCPCacheStats.HitCount total = 0 →
  MCPCacheStats.MissCount total = 0 →
  MCPCacheStats.HitRate total = 0%Q →
  MCPCacheStats.TotalKeys total = wrap64 n →
  let total' :=
    fold_left (λ total kv, realMCPCacheManager.addStats total kv.2) order total in
  MCPCacheStats.HitCount total' = 0
  ∧ MCPCacheStats.MissCount total' = 0
  ∧ MCPCacheStats.HitRate total' = 0%Q
  ∧ MCPCacheStats.TotalKeys total' = wrap64 (n + totalEntries order).
Proof.
  revert total n. induction order as [|[p c] order IH]; intros total n Hh Hm Hr Hk.
  - cbn. by rewrite Z.add_0_r.
  - cbn [fold_left totalEntries fold_right snd].
    replace (n + (Z.of_nat (size (realMCPCache.data c)) + totalEntries order))
      with ((n + Z.of_nat (size (realMCPCache.data c))) + totalEntries order) by lia.
    apply IH; unfold realMCPCacheManager.addStats; cbn.
    + by rewrite Hh.
    + by rewrite Hm.
    + done.
    + by rewrite Hk, wrap64_add.
Qed.

Lemma GetGlobalStats_in_zero (order : list (string * realMCPCache.t)) :
  let stats := (realMCPCacheManager.GetGlobalStats_in order).1 in
  (realMCPCacheManager.GetGlobalStats_in order).2 = None
  ∧ MCPCacheStats.HitCount stats = 0
  ∧ MCPCacheStats.MissCount stats = 0
  ∧ MCPCacheStats.HitRate stats = 0%Q
  ∧ MCPCacheStats.TotalKeys stats = wrap64 (totalEntries order).
Proof.
  intros stats. subst stats. unfold realMCPCacheManager.GetGlobalStats_in.
  destruct (addStats_fold order MCPCacheStats.zero 0) as (Hh & Hm & Hr & Hk);
    [done.. |].
  cbv zeta. set (total := fold_left _ order MCPCacheStats.zero) in *.
  rewrite Hh, Hm. change (0 <? add64 0 0) with false. cbn [fst snd].
  by rewrite Hh, Hm, Hr, Hk.
Qed.

End StatsFacts.

(** C4, as the code has it: after every sequence of executions through one
    manager, whatever the numbers of hits and misses, [GetGlobalStats] returns
    no error, a hit count, a miss count and a hit rate of zero, and as the
    total of keys the number of entries of all the caches: the caches keep no
    counter of hits or misses, and neither does the manager. *)
Theorem GetGlobalStats_counts_no_hits {World : Type} (env : Env World)
    (cm : realMCPCacheManager.t) (globalMCPManager : option MCPManager)
    (executions : list MCPToolExecution.t) (w : World) :
  let cm' :=
    (realMCPCacheManager.runExecutions env cm globalMCPManager executions w 0 0).1.1.1 in
  let stats := (realMCPCacheManager.GetGlobalStats cm').1 in
  (realMCPCacheManager.GetGlobalStats cm').2 = None
  ∧ MCPCacheStats.HitCount stats = 0
  ∧ MCPCacheStats.MissCount stats = 0
  ∧ MCPCacheStats.HitRate stats = 0%Q
  ∧ MCPCacheStats.TotalKeys stats
    = wrap64 (totalEntries (map_to_list (realMCPCacheManager.caches cm'))).
Proof. intros cm' stats. apply GetGlobalStats_in_zero. Qed.

(** C4, as the specification states it, fails: the same execution run twice
    is one miss and then one hit, and the hit rate reported afterwards is
    zero, not one half. *)
Lemma GetGlobalStats_hitRate_counterexample :
  let gm := Some (RealMCPManager Demo.manager) in
  let run :=
    realMCPCacheManager.runExecutions Demo.env Demo.cacheManager gm
      [Demo.search; Demo.search] 0 0 0 in
  let stats := (realMCPCacheManager.GetGlobalStats run.1.1.1).1 in
  (run.1.2 = 1%nat ∧ run.2 = 1%nat)
  ∧ MCPCacheStats.HitRate stats = 0%Q
  ∧ ¬ (MCPCacheStats.HitRate stats == 1 # 2)%Q.
Proof.
  intros gm run stats.
  assert (MCPCacheStats.HitRate stats = 0%Q) as H by (vm_compute; reflexivity).
  split; [split; vm_compute; reflexivity |]. split; [exact H |].
  rewrite H. intros E. vm_compute in E. discriminate.
Qed.

(** *** The connection manager *)

(** C9, as the code has it: [RefreshTools] returns no error, whatever the
    configuration and whatever the servers answer; it keeps the
    configuration; and with no server configured it leaves the manager with
    an empty catalogue and the world as it is. *)
Theorem RefreshTools_never_fails {World : Type} (env : Env World)
    (m : realMCPManager.t) (w : World) :
  let out := realMCPManager.RefreshTools env m w in
  out.1.1 = None
  ∧ realMCPManager.config out.1.2 = realMCPManager.config m
  ∧ (MCPConfig.Servers (realMCPManager.config m) = [] →
       out = (None, realMCPManager.with_tools m [], w)).
Proof.
  intros out. subst out. unfold realMCPManager.RefreshTools.
  assert (∀ servers st,
            realMCPManager.config
              (fold_left (realMCPManager.RefreshTools_server env) servers st).1
            = realMCPManager.config st.1) as Hcfg.
  { induction servers as [|server servers IH]; intros [m0 w0]; [done |].
    cbn [fold_left]. rewrite IH. unfold realMCPManager.RefreshTools_server.
    destruct (MCPServerConfig.Enabled server); [| done].
    unfold realMCPManager.Connect.
    destruct (realMCPManager.serverNamed m0 _); [| done].
    destruct (String.eqb _ _); [| done].
    destruct (net_DialTimeout _ _ _ _ _) as [[err|] w1]; [done |].
    destruct (default false _); [| done].
    destruct (realMCPManager.discoverToolsFromServer _ _ _ _) as [[ts [e|]] w2]; done. }
  specialize (Hcfg (MCPConfig.Servers (realMCPManager.config m))
                   (realMCPManager.with_tools m [], w)).
  destruct (fold_left _ _ _) as [m' w'] eqn:E. cbn [fst snd] in *.
  split; [done |]. split; [done |].
  intros Hs. rewrite Hs in E. cbn in E. by simplify_eq.
Qed.

Lemma RefreshTools_never_fails_witness :
  let m := realMCPManager.createRealMCPManager (Demo.mcpConfig []) in
  realMCPManager.RefreshTools Demo.env m 0 = (None, realMCPManager.with_tools m [], 0).
Proof.
  intros m.
  destruct (RefreshTools_never_fails Demo.env m 0) as (_ & _ & H).
  apply H. reflexivity.
Defined.

(** C9, as the specification states it, fails: with no server configured
    [RefreshTools] returns no error. *)
Lemma RefreshTools_no_servers_counterexample :
  let m := realMCPManager.createRealMCPManager (Demo.mcpConfig []) in
  MCPConfig.Servers (realMCPManager.config m) = []
  ∧ (realMCPManager.RefreshTools Demo.env m 0).1.1 = None.
Proof. split; reflexivity. Qed.

(** X16: When every dial is refused, every server is skipped: the catalogue is
    empty and no server is marked connected that was not. *)
Lemma RefreshTools_all_down {World : Type} (env : Env World)
    (m : realMCPManager.t) (w : World) :
  (∀ network address timeout w0,
     (net_DialTimeout env network address timeout w0).1 ≠ None) →
  let out := realMCPManager.RefreshTools env m w in
  out.1.1 = None
  ∧ realMCPManager.tools out.1.2 = []
  ∧ realMCPManager.connectedServers out.1.2 = realMCPManager.connectedServers m.
Proof.
  intros Hdown out. subst out. unfold realMCPManager.RefreshTools.
  assert (∀ servers st,
            let st' := fold_left (realMCPManager.RefreshTools_server env) servers st in
            realMCPManager.tools st'.1 = realMCPManager.tools st.1
            ∧ realMCPManager.connectedServers st'.1
              = realMCPManager.connectedServers st.1) as H.
  { induction servers as [|server servers IH]; intros [m0 w0]; [done |].
    cbn [fold_left]. cbv zeta in IH |- *.
    destruct (IH (realMCPManager.RefreshTools_server env (m0, w0) server)) as [-> ->].
    unfold realMCPManager.RefreshTools_server.
    destruct (MCPServerConfig.Enabled server); [| done].
    unfold realMCPManager.Connect.
    destruct (realMCPManager.serverNamed m0 _) as [serverConfig|]; [| done].
    destruct (String.eqb _ _); [| done].
    specialize (Hdown "tcp" (realMCPManager.addressOf serverConfig)
                      (30 * GoTime.Second) w0).
    destruct (net_DialTimeout _ _ _ _ _) as [[err|] w1]; done. }
  specialize (H (MCPConfig.Servers (realMCPManager.config m))
                (realMCPManager.with_tools m [], w)).
  cbv zeta in H. destruct (fold_left _ _ _) as [m' w']. cbn [fst snd] in *.
  destruct H as [-> ->]. done.
Qed.

(** A configured server that refuses the connection is skipped: no error,
    an empty catalogue. *)
Example RefreshTools_server_down :
  let m := realMCPManager.createRealMCPManager (Demo.mcpConfig [Demo.server]) in
  let out := realMCPManager.RefreshTools Demo.offline m 0 in
  out.1.1 = None ∧ realMCPManager.tools out.1.2 = [].
Proof. split; vm_compute; reflexivity. Qed.

(** ** Part III: further properties of the code *)

(** *** The cache of one pair: [Set], [Delete], [TTL], [Cleanup] *)

Section MoreCacheFacts.

Context {World : Type} (env : Env World).

Lemma Sub_range (t u : GoTime.Time) :
  GoTime.minDuration ≤ GoTime.Sub t u ≤ GoTime.maxDuration.
Proof.
  unfold GoTime.Sub, GoTime.minDuration, GoTime.maxDuration.
  destruct (_ <? t - u) eqn:E1; [lia |].
  destruct (t - u <? _) eqn:E2; lia.
Qed.

Lemma wrap64_small (x : Z) : - 2 ^ 63 ≤ x < 2 ^ 63 → wrap64 x = x.
Proof. intros H. unfold wrap64. rewrite Z.mod_small; lia. Qed.

Lemma wrap64_above (x : Z) : 2 ^ 63 ≤ x < 2 ^ 64 + 2 ^ 63 → wrap64 x = x - 2 ^ 64.
Proof.
  intros H. unfold wrap64.
  replace (x + 2 ^ 63) with ((x + 2 ^ 63 - 2 ^ 64) + 1 * 2 ^ 64) by lia.
  rewrite Z_mod_plus_full, Z.mod_small; lia.
Qed.

(** What the fold of [Cleanup] leaves: the entries that no visited pair with
    an exceeded ttl names. *)
Lemma Cleanup_fold (now : GoTime.Time) (order : list (string * MCPCachedResult.t))
    (data : gmap string MCPCachedResult.t) (k : string) (e : MCPCachedResult.t) :
  fold_left
    (λ data kv,
       if MCPCachedResult.TTL kv.2 <? GoTime.Sub now (MCPCachedResult.Timestamp kv.2)
       then delete kv.1 data else data)
    order data !! k = Some e
  ↔ data !! k = Some e
    ∧ ∀ e', (k, e') ∈ order →
        ¬ (MCPCachedResult.TTL e' < GoTime.Sub now (MCPCachedResult.Timestamp e')).
Proof.
  revert data. induction order as [|[k0 e0] order IH]; intros data; cbn [fold_left].
  - split; [| tauto]. intros H. split; [done |]. intros e' He'. by apply elem_of_nil in He'.
  - rewrite IH. cbn [fst snd]. split.
    + intros [Hk Hall].
      destruct (_ <? _) eqn:E.
      * apply lookup_delete_Some in Hk as [Hne Hk]. split; [done |].
        intros e' [[= ? ?]|He']%elem_of_cons; [congruence | by apply Hall].
      * split; [done |].
        intros e' [[= -> ->]|He']%elem_of_cons; [lia | by apply Hall].
    + intros [Hk Hall]. split.
      * destruct (_ <? _) eqn:E; [| done].
        apply lookup_delete_Some. split; [| done].
        intros ->. apply (Hall e0); [left | lia].
      * intros e' He'. apply Hall. by right.
Qed.

End MoreCacheFacts.

(** X1: A value that was set is what [Get] returns, entry and all, as long as
    the time since the [Set] does not exceed the ttl. *)
Theorem Set_then_Get {World : Type} (env : Env World) (c : realMCPCache.t)
    (key : MCPCacheKey.t) (result : MCPToolResult.t) (ttl : GoTime.Duration)
    (w1 w2 : World) :
  GoTime.Sub (time_Now env w2).1 (time_Now env w1).1 ≤ ttl →
  let c1 := (realMCPCache.Set_ env c key result ttl w1).1.2 in
  realMCPCache.Get env c1 key w2
  = (Some (MCPCachedResult.Make key result (time_Now env w1).1 ttl 0 ∅), None, c1,
     (time_Now env w2).2).
Proof.
  intros H c1. subst c1. unfold realMCPCache.Set_, realMCPCache.Get.
  destruct (time_Now env w1) as [now1 w1']. destruct (time_Now env w2) as [now2 w2'].
  cbn [fst snd realMCPCache.data] in *. rewrite lookup_insert_eq.
  cbn [MCPCachedResult.TTL MCPCachedResult.Timestamp].
  destruct (_ <? _) eqn:E; [lia | done].
Qed.

Lemma Set_then_Get_witness :
  let key := GenerateCacheKey "web_search" "docker-mcp" {[ "query" := "x" ]} in
  let r := MCPToolResult.Make "web_search" "docker-mcp" true [] "" 0 in
  let c1 := (realMCPCache.Set_ Demo.env realMCPCache.newRealMCPCache key r
               (100 * GoTime.Millisecond) 5000).1.2 in
  realMCPCache.Get Demo.env c1 key (5000 + 100 * GoTime.Millisecond)
  = (Some (MCPCachedResult.Make key r 5000 (100 * GoTime.Millisecond) 0 ∅), None, c1,
     5000 + 100 * GoTime.Millisecond).
Proof.
  intros key r c1.
  apply (Set_then_Get Demo.env realMCPCache.newRealMCPCache key r
           (100 * GoTime.Millisecond) 5000 (5000 + 100 * GoTime.Millisecond)).
  vm_compute. discriminate.
Defined.

(** X2: A cache holds one entry for a key: a second [Set] of the key replaces the
    first, which leaves no trace; the number of entries stays, and the
    entries of the other keys stay. *)
Theorem Set_overwrites {World : Type} (env : Env World) (c : realMCPCache.t)
    (key : MCPCacheKey.t) (r1 r2 : MCPToolResult.t) (ttl1 ttl2 : GoTime.Duration)
    (w1 w2 : World) :
  let c1 := (realMCPCache.Set_ env c key r1 ttl1 w1).1.2 in
  let c2 := (realMCPCache.Set_ env c1 key r2 ttl2 w2).1.2 in
  c2 = (realMCPCache.Set_ env c key r2 ttl2 w2).1.2
  ∧ size (realMCPCache.data c2) = size (realMCPCache.data c1)
  ∧ (∀ k, k ≠ keyToString key →
       realMCPCache.data c2 !! k = realMCPCache.data c !! k).
Proof.
  intros c1 c2. subst c1 c2. unfold realMCPCache.Set_.
  destruct (time_Now env w1) as [now1 w1']. destruct (time_Now env w2) as [now2 w2'].
  cbn [fst snd realMCPCache.data]. split; [| split].
  - by rewrite insert_insert_eq.
  - rewrite insert_insert_eq.
    destruct (realMCPCache.data c !! keyToString key) eqn:E.
    + by rewrite !map_size_insert_Some.
    + by rewrite !map_size_insert_None.
  - intros k Hk. by rewrite !lookup_insert_ne.
Qed.

(** X3: After [Delete] the key is a miss for [Get] and absent for [Exists]; the
    other entries stay; deleting again, or deleting a key that was never
    set, changes nothing and is no error. *)
Theorem Delete_removes {World : Type} (env : Env World) (c : realMCPCache.t)
    (key : MCPCacheKey.t) (w : World) :
  let c' := (realMCPCache.Delete c key).2 in
  (realMCPCache.Delete c key).1 = None
  ∧ realMCPCache.Get env c' key w = (None, Some "cache miss", c', w)
  ∧ realMCPCache.Exists c' key = (false, None, c')
  ∧ realMCPCache.Delete c' key = (None, c')
  ∧ (realMCPCache.data c !! keyToString key = None →
       realMCPCache.data c' = realMCPCache.data c)
  ∧ (∀ k, k ≠ keyToString key →
       realMCPCache.data c' !! k = realMCPCache.data c !! k).
Proof.
  intros c'. subst c'.
  unfold realMCPCache.Delete, realMCPCache.Get, realMCPCache.Exists.
  cbn [fst snd realMCPCache.data]. rewrite lookup_delete_eq.
  split_and!; try done.
  - by rewrite delete_delete_eq.
  - intros H. by apply delete_id.
  - intros k Hk. by rewrite lookup_delete_ne.
Qed.

(** X4: [TTL] of an absent key is the error [key not found].  For an entry with
    a ttl that is not negative it returns no error and the time the entry has
    left, zero once the ttl is exceeded; and whenever it reports time left,
    [Get] at that moment returns the entry. *)
Theorem TTL_remaining {World : Type} (env : Env World) (c : realMCPCache.t)
    (key : MCPCacheKey.t) (w : World) :
  (realMCPCache.data c !! keyToString key = None →
     realMCPCache.TTL env c key w = (0, Some "key not found", w))
  ∧ (∀ e, realMCPCache.data c !! keyToString key = Some e →
       0 ≤ MCPCachedResult.TTL e ≤ GoTime.maxDuration →
       let elapsed := GoTime.Sub (time_Now env w).1 (MCPCachedResult.Timestamp e) in
       (realMCPCache.TTL env c key w).1.2 = None
       ∧ (0 ≤ elapsed ≤ MCPCachedResult.TTL e →
            (realMCPCache.TTL env c key w).1.1 = MCPCachedResult.TTL e - elapsed)
       ∧ (MCPCachedResult.TTL e < elapsed → (realMCPCache.TTL env c key w).1.1 = 0)
       ∧ (0 < (realMCPCache.TTL env c key w).1.1 →
            (realMCPCache.Get env c key w).1.1.1 = Some e)).
Proof.
  unfold realMCPCache.TTL, realMCPCache.Get. split.
  - by intros ->.
  - intros e -> Httl. cbv zeta.
    destruct (time_Now env w) as [now w']. cbn [fst snd].
    pose proof (Sub_range now (MCPCachedResult.Timestamp e)) as Hr.
    unfold GoTime.maxDuration, GoTime.minDuration in *.
    set (elapsed := GoTime.Sub now (MCPCachedResult.Timestamp e)) in *.
    set (ttl := MCPCachedResult.TTL e) in *.
    assert (ttl - elapsed < 2 ^ 63 ∧ wrap64 (ttl - elapsed) = ttl - elapsed
            ∨ 2 ^ 63 ≤ ttl - elapsed ∧ wrap64 (ttl - elapsed) = ttl - elapsed - 2 ^ 64)
      as Hw.
    { destruct (Z_lt_le_dec (ttl - elapsed) (2 ^ 63)).
      - left. split; [done |]. apply wrap64_small. lia.
      - right. split; [done |]. apply wrap64_above. lia. }
    split; [by destruct (_ <? 0) |]. split; [| split].
    + intros H. destruct Hw as [[_ ->]|[? _]]; [| lia].
      destruct (_ <? 0) eqn:E; cbn; lia.
    + intros H. destruct Hw as [[_ ->]|[? ->]]; destruct (_ <? 0) eqn:E; cbn; lia.
    + intros H. destruct Hw as [[_ Hw]|[? Hw]]; rewrite Hw in H;
        destruct (_ <? 0) eqn:E; cbn in H; try lia.
      destruct (ttl <? elapsed) eqn:E2; [lia | done].
Qed.

Lemma TTL_remaining_witness :
  let key := GenerateCacheKey "web_search" "docker-mcp" {[ "query" := "x" ]} in
  let r := MCPToolResult.Make "web_search" "docker-mcp" true [] "" 0 in
  let c := (realMCPCache.Set_ Demo.env realMCPCache.newRealMCPCache key r
              (100 * GoTime.Millisecond) 0).1.2 in
  realMCPCache.TTL Demo.env realMCPCache.newRealMCPCache key 0
  = (0, Some "key not found", 0)
  ∧ (realMCPCache.TTL Demo.env c key (40 * GoTime.Millisecond)).1.1
    = 60 * GoTime.Millisecond
  ∧ (realMCPCache.TTL Demo.env c key (140 * GoTime.Millisecond)).1.1 = 0.
Proof.
  intros key r c.
  pose (e := MCPCachedResult.Make key r 0 (100 * GoTime.Millisecond) 0 ∅).
  split; [| split].
  - apply (TTL_remaining Demo.env realMCPCache.newRealMCPCache key 0). reflexivity.
  - destruct (TTL_remaining Demo.env c key (40 * GoTime.Millisecond)) as [_ H].
    destruct (H e) as (_ & H1 & _).
    + vm_compute. reflexivity.
    + vm_compute. split; discriminate.
    + rewrite H1; [vm_compute; reflexivity |]. vm_compute. split; discriminate.
  - destruct (TTL_remaining Demo.env c key (140 * GoTime.Millisecond)) as [_ H].
    destruct (H e) as (_ & _ & H2 & _).
    + vm_compute. reflexivity.
    + vm_compute. split; discriminate.
    + apply H2. vm_compute. reflexivity.
Defined.

(** X5: [Cleanup] returns no error and keeps exactly the entries whose ttl is not
    exceeded at the one reading of the clock it makes, whatever the order in
    which the range visits the entries. *)
Theorem Cleanup_keeps_unexpired {World : Type} (env : Env World)
    (c : realMCPCache.t) (order : list (string * MCPCachedResult.t)) (w : World) :
  range_of (realMCPCache.data c) order →
  let now := (time_Now env w).1 in
  let out := realMCPCache.Cleanup_in env order c w in
  out.1.1 = None
  ∧ out.2 = (time_Now env w).2
  ∧ out = realMCPCache.Cleanup env c w
  ∧ (∀ k e,
       realMCPCache.data out.1.2 !! k = Some e
       ↔ realMCPCache.data c !! k = Some e
         ∧ GoTime.Sub now (MCPCachedResult.Timestamp e) ≤ MCPCachedResult.TTL e).
Proof.
  intros Hrange now out. subst now out.
  assert (∀ order', range_of (realMCPCache.data c) order' →
            ∀ k e,
              realMCPCache.data (realMCPCache.Cleanup_in env order' c w).1.2 !! k = Some e
              ↔ realMCPCache.data c !! k = Some e
                ∧ GoTime.Sub (time_Now env w).1 (MCPCachedResult.Timestamp e)
                  ≤ MCPCachedResult.TTL e) as Hchar.
  { intros order' Hr k e. unfold realMCPCache.Cleanup_in.
    destruct (time_Now env w) as [now w']. cbn [fst snd realMCPCache.data].
    rewrite Cleanup_fold. split.
    - intros [Hk Hall]. split; [done |].
      assert ((k, e) ∈ order') as Hin
        by (unfold range_of in Hr; rewrite Hr; by apply elem_of_map_to_list).
      specialize (Hall e Hin). lia.
    - intros [Hk Hage]. split; [done |].
      intros e' He'. unfold range_of in Hr. rewrite Hr in He'.
      apply elem_of_map_to_list in He'. assert (e' = e) as -> by congruence. lia. }
  split; [| split; [| split]].
  - unfold realMCPCache.Cleanup_in. by destruct (time_Now env w).
  - unfold realMCPCache.Cleanup_in. by destruct (time_Now env w).
  - assert (realMCPCache.data (realMCPCache.Cleanup_in env order c w).1.2
            = realMCPCache.data (realMCPCache.Cleanup env c w).1.2) as Hd.
    { apply map_eq. intros k. apply option_eq. intros e.
      assert (range_of (realMCPCache.data c) (map_to_list (realMCPCache.data c)))
        as Hself by (unfold range_of; done).
      rewrite (Hchar order Hrange). unfold realMCPCache.Cleanup.
      by rewrite (Hchar _ Hself). }
    unfold realMCPCache.Cleanup, realMCPCache.Cleanup_in in *.
    destruct (time_Now env w) as [now w']. cbn [fst snd realMCPCache.data] in Hd.
    by rewrite Hd.
  - apply Hchar, Hrange.
Qed.

Lemma Cleanup_keeps_unexpired_witness :
  let k1 := GenerateCacheKey "web_search" "docker-mcp" {[ "query" := "x" ]} in
  let k2 := GenerateCacheKey "web_search" "docker-mcp" {[ "query" := "y" ]} in
  let r := MCPToolResult.Make "web_search" "docker-mcp" true [] "" 0 in
  let c1 := (realMCPCache.Set_ Demo.env realMCPCache.newRealMCPCache k1 r
               (100 * GoTime.Millisecond) 0).1.2 in
  let c2 := (realMCPCache.Set_ Demo.env c1 k2 r (300 * GoTime.Millisecond) 0).1.2 in
  let out := realMCPCache.Cleanup Demo.env c2 (200 * GoTime.Millisecond) in
  out.1.1 = None
  ∧ realMCPCache.data out.1.2 !! keyToString k1 = None
  ∧ realMCPCache.data out.1.2 !! keyToString k2
    = Some (MCPCachedResult.Make k2 r 0 (300 * GoTime.Millisecond) 0 ∅).
Proof.
  intros k1 k2 r c1 c2 out.
  destruct (Cleanup_keeps_unexpired Demo.env c2 (map_to_list (realMCPCache.data c2))
              (200 * GoTime.Millisecond)) as (H1 & _ & _ & H2).
  - unfold range_of. reflexivity.
  - split; [exact H1 |]. split.
    + vm_compute. reflexivity.
    + apply H2. split; [vm_compute; reflexivity | vm_compute; discriminate].
Defined.

(** *** The cache manager: hits, memoization, disabled caching,
    invalidation *)

Section MoreManagerFacts.

Context {World : Type} (env : Env World).

Lemma assign_deref (cm : realMCPCacheManager.t) (p : string) :
  is_Some (realMCPCacheManager.caches cm !! p) →
  realMCPCacheManager.assign cm p (realMCPCacheManager.deref cm p) = cm.
Proof.
  intros [c Hc]. unfold realMCPCacheManager.assign, realMCPCacheManager.deref.
  rewrite Hc. cbn [default]. rewrite insert_id by done. by destruct cm.
Qed.

Lemma entryAt_is_Some (cm : realMCPCacheManager.t) (p k : string) :
  is_Some (entryAt cm p k) → is_Some (realMCPCacheManager.caches cm !! p).
Proof.
  unfold entryAt. destruct (realMCPCacheManager.caches cm !! p); [eauto |].
  by intros [? ?].
Qed.

Lemma GetCache_present (cm : realMCPCacheManager.t) (toolName serverName : string) :
  is_Some (realMCPCacheManager.caches cm
             !! realMCPCacheManager.pairKey toolName serverName) →
  realMCPCacheManager.GetCache cm toolName serverName
  = (realMCPCacheManager.pairKey toolName serverName, cm).
Proof. intros [c Hc]. unfold realMCPCacheManager.GetCache. by rewrite Hc. Qed.

(** An entry of the pair whose ttl is not exceeded answers the call. *)
Lemma ExecuteWithCache_fresh_entry (cm : realMCPCacheManager.t)
    (globalMCPManager : option MCPManager) (execution : MCPToolExecution.t)
    (w : World) (e : MCPCachedResult.t) :
  MCPCacheConfig.Enabled (realMCPCacheManager.config cm) = true →
  entryAt cm
    (realMCPCacheManager.pairKey (MCPToolExecution.ToolName execution)
       (MCPToolExecution.ServerName execution))
    (keyToString
       (GenerateCacheKey (MCPToolExecution.ToolName execution)
          (MCPToolExecution.ServerName execution)
          (Sprintf_v env <$> MCPToolExecution.Arguments execution))) = Some e →
  GoTime.Sub (time_Now env w).1 (MCPCachedResult.Timestamp e) ≤ MCPCachedResult.TTL e →
  realMCPCacheManager.ExecuteWithCache env cm globalMCPManager execution w
  = (Returns (MCPCachedResult.Result e, None), cm, (time_Now env w).2).
Proof.
  set (pair := realMCPCacheManager.pairKey _ _). set (key := GenerateCacheKey _ _ _).
  intros Hen He Hage.
  assert (is_Some (realMCPCacheManager.caches cm !! pair)) as Hsome
    by (apply (entryAt_is_Some cm pair (keyToString key)); eauto).
  unfold realMCPCacheManager.ExecuteWithCache.
  rewrite GetCache_present by done. fold pair key. rewrite Hen.
  unfold realMCPCache.Get. rewrite entryAt_deref, He.
  destruct (time_Now env w) as [now w']. cbn [fst snd] in *.
  destruct (_ <? _) eqn:E; [lia |].
  by rewrite assign_deref.
Qed.

End MoreManagerFacts.

(** X6: [GetCache] creates the cache of a pair once: it changes no entry of any
    pair, the pair has a cache afterwards, and a second call returns the same
    cache and leaves the manager as it is. *)
Theorem GetCache_once (cm : realMCPCacheManager.t) (toolName serverName : string) :
  let out := realMCPCacheManager.GetCache cm toolName serverName in
  out.1 = realMCPCacheManager.pairKey toolName serverName
  ∧ is_Some (realMCPCacheManager.caches out.2 !! out.1)
  ∧ (∀ p k, entryAt out.2 p k = entryAt cm p k)
  ∧ (∀ p, p ≠ out.1 →
       realMCPCacheManager.caches out.2 !! p = realMCPCacheManager.caches cm !! p)
  ∧ realMCPCacheManager.GetCache out.2 toolName serverName = out.
Proof.
  intros out. subst out.
  destruct (GetCache_entries cm toolName serverName) as (cm1 & E & _ & Hent).
  rewrite E. cbn [fst snd].
  assert (is_Some (realMCPCacheManager.caches cm1
                     !! realMCPCacheManager.pairKey toolName serverName)) as Hsome.
  { unfold realMCPCacheManager.GetCache in E.
    destruct (realMCPCacheManager.caches cm !! _) eqn:Ec; simplify_eq; [eauto |].
    cbn. rewrite lookup_insert_eq. eauto. }
  split_and!; try done.
  - intros p Hp. unfold realMCPCacheManager.GetCache in E.
    destruct (realMCPCacheManager.caches cm !! _) eqn:Ec; simplify_eq; [done |].
    cbn. by rewrite lookup_insert_ne.
  - by apply GetCache_present.
Qed.

(** X7: A hit executes nothing: when caching is enabled and the cache of the pair
    holds, for the key of the execution, an entry whose ttl is not exceeded,
    [ExecuteWithCache] returns the result of the entry without error,
    whatever the global manager is (even none), leaves the cache manager as
    it is, and touches the world only by reading the clock. *)
Theorem ExecuteWithCache_hit {World : Type} (env : Env World)
    (cm : realMCPCacheManager.t) (globalMCPManager : option MCPManager)
    (execution : MCPToolExecution.t) (w : World) (e : MCPCachedResult.t) :
  let pair :=
    realMCPCacheManager.pairKey (MCPToolExecution.ToolName execution)
      (MCPToolExecution.ServerName execution) in
  let key :=
    GenerateCacheKey (MCPToolExecution.ToolName execution)
      (MCPToolExecution.ServerName execution)
      (Sprintf_v env <$> MCPToolExecution.Arguments execution) in
  MCPCacheConfig.Enabled (realMCPCacheManager.config cm) = true →
  entryAt cm pair (keyToString key) = Some e →
  GoTime.Sub (time_Now env w).1 (MCPCachedResult.Timestamp e) ≤ MCPCachedResult.TTL e →
  realMCPCacheManager.ExecuteWithCache env cm globalMCPManager execution w
  = (Returns (MCPCachedResult.Result e, None), cm, (time_Now env w).2).
Proof.
  intros pair key Hen He Hage. by apply ExecuteWithCache_fresh_entry.
Qed.

Lemma ExecuteWithCache_hit_witness :
  let gm := Some (RealMCPManager Demo.manager) in
  let first :=
    realMCPCacheManager.ExecuteWithCache Demo.env Demo.cacheManager gm Demo.search 0 in
  ∃ r, first.1.1 = Returns (r, None)
       ∧ realMCPCacheManager.ExecuteWithCache Demo.env first.1.2 None Demo.search
           (10 * GoTime.Minute)
         = (Returns (r, None), first.1.2, 10 * GoTime.Minute).
Proof.
  intros gm first.
  pose (key := GenerateCacheKey "web_search" "docker-mcp" {[ "query" := "x" ]}).
  destruct (entryAt first.1.2 "web_search:docker-mcp" (keyToString key)) as [e|] eqn:He;
    [| vm_compute in He; discriminate].
  exists (MCPCachedResult.Result e). split.
  - vm_compute in He. injection He as <-. vm_compute. reflexivity.
  - apply (ExecuteWithCache_hit Demo.env first.1.2 None Demo.search
             (10 * GoTime.Minute) e).
    + vm_compute. reflexivity.
    + exact He.
    + vm_compute in He. injection He as <-. vm_compute. discriminate.
Defined.

(** X8: Memoization: when caching is enabled and a call returns a result with
    [Success] and no error, the cache of the pair then holds an entry with
    that result for the key of the execution, and every later call for the
    same execution made before the ttl of the entry is exceeded returns the
    same result, without executing and without changing the manager. *)
Theorem ExecuteWithCache_memoizes {World : Type} (env : Env World)
    (cm cm' : realMCPCacheManager.t) (globalMCPManager : option MCPManager)
    (execution : MCPToolExecution.t) (w w' : World) (r : MCPToolResult.t) :
  let pair :=
    realMCPCacheManager.pairKey (MCPToolExecution.ToolName execution)
      (MCPToolExecution.ServerName execution) in
  let key :=
    GenerateCacheKey (MCPToolExecution.ToolName execution)
      (MCPToolExecution.ServerName execution)
      (Sprintf_v env <$> MCPToolExecution.Arguments execution) in
  MCPCacheConfig.Enabled (realMCPCacheManager.config cm) = true →
  realMCPCacheManager.ExecuteWithCache env cm globalMCPManager execution w
  = (Returns (r, None), cm', w') →
  MCPToolResult.Success r = true →
  ∃ e, entryAt cm' pair (keyToString key) = Some e
       ∧ MCPCachedResult.Result e = r
       ∧ ∀ (later : option MCPManager) (w2 : World),
           GoTime.Sub (time_Now env w2).1 (MCPCachedResult.Timestamp e)
           ≤ MCPCachedResult.TTL e →
           realMCPCacheManager.ExecuteWithCache env cm' later execution w2
           = (Returns (r, None), cm', (time_Now env w2).2).
Proof.
  intros pair key Hen H Hs.
  assert (∃ e, entryAt cm' pair (keyToString key) = Some e
               ∧ MCPCachedResult.Result e = r
               ∧ realMCPCacheManager.config cm' = realMCPCacheManager.config cm)
    as (e & He & Hr & Hcfg).
  { unfold realMCPCacheManager.ExecuteWithCache in H.
    destruct (GetCache_entries cm (MCPToolExecution.ToolName execution)
                (MCPToolExecution.ServerName execution)) as (cm1 & EG & Hcfg1 & Hent1).
    rewrite EG in H. fold pair key in H. rewrite Hcfg1, Hen in H.
    destruct (realMCPCache.Get env (realMCPCacheManager.deref cm1 pair) key w)
      as [[[res err] c] w1] eqn:EGet.
    destruct res as [cached|].
    - (* answered from the cache *)
      apply Get_hit in EGet as (-> & -> & Hc). simplify_eq.
      exists cached. rewrite entryAt_assign. rewrite decide_True by done.
      by rewrite Hc.
    - assert (realMCPCacheManager.config (realMCPCacheManager.assign cm1 pair c)
              = realMCPCacheManager.config cm1) as Hcfg2 by done.
      destruct err as [er|];
        (destruct globalMCPManager as [[realManager|]|]; [| by simplify_eq..];
         destruct (realMCPManager.executeTool env realManager _ _ w1)
           as [[[result [err'|]]|] w3]; [by simplify_eq | | by simplify_eq];
         rewrite Hcfg2, Hcfg1, Hen in H; cbn [andb] in H;
         destruct (MCPToolResult.Success result) eqn:Hsr;
           [| by simplify_eq; congruence];
         unfold realMCPCache.Set_ in H; destruct (time_Now env w3) as [now w4];
         simplify_eq; eexists; rewrite entryAt_assign, decide_True by done;
         cbn [realMCPCache.data]; rewrite lookup_insert_eq; done). }
  exists e. split; [done |]. split; [done |].
  intros later w2 Hage. rewrite <- Hr.
  apply ExecuteWithCache_fresh_entry; [by rewrite Hcfg | done | done].
Qed.

Lemma ExecuteWithCache_memoizes_witness :
  let gm := Some (RealMCPManager Demo.manager) in
  let first :=
    realMCPCacheManager.ExecuteWithCache Demo.env Demo.cacheManager gm Demo.search 0 in
  ∃ r, first.1.1 = Returns (r, None)
       ∧ realMCPCacheManager.ExecuteWithCache Demo.env first.1.2 gm Demo.search
           (10 * GoTime.Minute)
         = (Returns (r, None), first.1.2, 10 * GoTime.Minute).
Proof.
  intros gm first.
  destruct first as [[o cm'] w'] eqn:E.
  assert (∃ r, o = Returns (r, None) ∧ MCPToolResult.Success r = true) as (r & -> & Hs).
  { apply (f_equal (λ x, x.1.1)) in E. cbn [fst snd] in E. subst o.
    eexists. split; vm_compute; reflexivity. }
  destruct (ExecuteWithCache_memoizes Demo.env Demo.cacheManager cm' gm Demo.search
              0 w' r eq_refl E Hs) as (e & He & Hr & H).
  exists r. split; [done |]. cbn [fst snd].
  apply (H gm (10 * GoTime.Minute)).
  apply (f_equal (λ x, x.1.2)) in E. cbn [fst snd] in E. subst cm'.
  vm_compute in He. injection He as <-. vm_compute. discriminate.
Defined.

Section InvalidateFacts.

(** The range of [InvalidateByPattern] over caches the manager holds: no
    error, the configuration stays, and a cache is replaced by an empty one
    when it was visited and its key contains the pattern. *)
Lemma InvalidateByPattern_fold (pattern : string)
    (order : list (string * realMCPCache.t)) (cm : realMCPCacheManager.t) :
  (∀ kv, kv ∈ order → is_Some (realMCPCacheManager.caches cm !! kv.1)) →
  let out := realMCPCacheManager.InvalidateByPattern_in order cm pattern in
  out.1 = None
  ∧ realMCPCacheManager.config out.2 = realMCPCacheManager.config cm
  ∧ ∀ p, realMCPCacheManager.caches out.2 !! p
         = if bool_decide (p ∈ order.*1) && GoStrings.Contains p pattern
           then Some (realMCPCache.Make ∅)
           else realMCPCacheManager.caches cm !! p.
Proof.
  unfold realMCPCacheManager.InvalidateByPattern_in.
  revert cm. induction order as [|[q c] order IH]; intros cm Hin.
  - cbn. split_and!; try done.
  - cbn [fold_left fst snd].
    destruct (GoStrings.Contains q pattern) eqn:Eq.
    + unfold realMCPCache.Clear at 1. cbn iota beta.
      destruct (IH (realMCPCacheManager.assign cm q (realMCPCache.Make ∅)))
        as (H1 & H2 & H3).
      { intros kv Hkv. unfold realMCPCacheManager.assign. cbn.
        destruct (decide (q = kv.1)) as [->|].
        - rewrite lookup_insert_eq. eauto.
        - rewrite lookup_insert_ne by done. apply Hin. by right. }
      split_and!; try done.
      intros p. rewrite H3. cbn [fmap list_fmap fst].
      unfold realMCPCacheManager.assign. cbn [realMCPCacheManager.caches].
      destruct (decide (p = q)) as [->|Hne].
      * rewrite lookup_insert_eq, Eq.
        rewrite (bool_decide_eq_true_2 (q ∈ q :: order.*1)) by left.
        cbn [andb]. by destruct (bool_decide _).
      * rewrite lookup_insert_ne by done.
        rewrite (bool_decide_ext (p ∈ q :: order.*1) (p ∈ order.*1)); [done |].
        rewrite elem_of_cons. split; [by intros [?|?] | by right].
    + destruct (IH cm) as (H1 & H2 & H3).
      { intros kv Hkv. apply Hin. by right. }
      split_and!; try done.
      intros p. rewrite H3. cbn [fmap list_fmap fst].
      destruct (decide (p = q)) as [->|Hne].
      * rewrite Eq, !andb_false_r. done.
      * rewrite (bool_decide_ext (p ∈ q :: order.*1) (p ∈ order.*1)); [done |].
        rewrite elem_of_cons. split; [by intros [?|?] | by right].
Qed.

Lemma range_of_keys {V : Type} (m : gmap string V) (order : list (string * V)) :
  range_of m order →
  (∀ kv, kv ∈ order → m !! kv.1 = Some kv.2)
  ∧ ∀ p, p ∈ order.*1 ↔ is_Some (m !! p).
Proof.
  unfold range_of. intros Hr. split.
  - intros [p c]. rewrite Hr. apply elem_of_map_to_list.
  - intros p. rewrite list_elem_of_fmap. split.
    + intros ([q c] & -> & Hq). rewrite Hr in Hq.
      apply elem_of_map_to_list in Hq. cbn. eauto.
    + intros [c Hc]. exists (p, c). split; [done |].
      rewrite Hr. by apply elem_of_map_to_list.
Qed.

Lemma manager_eq (a b : realMCPCacheManager.t) :
  realMCPCacheManager.config a = realMCPCacheManager.config b →
  (∀ p, realMCPCacheManager.caches a !! p = realMCPCacheManager.caches b !! p) →
  a = b.
Proof.
  destruct a as [ca ma], b as [cb mb]. cbn. intros -> H. f_equal. by apply map_eq.
Qed.

Lemma InvalidateByPattern_lookup (pattern : string)
    (order : list (string * realMCPCache.t)) (cm : realMCPCacheManager.t) :
  range_of (realMCPCacheManager.caches cm) order →
  let out := realMCPCacheManager.InvalidateByPattern_in order cm pattern in
  out.1 = None
  ∧ realMCPCacheManager.config out.2 = realMCPCacheManager.config cm
  ∧ ∀ p, realMCPCacheManager.caches out.2 !! p
         = (λ c, if GoStrings.Contains p pattern then realMCPCache.Make ∅ else c)
           <$> realMCPCacheManager.caches cm !! p.
Proof.
  intros Hr out. destruct (range_of_keys _ _ Hr) as [Hin Hkeys].
  destruct (InvalidateByPattern_fold pattern order cm) as (H1 & H2 & H3).
  { intros kv Hkv. rewrite (Hin kv Hkv). eauto. }
  split_and!; try done.
  intros p. subst out. rewrite H3.
  destruct (realMCPCacheManager.caches cm !! p) as [c|] eqn:Ec.
  - rewrite bool_decide_eq_true_2 by (apply Hkeys; eauto). cbn.
    by destruct (GoStrings.Contains p pattern).
  - rewrite bool_decide_eq_false_2; [done |].
    intros [? ?]%Hkeys. congruence.
Qed.

End InvalidateFacts.

(** X11: [InvalidateByPattern] never fails and keeps the configuration and the
    set of caches.  It empties exactly the caches whose key (tool, a colon,
    server) contains the pattern as a substring, whatever the order of the
    range over the caches: an entry of another cache stays.  Invalidating a
    second time changes nothing. *)
Theorem InvalidateByPattern_clears_matching (cm : realMCPCacheManager.t)
    (pattern : string) (order : list (string * realMCPCache.t)) :
  range_of (realMCPCacheManager.caches cm) order →
  let out := realMCPCacheManager.InvalidateByPattern_in order cm pattern in
  out.1 = None
  ∧ realMCPCacheManager.config out.2 = realMCPCacheManager.config cm
  ∧ (∀ p, is_Some (realMCPCacheManager.caches out.2 !! p)
          ↔ is_Some (realMCPCacheManager.caches cm !! p))
  ∧ (∀ p k, entryAt out.2 p k
            = if GoStrings.Contains p pattern then None else entryAt cm p k)
  ∧ out = realMCPCacheManager.InvalidateByPattern cm pattern
  ∧ realMCPCacheManager.InvalidateByPattern out.2 pattern = (None, out.2).
Proof.
  intros Hr out.
  destruct (InvalidateByPattern_lookup pattern order cm Hr) as (H1 & H2 & H3).
  fold out in H1, H2, H3.
  assert (∀ cm', range_of (realMCPCacheManager.caches cm')
                   (map_to_list (realMCPCacheManager.caches cm')))
    as Hself by (intros; unfold range_of; done).
  split_and!; try done.
  - intros p. rewrite H3. by rewrite fmap_is_Some.
  - intros p k. unfold entryAt. rewrite H3.
    destruct (realMCPCacheManager.caches cm !! p) as [c|]; cbn.
    + by destruct (GoStrings.Contains p pattern).
    + by destruct (GoStrings.Contains p pattern).
  - destruct (InvalidateByPattern_lookup pattern _ cm (Hself cm)) as (G1 & G2 & G3).
    unfold realMCPCacheManager.InvalidateByPattern.
    destruct out as [e1 o1], (realMCPCacheManager.InvalidateByPattern_in
                                (map_to_list _) cm pattern) as [e2 o2].
    cbn [fst snd] in *. subst. f_equal.
    apply manager_eq; [congruence |]. intros p. by rewrite H3, G3.
  - destruct (InvalidateByPattern_lookup pattern _ out.2 (Hself out.2)) as (G1 & G2 & G3).
    unfold realMCPCacheManager.InvalidateByPattern.
    destruct (realMCPCacheManager.InvalidateByPattern_in (map_to_list _) out.2 pattern)
      as [e2 o2].
    cbn [fst snd] in *. subst. f_equal.
    apply manager_eq; [done |]. intros p. rewrite G3, H3.
    destruct (realMCPCacheManager.caches cm !! p) as [c|]; cbn; [| done].
    by destruct (GoStrings.Contains p pattern).
Qed.

(** After a successful [web_search] on [docker-mcp], invalidating [search]
    empties the cache of the pair. *)
Lemma InvalidateByPattern_clears_matching_witness :
  let gm := Some (RealMCPManager Demo.manager) in
  let cm :=
    (realMCPCacheManager.ExecuteWithCache Demo.env Demo.cacheManager gm Demo.search 0).1.2 in
  let key := GenerateCacheKey "web_search" "docker-mcp" {[ "query" := "x" ]} in
  let out := realMCPCacheManager.InvalidateByPattern cm "search" in
  is_Some (entryAt cm "web_search:docker-mcp" (keyToString key))
  ∧ out.1 = None
  ∧ entryAt out.2 "web_search:docker-mcp" (keyToString key) = None.
Proof.
  intros gm cm key out.
  destruct (InvalidateByPattern_clears_matching cm "search"
              (map_to_list (realMCPCacheManager.caches cm)))
    as (H1 & _ & _ & H4 & _).
  { unfold range_of. reflexivity. }
  split; [| split].
  - vm_compute. eauto.
  - exact H1.
  - exact (H4 "web_search:docker-mcp" (keyToString key)).
Defined.

(** X12: [Shutdown] never fails, keeps the configuration and drops every cache:
    no entry is left, and the next invocation of any execution is not
    answered from the cache. *)
Theorem Shutdown_forgets {World : Type} (env : Env World)
    (cm : realMCPCacheManager.t) (order : list (string * realMCPCache.t)) :
  let out := realMCPCacheManager.Shutdown_in order cm in
  out.1 = None
  ∧ realMCPCacheManager.config out.2 = realMCPCacheManager.config cm
  ∧ realMCPCacheManager.caches out.2 = ∅
  ∧ (∀ p k, entryAt out.2 p k = None)
  ∧ (∀ execution w,
       realMCPCacheManager.answersFromCache env out.2 execution w = false).
Proof.
  intros out. subst out. unfold realMCPCacheManager.Shutdown_in. cbn [fst snd].
  assert (∀ cm0, realMCPCacheManager.config
                   (fold_left
                      (λ cm kv, realMCPCacheManager.assign cm kv.1
                                  (realMCPCache.Clear (realMCPCacheManager.deref cm kv.1)).2)
                      order cm0)
                 = realMCPCacheManager.config cm0) as Hcfg.
  { induction order as [|kv order IH]; intros cm0; [done |].
    cbn [fold_left]. by rewrite IH. }
  split_and!; try done.
  - cbn. apply Hcfg.
  - intros execution w. unfold realMCPCacheManager.answersFromCache.
    unfold realMCPCacheManager.GetCache. cbn [realMCPCacheManager.caches].
    rewrite lookup_empty. cbn [realMCPCacheManager.config].
    unfold realMCPCache.Get. rewrite entryAt_deref. unfold entryAt.
    cbn [realMCPCacheManager.caches]. rewrite lookup_insert_eq. cbn.
    rewrite lookup_empty. by rewrite andb_false_r.
Qed.

(** X9: With caching disabled, [ExecuteWithCache] is the execution itself: with
    a manager that executes tools, the outcome and the world are those of
    [executeTool]; no entry is read, stored or removed, though a cache is
    created for the pair when the manager has none. *)
Theorem ExecuteWithCache_disabled {World : Type} (env : Env World)
    (cm : realMCPCacheManager.t) (realManager : realMCPManager.t)
    (execution : MCPToolExecution.t) (w : World) :
  MCPCacheConfig.Enabled (realMCPCacheManager.config cm) = false →
  let out :=
    realMCPCacheManager.ExecuteWithCache env cm (Some (RealMCPManager realManager))
      execution w in
  (out.1.1, out.2)
  = realMCPManager.executeTool env realManager (MCPToolExecution.ToolName execution)
      (MCPToolExecution.Arguments execution) w
  ∧ out.1.2
    = (realMCPCacheManager.GetCache cm (MCPToolExecution.ToolName execution)
         (MCPToolExecution.ServerName execution)).2
  ∧ ∀ p k, entryAt out.1.2 p k = entryAt cm p k.
Proof.
  intros Hen out. subst out. unfold realMCPCacheManager.ExecuteWithCache.
  destruct (GetCache_entries cm (MCPToolExecution.ToolName execution)
              (MCPToolExecution.ServerName execution)) as (cm1 & EG & Hcfg1 & Hent1).
  rewrite EG, Hcfg1, Hen. cbn [andb fst snd].
  destruct (realMCPManager.executeTool env realManager _ _ w)
    as [[[result [err|]]|] w3]; rewrite ?Hcfg1, ?Hen; cbn [andb fst snd]; done.
Qed.

Lemma ExecuteWithCache_disabled_witness :
  let cfg :=
    MCPCacheConfig.Make false (15 * GoTime.Minute) 100 10000 "lru" (5 * GoTime.Minute)
      ∅ "memory" ∅ in
  let cm := realMCPCacheManager.createRealMCPCacheManager cfg in
  let out :=
    realMCPCacheManager.ExecuteWithCache Demo.env cm (Some (RealMCPManager Demo.manager))
      Demo.search 0 in
  (∃ r, out.1.1 = Returns (r, None) ∧ MCPToolResult.Success r = true)
  ∧ ∀ p k, entryAt out.1.2 p k = entryAt cm p k.
Proof.
  intros cfg cm out. split.
  - eexists. split; vm_compute; reflexivity.
  - exact (proj2 (proj2 (ExecuteWithCache_disabled Demo.env cm Demo.manager Demo.search 0
                           eq_refl))).
Defined.

(** *** The connection manager *)

Section ConnectionFacts.

Context {World : Type} (env : Env World).

(** What [Connect] does to the manager. *)
Lemma Connect_cases (m m' : realMCPManager.t) (serverName : string) (w w' : World)
    (err : error) :
  realMCPManager.Connect env m serverName w = (err, m', w') →
  realMCPManager.config m' = realMCPManager.config m
  ∧ realMCPManager.tools m' = realMCPManager.tools m
  ∧ match err with
    | Some _ => m' = m
    | None =>
        realMCPManager.connectedServers m'
        = <[serverName := true]> (realMCPManager.connectedServers m)
        ∧ ∃ serverConfig,
            realMCPManager.serverNamed m serverName = Some serverConfig
            ∧ MCPServerConfig.Type_ serverConfig = "tcp"
            ∧ net_DialTimeout env "tcp" (realMCPManager.addressOf serverConfig)
                (30 * GoTime.Second) w = (None, w')
    end.
Proof.
  unfold realMCPManager.Connect. intros H.
  destruct (realMCPManager.serverNamed m serverName) as [serverConfig|];
    [| by simplify_eq].
  destruct (String.eqb _ "tcp") eqn:Et; [| by simplify_eq].
  apply String.eqb_eq in Et.
  destruct (net_DialTimeout _ _ _ _ _) as [[e|] w1] eqn:Ed; simplify_eq; [done |].
  split_and!; try done. eauto.
Qed.

Lemma serverNamed_config (m m' : realMCPManager.t) (name : string) :
  realMCPManager.config m' = realMCPManager.config m →
  realMCPManager.serverNamed m' name = realMCPManager.serverNamed m name.
Proof. unfold realMCPManager.serverNamed. by intros ->. Qed.

(** A server found by name has that name and is one of the configuration. *)
Lemma serverNamed_Some (m : realMCPManager.t) (name : string)
    (serverConfig : MCPServerConfig.t) :
  realMCPManager.serverNamed m name = Some serverConfig →
  MCPServerConfig.Name serverConfig = name
  ∧ serverConfig ∈ MCPConfig.Servers (realMCPManager.config m).
Proof.
  unfold realMCPManager.serverNamed. intros H. apply find_some in H as [Hin Heq].
  apply String.eqb_eq in Heq. split; [done |]. by apply list_elem_of_In.
Qed.

(** A configured name is found. *)
Lemma serverNamed_is_Some (m : realMCPManager.t) (server : MCPServerConfig.t) :
  server ∈ MCPConfig.Servers (realMCPManager.config m) →
  is_Some (realMCPManager.serverNamed m (MCPServerConfig.Name server)).
Proof.
  unfold realMCPManager.serverNamed. intros Hin%list_elem_of_In.
  destruct (find _ _) eqn:E; [eauto |].
  pose proof (find_none _ _ E _ Hin) as H. cbn in H.
  by rewrite String.eqb_refl in H.
Qed.

(** The tools a server returns carry its name. *)
Lemma discoverToolsFromServer_names (m : realMCPManager.t) (serverName : string)
    (w w' : World) (serverTools : list MCPToolInfo.t) (err : error) :
  realMCPManager.discoverToolsFromServer env m serverName w = (serverTools, err, w') →
  Forall (λ tool, MCPToolInfo.ServerName tool = serverName) serverTools.
Proof.
  unfold realMCPManager.discoverToolsFromServer. intros H.
  destruct (realMCPManager.serverNamed m serverName) as [serverConfig|];
    [| by simplify_eq].
  destruct (String.eqb _ "tcp"); [| by simplify_eq].
  destruct (client_Connect _ _ _) as [[e|] w1]; [by simplify_eq |].
  destruct (client_Initialize _ _ _ _ _) as [[e|] w2]; [by simplify_eq |].
  destruct (client_ListTools _ _ _) as [[remote [e|]] w3]; simplify_eq; [done |].
  apply Forall_forall. intros tool (r & -> & _)%list_elem_of_fmap. done.
Qed.

Lemma RefreshTools_server_inv (m m' : realMCPManager.t) (w w' : World)
    (server : MCPServerConfig.t) :
  realMCPManager.RefreshTools_server env (m, w) server = (m', w') →
  realMCPManager.config m' = realMCPManager.config m
  ∧ (∀ s, realMCPManager.connectedServers m !! s = Some true →
          realMCPManager.connectedServers m' !! s = Some true)
  ∧ (catalogued m → catalogued m').
Proof.
  unfold realMCPManager.RefreshTools_server. intros H.
  destruct (MCPServerConfig.Enabled server); [| by simplify_eq].
  destruct (realMCPManager.Connect env m (MCPServerConfig.Name server) w)
    as [[err m1] w1] eqn:EC.
  apply Connect_cases in EC as (Hcfg & Htools & Hc).
  destruct err as [e|]; [by simplify_eq |].
  destruct Hc as (Hcs & serverConfig & Hsn & Htcp & _).
  assert (∀ s, realMCPManager.connectedServers m !! s = Some true →
               realMCPManager.connectedServers m1 !! s = Some true) as Hmono.
  { intros s Hs. rewrite Hcs.
    destruct (decide (MCPServerConfig.Name server = s)) as [->|];
      [by rewrite lookup_insert_eq | by rewrite lookup_insert_ne]. }
  assert (catalogued m → catalogued m1) as Hcat.
  { unfold catalogued. rewrite Htools. intros HF.
    eapply Forall_impl; [exact HF |].
    intros tool (Htc & cfg & Hcfg' & Ht). split; [by apply Hmono |].
    exists cfg. by rewrite (serverNamed_config m m1). }
  rewrite Hcs, lookup_insert_eq in H.
  change (default false (Some true)) with true in H. cbv iota in H.
  destruct (realMCPManager.discoverToolsFromServer env m1 _ w1)
    as [[serverTools [e|]] w2] eqn:ED; simplify_eq; [by split_and! |].
  split_and!; try done.
  intros Hm. specialize (Hcat Hm). unfold catalogued in *.
  cbn [realMCPManager.with_tools realMCPManager.tools
       realMCPManager.connectedServers] in *.
  apply Forall_app. split.
  - eapply Forall_impl; [exact Hcat |]. intros tool (Htc & cfg & Hcfg' & Ht).
    split; [done |]. exists cfg. split; [| done].
    by rewrite <- Hcfg'.
  - apply discoverToolsFromServer_names in ED.
    eapply Forall_impl; [exact ED |]. cbn beta.
    intros tool ->. split; [by rewrite Hcs, lookup_insert_eq |].
    exists serverConfig. split; [| done].
    rewrite <- Hsn. by apply serverNamed_config.
Qed.

Lemma RefreshTools_fold_inv (servers : list MCPServerConfig.t)
    (m m' : realMCPManager.t) (w w' : World) :
  fold_left (realMCPManager.RefreshTools_server env) servers (m, w) = (m', w') →
  realMCPManager.config m' = realMCPManager.config m
  ∧ (∀ s, realMCPManager.connectedServers m !! s = Some true →
          realMCPManager.connectedServers m' !! s = Some true)
  ∧ (catalogued m → catalogued m').
Proof.
  revert m w. induction servers as [|server servers IH]; intros m w H.
  - cbn in H. by simplify_eq.
  - cbn [fold_left] in H.
    destruct (realMCPManager.RefreshTools_server env (m, w) server) as [m1 w1] eqn:E1.
    apply RefreshTools_server_inv in E1 as (Hc1 & Hm1 & Hk1).
    apply IH in H as (Hc2 & Hm2 & Hk2).
    split_and!; [congruence | auto | auto].
Qed.

(** [executeTool] returns when the catalogue keeps its invariant. *)
Lemma executeTool_returns (m : realMCPManager.t) (toolName : string)
    (args : gmap string value) (w : World) :
  catalogued m →
  (realMCPManager.executeTool env m toolName args w).1 ≠ Blocks.
Proof.
  intros Hcat. unfold realMCPManager.executeTool.
  destruct (find _ (realMCPManager.tools m)) as [tool|] eqn:Ef; [| done].
  apply find_some in Ef as [Hin _]. apply list_elem_of_In in Hin.
  unfold catalogued in Hcat. rewrite Forall_forall in Hcat.
  destruct (Hcat tool Hin) as (Hc & cfg & Hcfg & _).
  destruct (String.eqb _ ""); [done |].
  rewrite Hcfg, Hc. change (negb (default false (Some true))) with false. cbv iota.
  destruct (time_Now env w) as [start w0].
  destruct (client_Connect _ _ _) as [[e|] w1]; [done |].
  destruct (client_Initialize _ _ _ _ _) as [[e|] w2]; [done |].
  destruct (client_CallTool _ _ _ _ _) as [[result|e] w3]; [| done].
  by destruct (time_Now env w3).
Qed.

End ConnectionFacts.

(** X13: [Connect] fails without touching the manager or succeeds and marks the
    server, and nothing else, connected.  It succeeds exactly when the first
    configuration of that name has type [tcp] and the dial to its address
    succeeds; for an unknown name and for another type it fails without
    touching the network. *)
Theorem Connect_effect {World : Type} (env : Env World)
    (m : realMCPManager.t) (serverName : string) (w : World) :
  let out := realMCPManager.Connect env m serverName w in
  realMCPManager.config out.1.2 = realMCPManager.config m
  ∧ realMCPManager.tools out.1.2 = realMCPManager.tools m
  ∧ (out.1.1 ≠ None → out.1.2 = m)
  ∧ (out.1.1 = None →
       realMCPManager.connectedServers out.1.2
       = <[serverName := true]> (realMCPManager.connectedServers m))
  ∧ (out.1.1 = None
     ↔ ∃ serverConfig,
         realMCPManager.serverNamed m serverName = Some serverConfig
         ∧ MCPServerConfig.Type_ serverConfig = "tcp"
         ∧ (net_DialTimeout env "tcp" (realMCPManager.addressOf serverConfig)
              (30 * GoTime.Second) w).1 = None)
  ∧ (realMCPManager.serverNamed m serverName = None →
       out = (Some ("server " +:+ serverName +:+ " not found in configuration"), m, w))
  ∧ (∀ serverConfig,
       realMCPManager.serverNamed m serverName = Some serverConfig →
       MCPServerConfig.Type_ serverConfig ≠ "tcp" →
       out = (Some ("unsupported server type: " +:+ MCPServerConfig.Type_ serverConfig),
              m, w)).
Proof.
  intros out. destruct out as [[err m'] w'] eqn:E. subst out.
  pose proof (Connect_cases env _ _ _ _ _ _ E) as (Hcfg & Htools & Hc).
  cbn [fst snd]. split_and!; try done.
  - intros Herr. by destruct err.
  - intros ->. by destruct Hc.
  - split.
    + intros ->. destruct Hc as (_ & serverConfig & ? & ? & Hd).
      exists serverConfig. by rewrite Hd.
    + intros (serverConfig & Hsn & Htcp & Hd).
      unfold realMCPManager.Connect in E. rewrite Hsn, Htcp in E. cbn in E.
      destruct (net_DialTimeout _ _ _ _ _) as [[e|] w1]; by simplify_eq.
  - intros Hsn. unfold realMCPManager.Connect in E. rewrite Hsn in E. done.
  - intros serverConfig Hsn Htcp. unfold realMCPManager.Connect in E.
    rewrite Hsn in E. destruct (String.eqb _ "tcp") eqn:Et; [| done].
    by apply String.eqb_eq in Et.
Qed.

(** X15: After [RefreshTools], whatever the manager was and whatever the servers
    answered, every tool of the catalogue names a server that is marked
    connected and whose configuration is found and has type [tcp]; the
    configuration is the same and no mark is lost.  Therefore [executeTool]
    on the refreshed manager returns, for every tool name. *)
Theorem RefreshTools_catalogue {World : Type} (env : Env World)
    (m : realMCPManager.t) (w : World) :
  let m' := (realMCPManager.RefreshTools env m w).1.2 in
  realMCPManager.config m' = realMCPManager.config m
  ∧ (∀ s, realMCPManager.connectedServers m !! s = Some true →
          realMCPManager.connectedServers m' !! s = Some true)
  ∧ (∀ tool, tool ∈ realMCPManager.tools m' →
       realMCPManager.connectedServers m' !! MCPToolInfo.ServerName tool = Some true
       ∧ ∃ serverConfig,
           realMCPManager.serverNamed m (MCPToolInfo.ServerName tool) = Some serverConfig
           ∧ MCPServerConfig.Type_ serverConfig = "tcp")
  ∧ (∀ toolName args w',
       (realMCPManager.executeTool env m' toolName args w').1 ≠ Blocks).
Proof.
  intros m'. subst m'. unfold realMCPManager.RefreshTools.
  destruct (fold_left _ _ _) as [m' w'] eqn:E. cbn [fst snd].
  apply RefreshTools_fold_inv in E as (Hcfg & Hmono & Hcat).
  assert (catalogued m') as Hm' by (apply Hcat; unfold catalogued; cbn; done).
  split_and!; try done.
  - intros tool Hin. unfold catalogued in Hm'. rewrite Forall_forall in Hm'.
    destruct (Hm' tool Hin) as (Hc & cfg & Hsn & Ht). split; [done |].
    exists cfg. split; [| done]. rewrite <- Hsn. symmetry.
    by apply serverNamed_config.
  - intros toolName args w0. by apply executeTool_returns.
Qed.

Section DiscoveryFacts.

Context {World : Type} (env : Env World).

Lemma DiscoverServers_fold (l : list MCPServerConfig.t) (acc : list MCPServerInfo.t)
    (m : realMCPManager.t) (w : World) :
  ∃ new m' w',
    fold_left (realMCPManager.DiscoverServers_server env) l (acc, m, w)
    = (acc ++ new, m', w')
    ∧ realMCPManager.config m' = realMCPManager.config m
    ∧ realMCPManager.tools m' = realMCPManager.tools m
    ∧ (∀ s, realMCPManager.connectedServers m !! s = Some true →
            realMCPManager.connectedServers m' !! s = Some true)
    ∧ Forall2 (describes m') new (List.filter MCPServerConfig.Enabled l).
Proof.
  revert acc m w. induction l as [|server l IH]; intros acc m w.
  - exists [], m, w. cbn. rewrite app_nil_r. by split_and!.
  - cbn [fold_left List.filter].
    unfold realMCPManager.DiscoverServers_server at 2.
    destruct (MCPServerConfig.Enabled server) eqn:Een; [| apply IH].
    destruct (realMCPManager.Connect env m (MCPServerConfig.Name server) w)
      as [[err m1] w1] eqn:EC.
    apply Connect_cases in EC as (Hcfg & Htools & Hc).
    assert (∀ s, realMCPManager.connectedServers m !! s = Some true →
                 realMCPManager.connectedServers m1 !! s = Some true) as Hmono.
    { destruct err as [e|]; [by subst |]. destruct Hc as [Hcs _].
      intros s Hs. rewrite Hcs.
      destruct (decide (MCPServerConfig.Name server = s)) as [->|];
        [by rewrite lookup_insert_eq | by rewrite lookup_insert_ne]. }
    destruct err as [e|].
    + destruct (IH (acc ++ [MCPServerInfo.Make (MCPServerConfig.Name server)
                              (MCPServerConfig.Type_ server) (MCPServerConfig.Host server)
                              (MCPServerConfig.Port server) "1.0.0" "" ∅ "unavailable"])
                   m1 w1) as (new & m' & w' & E & H1 & H2 & H3 & H4).
      eexists (_ :: new), m', w'. rewrite E, <- app_assoc. cbn [app].
      split_and!; [done | congruence | congruence | auto |].
      constructor; [| done]. unfold describes. cbn. split_and!; try done. by right.
    + destruct Hc as [Hcs _].
      destruct (IH (acc ++ [MCPServerInfo.Make (MCPServerConfig.Name server)
                              (MCPServerConfig.Type_ server) (MCPServerConfig.Host server)
                              (MCPServerConfig.Port server) "1.0.0" "" ∅ "connected"])
                   m1 w1) as (new & m' & w' & E & H1 & H2 & H3 & H4).
      eexists (_ :: new), m', w'. rewrite E, <- app_assoc. cbn [app].
      split_and!; [done | congruence | congruence | auto |].
      constructor; [| done]. unfold describes. cbn. split_and!; try done. left.
      split; [done |]. apply H3. by rewrite Hcs, lookup_insert_eq.
Qed.

(** The range of [ListConnectedServers] lists the keys it visits. *)
Lemma ListConnectedServers_in_keys (order : list (string * bool)) :
  realMCPManager.ListConnectedServers_in order = order.*1.
Proof.
  unfold realMCPManager.ListConnectedServers_in.
  assert (∀ acc, fold_left (λ servers (kv : string * bool), servers ++ [kv.1]) order acc
                 = acc ++ order.*1) as H.
  { induction order as [|kv order IH]; intros acc; cbn; [by rewrite app_nil_r |].
    by rewrite IH, <- app_assoc. }
  apply H.
Qed.

(** Deleting the keys of a map one by one, in any order, empties it. *)
Lemma delete_all (order : list (string * bool)) (cs : gmap string bool) :
  range_of cs order → fold_left (λ cs kv, delete kv.1 cs) order cs = ∅.
Proof.
  intros Hr. destruct (range_of_keys _ _ Hr) as [_ Hkeys].
  assert (∀ l (cs0 : gmap string bool) (s : string),
            fold_left (λ cs (kv : string * bool), delete kv.1 cs) l cs0 !! s
                     = if bool_decide (s ∈ l.*1) then None else cs0 !! s) as H.
  { induction l as [|kv l IH]; intros cs0 s; [done |].
    cbn [fold_left fmap list_fmap]. rewrite IH.
    destruct (decide (s = kv.1)) as [->|Hne].
    - rewrite lookup_delete_eq.
      rewrite (bool_decide_eq_true_2 (kv.1 ∈ kv.1 :: l.*1)) by left.
      by destruct (bool_decide _).
    - rewrite lookup_delete_ne by done.
      rewrite (bool_decide_ext (s ∈ kv.1 :: l.*1) (s ∈ l.*1)); [done |].
      rewrite elem_of_cons. split; [by intros [?|?] | by right]. }
  apply map_eq. intros s. rewrite H, lookup_empty.
  destruct (cs !! s) as [b|] eqn:Es; [| by destruct (bool_decide _)].
  rewrite bool_decide_eq_true_2; [done |]. apply Hkeys. eauto.
Qed.

End DiscoveryFacts.

(** X17: [DiscoverServers] never fails and returns one description for each
    enabled server of the configuration, in the order of the configuration,
    with the name, type, host and port of the server and the status
    [connected] or [unavailable], never [discovered]; a server reported
    [connected] is marked connected in the manager.  The catalogue and the
    configuration stay and no mark is lost. *)
Theorem DiscoverServers_reports_enabled {World : Type} (env : Env World)
    (m : realMCPManager.t) (w : World) :
  let out := realMCPManager.DiscoverServers env m w in
  let m' := out.1.2 in
  out.1.1.2 = None
  ∧ Forall2 (describes m') out.1.1.1
      (List.filter MCPServerConfig.Enabled (MCPConfig.Servers (realMCPManager.config m)))
  ∧ realMCPManager.config m' = realMCPManager.config m
  ∧ realMCPManager.tools m' = realMCPManager.tools m
  ∧ (∀ s, realMCPManager.connectedServers m !! s = Some true →
          realMCPManager.connectedServers m' !! s = Some true).
Proof.
  intros out m'. subst m' out. unfold realMCPManager.DiscoverServers.
  destruct (DiscoverServers_fold env (MCPConfig.Servers (realMCPManager.config m)) [] m w)
    as (new & m' & w' & E & H1 & H2 & H3 & H4).
  rewrite E. cbn [fst snd app]. done.
Qed.

(** X14: The connection marks as the manager reports them.  After a [Connect]
    that succeeds, [GetServerInfo] reports the server [connected] and
    [ListConnectedServers] lists it.  After [Disconnect], which never fails,
    [GetServerInfo] reports it [disconnected], [ListConnectedServers] does not
    list it, and the marks of the other servers, the catalogue and the
    configuration are as before.  [GetServerInfo] fails exactly for a name
    that is not configured. *)
Theorem Connect_Disconnect_status {World : Type} (env : Env World)
    (m : realMCPManager.t) (serverName : string) (w : World) :
  let connected := realMCPManager.Connect env m serverName w in
  let disconnected := realMCPManager.Disconnect m serverName in
  (connected.1.1 = None →
     (∃ info, realMCPManager.GetServerInfo connected.1.2 serverName = (Some info, None)
              ∧ MCPServerInfo.Name info = serverName
              ∧ MCPServerInfo.Status info = "connected")
     ∧ (serverName ∈ realMCPManager.ListConnectedServers connected.1.2))
  ∧ disconnected.1 = None
  ∧ (serverName ∉ realMCPManager.ListConnectedServers disconnected.2)
  ∧ (∀ info, (realMCPManager.GetServerInfo disconnected.2 serverName).1 = Some info →
             MCPServerInfo.Status info = "disconnected")
  ∧ (∀ s, s ≠ serverName →
          realMCPManager.connectedServers disconnected.2 !! s
          = realMCPManager.connectedServers m !! s)
  ∧ realMCPManager.tools disconnected.2 = realMCPManager.tools m
  ∧ realMCPManager.config disconnected.2 = realMCPManager.config m
  ∧ (∀ s, (realMCPManager.GetServerInfo m s).2 = Some ("server " +:+ s +:+ " not found")
          ↔ realMCPManager.serverNamed m s = None).
Proof.
  intros connected disconnected.
  assert (∀ m0 s, s ∈ realMCPManager.ListConnectedServers m0
                  ↔ is_Some (realMCPManager.connectedServers m0 !! s)) as Hlist.
  { intros m0 s. unfold realMCPManager.ListConnectedServers.
    rewrite ListConnectedServers_in_keys.
    apply (range_of_keys (realMCPManager.connectedServers m0)).
    unfold range_of. reflexivity. }
  split_and!; try done.
  - intros Hok. destruct connected as [[err m'] w'] eqn:E. subst connected.
    cbn [fst snd] in *. subst err.
    apply Connect_cases in E as (Hcfg & _ & Hcs & serverConfig & Hsn & _).
    split.
    + unfold realMCPManager.GetServerInfo.
      rewrite (serverNamed_config m m') by done. rewrite Hsn, Hcs, lookup_insert_eq.
      eexists. split; [done |]. split; [| done]. cbn.
      by apply serverNamed_Some in Hsn as [? _].
    + apply Hlist. rewrite Hcs, lookup_insert_eq. eauto.
  - rewrite Hlist. subst disconnected. cbn. rewrite lookup_delete_eq.
    by intros [? ?].
  - intros info. subst disconnected. unfold realMCPManager.GetServerInfo.
    cbn [realMCPManager.Disconnect snd].
    rewrite (serverNamed_config m (realMCPManager.with_connected m _)) by done.
    destruct (realMCPManager.serverNamed m serverName); [| done].
    cbn. rewrite lookup_delete_eq. by intros [= <-].
  - intros s Hs. subst disconnected. cbn. by rewrite lookup_delete_ne.
  - intros s. unfold realMCPManager.GetServerInfo.
    destruct (realMCPManager.serverNamed m s); [| done]. cbn. split; done.
Qed.

(** X18: [DisconnectAll] never fails and removes every mark, in whatever order
    the range visits them: [ListConnectedServers] is then empty and every
    configured server is reported [disconnected].  The catalogue is kept:
    a tool of a configured server is still listed, and executing it does not
    return, since [executeTool] then calls [Connect] while it holds the read
    lock of the manager. *)
Theorem DisconnectAll_unmarks_all {World : Type} (env : Env World)
    (m : realMCPManager.t) (order : list (string * bool)) :
  range_of (realMCPManager.connectedServers m) order →
  let out := realMCPManager.DisconnectAll_in order m in
  out = realMCPManager.DisconnectAll m
  ∧ out.1 = None
  ∧ realMCPManager.connectedServers out.2 = ∅
  ∧ realMCPManager.ListConnectedServers out.2 = []
  ∧ realMCPManager.tools out.2 = realMCPManager.tools m
  ∧ realMCPManager.config out.2 = realMCPManager.config m
  ∧ (∀ s info, (realMCPManager.GetServerInfo out.2 s).1 = Some info →
               MCPServerInfo.Status info = "disconnected")
  ∧ (∀ tool args w,
       List.find (λ t, String.eqb (MCPToolInfo.Name t) (MCPToolInfo.Name tool))
         (realMCPManager.tools m) = Some tool →
       MCPToolInfo.ServerName tool ≠ "" →
       is_Some (realMCPManager.serverNamed m (MCPToolInfo.ServerName tool)) →
       realMCPManager.executeTool env out.2 (MCPToolInfo.Name tool) args w
       = (Blocks, w)).
Proof.
  intros Hr out.
  assert (out = (None, realMCPManager.with_connected m ∅)) as ->.
  { subst out. unfold realMCPManager.DisconnectAll_in. by rewrite delete_all. }
  cbn [fst snd].
  split_and!; try done.
  - unfold realMCPManager.DisconnectAll, realMCPManager.DisconnectAll_in.
    rewrite delete_all; [done |]. unfold range_of. reflexivity.
  - intros s info. unfold realMCPManager.GetServerInfo.
    rewrite (serverNamed_config m (realMCPManager.with_connected m ∅)) by done.
    destruct (realMCPManager.serverNamed m s); [| done].
    cbn. rewrite lookup_empty. by intros [= <-].
  - intros tool args w Hfind Hname [serverConfig Hsn].
    unfold realMCPManager.executeTool.
    cbn [realMCPManager.with_connected realMCPManager.tools
         realMCPManager.connectedServers].
    rewrite Hfind.
    destruct (String.eqb (MCPToolInfo.ServerName tool) "") eqn:Ee;
      [by apply String.eqb_eq in Ee |].
    rewrite (serverNamed_config m (realMCPManager.with_connected m ∅)) by done.
    rewrite Hsn, lookup_empty. done.
Qed.

Lemma DisconnectAll_unmarks_all_witness :
  let out := realMCPManager.DisconnectAll Demo.manager in
  realMCPManager.ListConnectedServers Demo.manager = ["docker-mcp"]
  ∧ realMCPManager.ListConnectedServers out.2 = []
  ∧ realMCPManager.executeTool Demo.env out.2 "web_search" ∅ 0 = (Blocks, 0).
Proof.
  intros out.
  destruct (DisconnectAll_unmarks_all Demo.env Demo.manager
              (map_to_list (realMCPManager.connectedServers Demo.manager)))
    as (_ & _ & _ & H4 & _ & _ & _ & H8).
  { unfold range_of. reflexivity. }
  split; [vm_compute; reflexivity |]. split; [exact H4 |].
  apply (H8 (MCPToolInfo.Make "web_search" "Search the web" ∅ "docker-mcp") ∅ 0).
  - vm_compute. reflexivity.
  - discriminate.
  - vm_compute. eauto.
Defined.

Section HealthFacts.

Context {World : Type} (env : Env World).

(** The result of [Connect] on a failure is an error that is not empty. *)
Lemma Connect_error_not_empty (m : realMCPManager.t) (serverName : string)
    (w : World) (e : string) :
  (realMCPManager.Connect env m serverName w).1.1 = Some e → e ≠ "".
Proof.
  unfold realMCPManager.Connect.
  destruct (realMCPManager.serverNamed m serverName) as [serverConfig|].
  - destruct (String.eqb _ "tcp").
    + destruct (net_DialTimeout _ _ _ _ _) as [[err|] w1]; cbn; [| done].
      intros [= <-]. done.
    + cbn. intros [= <-]. done.
  - cbn. intros [= <-]. done.
Qed.

Lemma reports_tools (m0 m1 m' : realMCPManager.t) (name : string)
    (h : MCPHealthStatus.t) :
  realMCPManager.tools m1 = realMCPManager.tools m0 →
  reports m1 m' name h → reports m0 m' name h.
Proof.
  unfold reports, realMCPManager.GetToolsFromServer. by intros ->.
Qed.

Lemma reports_mono (m0 m m' : realMCPManager.t) (name : string)
    (h : MCPHealthStatus.t) :
  (∀ s, realMCPManager.connectedServers m !! s = Some true →
        realMCPManager.connectedServers m' !! s = Some true) →
  reports m0 m name h → reports m0 m' name h.
Proof.
  intros Hmono [Hcount Hst]. split; [done |].
  destruct Hst as [(? & ? & ?) | ?]; [left | by right].
  split_and!; try done. by apply Hmono.
Qed.

(** One turn of the loop of [HealthCheck]. *)
Lemma HealthCheck_server_step (healthMap healthMap' : gmap string MCPHealthStatus.t)
    (m m' : realMCPManager.t) (w w' : World) (server : MCPServerConfig.t) :
  realMCPManager.HealthCheck_server env (healthMap, m, w) server = (healthMap', m', w') →
  realMCPManager.config m' = realMCPManager.config m
  ∧ realMCPManager.tools m' = realMCPManager.tools m
  ∧ (∀ s, realMCPManager.connectedServers m !! s = Some true →
          realMCPManager.connectedServers m' !! s = Some true)
  ∧ if MCPServerConfig.Enabled server
    then ∃ h, healthMap' = <[MCPServerConfig.Name server := h]> healthMap
              ∧ reports m m' (MCPServerConfig.Name server) h
    else healthMap' = healthMap.
Proof.
  unfold realMCPManager.HealthCheck_server. intros H.
  destruct (MCPServerConfig.Enabled server); [| by simplify_eq].
  destruct (time_Now env w) as [lastCheck wa].
  destruct (time_Now env wa) as [start wb].
  destruct (realMCPManager.Connect env m (MCPServerConfig.Name server) wb)
    as [[err m1] w1] eqn:EC.
  pose proof (Connect_error_not_empty m (MCPServerConfig.Name server) wb) as Hne.
  rewrite EC in Hne. cbn [fst snd] in Hne.
  apply Connect_cases in EC as (Hcfg1 & Htools1 & Hc).
  destruct err as [e|].
  - simplify_eq. split_and!; try done. eexists. split; [done |].
    split; [done |]. right. cbn. split_and!; try done. by apply Hne.
  - destruct Hc as [Hcs _]. destruct (time_Now env w1) as [now wc]. simplify_eq.
    split_and!; try done.
    + intros s Hs. rewrite Hcs.
      destruct (decide (MCPServerConfig.Name server = s)) as [->|];
        [by rewrite lookup_insert_eq | by rewrite lookup_insert_ne].
    + eexists. split; [done |]. split; [done |]. left. cbn.
      split_and!; try done. by rewrite Hcs, lookup_insert_eq.
Qed.

Lemma HealthCheck_fold (m0 : realMCPManager.t) (l : list MCPServerConfig.t)
    (healthMap healthMap' : gmap string MCPHealthStatus.t)
    (m m' : realMCPManager.t) (w w' : World) :
  fold_left (realMCPManager.HealthCheck_server env) l (healthMap, m, w)
  = (healthMap', m', w') →
  realMCPManager.config m = realMCPManager.config m0 →
  realMCPManager.tools m = realMCPManager.tools m0 →
  (∀ name h, healthMap !! name = Some h → reports m0 m name h) →
  realMCPManager.config m' = realMCPManager.config m0
  ∧ realMCPManager.tools m' = realMCPManager.tools m0
  ∧ (∀ s, realMCPManager.connectedServers m !! s = Some true →
          realMCPManager.connectedServers m' !! s = Some true)
  ∧ (∀ name h, healthMap' !! name = Some h → reports m0 m' name h)
  ∧ (∀ name, is_Some (healthMap' !! name)
             ↔ is_Some (healthMap !! name)
               ∨ ∃ server, server ∈ l ∧ MCPServerConfig.Enabled server = true
                           ∧ MCPServerConfig.Name server = name).
Proof.
  revert healthMap m w.
  induction l as [|server l IH]; intros healthMap m w E Hcfg Htools Hrep.
  - cbn in E. simplify_eq. split_and!; try done. intros name. split; [by left |].
    intros [? | (server & Hin & _)]; [done |]. by apply elem_of_nil in Hin.
  - cbn [fold_left] in E.
    destruct (realMCPManager.HealthCheck_server env (healthMap, m, w) server)
      as [[hm1 m1] w1] eqn:E1.
    apply HealthCheck_server_step in E1 as (Hc1 & Ht1 & Hm1 & Hh1).
    destruct (IH hm1 m1 w1 E) as (H1 & H2 & H3 & H4 & H5);
      [congruence | congruence | |].
    { destruct (MCPServerConfig.Enabled server).
      - destruct Hh1 as (h1 & -> & Hr1). intros name h.
        destruct (decide (MCPServerConfig.Name server = name)) as [<-|Hneq].
        + rewrite lookup_insert_eq. intros [= <-]. by apply (reports_tools m0 m).
        + rewrite lookup_insert_ne by done. intros Hh.
          apply (reports_mono m0 m); [done |]. by apply Hrep.
      - subst hm1. intros name h Hh.
        apply (reports_mono m0 m); [done |]. by apply Hrep. }
    split_and!; try done.
    + intros s Hs. by apply H3, Hm1.
    + intros name. rewrite H5. destruct (MCPServerConfig.Enabled server) eqn:Een.
      * destruct Hh1 as (h1 & -> & _). split.
        -- intros [Hs | (s & Hin & He & Hn)].
           ++ destruct (decide (MCPServerConfig.Name server = name)) as [Heq|Hneq].
              ** right. exists server. split; [by left | done].
              ** rewrite lookup_insert_ne in Hs by done. by left.
           ++ right. exists s. split; [by right | done].
        -- intros [Hs | (s & Hin & He & Hn)].
           ++ left. destruct (decide (MCPServerConfig.Name server = name)) as [<-|Hneq].
              ** rewrite lookup_insert_eq. eauto.
              ** by rewrite lookup_insert_ne.
           ++ apply elem_of_cons in Hin as [-> | Hin].
              ** left. rewrite Hn, lookup_insert_eq. eauto.
              ** right. by exists s.
      * subst hm1. split.
        -- intros [? | (s & Hin & He & Hn)]; [by left |].
           right. exists s. split; [by right | done].
        -- intros [? | (s & Hin & He & Hn)]; [by left |].
           apply elem_of_cons in Hin as [-> | Hin]; [congruence |].
           right. by exists s.
Qed.

End HealthFacts.

(** X19: [HealthCheck] returns a status for exactly the names of the enabled
    servers.  A status is [healthy] with an empty error, the server then
    being marked connected in the manager, or [unhealthy] with an error that
    is not empty and a response time of zero; it is never [unknown].  Its
    tool count is the number of tools of the catalogue that name the server.
    The catalogue and the configuration stay and no mark is lost. *)
Theorem HealthCheck_statuses {World : Type} (env : Env World)
    (m : realMCPManager.t) (w : World) :
  let out := realMCPManager.HealthCheck env m w in
  (∀ name, is_Some (out.1.1 !! name)
           ↔ ∃ server, server ∈ MCPConfig.Servers (realMCPManager.config m)
                       ∧ MCPServerConfig.Enabled server = true
                       ∧ MCPServerConfig.Name server = name)
  ∧ (∀ name h, out.1.1 !! name = Some h → reports m out.1.2 name h)
  ∧ realMCPManager.config out.1.2 = realMCPManager.config m
  ∧ realMCPManager.tools out.1.2 = realMCPManager.tools m
  ∧ (∀ s, realMCPManager.connectedServers m !! s = Some true →
          realMCPManager.connectedServers out.1.2 !! s = Some true).
Proof.
  intros out. subst out. unfold realMCPManager.HealthCheck.
  destruct (fold_left _ _ _) as [[healthMap' m'] w'] eqn:E.
  destruct (HealthCheck_fold env m _ _ _ _ _ _ _ E) as (H1 & H2 & H3 & H4 & H5);
    [done | done | |].
  { intros name h. by rewrite lookup_empty. }
  cbn [fst snd]. split_and!; try done.
  intros name. rewrite H5. rewrite lookup_empty. split.
  - intros [[? ?] | ?]; done.
  - by right.
Qed.

(** X20: The shape of what [executeTool] returns.  With an error the result is
    the zero value.  Without an error the result names the tool and the
    server of the first tool of the catalogue with that name, that server is
    marked connected, and [Success] is true exactly when [Error] is empty.
    A name that is not in the catalogue gives an error without touching the
    world. *)
Theorem executeTool_result {World : Type} (env : Env World)
    (m : realMCPManager.t) (toolName : string) (args : gmap string value) (w : World) :
  let out := realMCPManager.executeTool env m toolName args w in
  (∀ r e, out.1 = Returns (r, Some e) → r = MCPToolResult.zero)
  ∧ (∀ r, out.1 = Returns (r, None) →
       MCPToolResult.ToolName r = toolName
       ∧ (MCPToolResult.Success r = true ↔ MCPToolResult.Error r = "")
       ∧ ∃ tool,
           List.find (λ t, String.eqb (MCPToolInfo.Name t) toolName)
             (realMCPManager.tools m) = Some tool
           ∧ MCPToolResult.ServerName r = MCPToolInfo.ServerName tool
           ∧ realMCPManager.connectedServers m !! MCPToolInfo.ServerName tool
             = Some true)
  ∧ (List.find (λ t, String.eqb (MCPToolInfo.Name t) toolName)
       (realMCPManager.tools m) = None →
     out = (Returns (MCPToolResult.zero,
                     Some ("tool " +:+ toolName +:+ " not found in any connected server")),
            w)).
Proof.
  intros out. subst out. unfold realMCPManager.executeTool.
  destruct (find _ (realMCPManager.tools m)) as [tool|] eqn:Ef.
  2:{ cbn. split_and!; try done. by intros r e [= <- _]. }
  split_and!; [| | done].
  - intros r e.
    destruct (String.eqb _ ""); [by intros [= <- _] |].
    destruct (realMCPManager.serverNamed m _); [| by intros [= <- _]].
    destruct (negb _); [done |].
    destruct (time_Now env w) as [start w0].
    destruct (client_Connect _ _ _) as [[e1|] w1]; [by intros [= <- _] |].
    destruct (client_Initialize _ _ _ _ _) as [[e2|] w2]; [by intros [= <- _] |].
    destruct (client_CallTool _ _ _ _ _) as [[result|e3] w3]; [| by intros [= <- _]].
    by destruct (time_Now env w3).
  - intros r.
    destruct (String.eqb _ ""); [done |].
    destruct (realMCPManager.serverNamed m _); [| done].
    destruct (realMCPManager.connectedServers m !! _) as [[|]|] eqn:Ec; [| done | done].
    cbn [default negb]. change (negb (id true)) with false. cbv iota.
    destruct (time_Now env w) as [start w0].
    destruct (client_Connect _ _ _) as [[e1|] w1]; [done |].
    destruct (client_Initialize _ _ _ _ _) as [[e2|] w2]; [done |].
    destruct (client_CallTool _ _ _ _ _) as [[result|e3] w3]; [| done].
    destruct (time_Now env w3) as [now w4]. cbn [fst].
    intros [= <-]. cbn. split; [done |]. split; [| eauto].
    by destruct (CallToolResult.IsError result).
Qed.

(** *** The configuration helpers *)

(** An accepted configuration has the name and the type given. *)
Lemma NewMCPServerConfig_fields (name serverType host : string) (port : Z)
    (serverConfig : MCPServerConfig.t) :
  NewMCPServerConfig name serverType host port = (serverConfig, None) →
  MCPServerConfig.Name serverConfig = name
  ∧ MCPServerConfig.Type_ serverConfig = serverType.
Proof.
  unfold NewMCPServerConfig.
  destruct (String.eqb name ""); [done |].
  destruct (String.eqb serverType "tcp" || String.eqb serverType "websocket").
  - destruct (String.eqb host ""); [done |].
    destruct ((port <=? 0) || (65535 <? port)); [done |]. by intros [= <-].
  - destruct (String.eqb serverType "stdio").
    + destruct (String.eqb host ""); [done |]. by intros [= <-].
    + destruct (String.eqb serverType "docker"); [| done]. by intros [= <-].
Qed.

(** X21: [NewMCPServerConfig] accepts exactly: a name that is not empty, with the
    type [tcp] or [websocket], a host that is not empty and a port from 1 to
    65535; or the type [stdio] and a command (passed as the host) that is not
    empty; or the type [docker], whatever the host and the port.  An accepted
    configuration is enabled and has the name and the type given; for
    [stdio] the command is the host given and the host and the port are
    cleared, for the other types the host and the port are those given and
    the command is empty. *)
Theorem NewMCPServerConfig_accepts (name serverType host : string) (port : Z) :
  let out := NewMCPServerConfig name serverType host port in
  (out.2 = None
   ↔ name ≠ ""
     ∧ (((serverType = "tcp" ∨ serverType = "websocket")
         ∧ host ≠ "" ∧ 1 ≤ port ≤ 65535)
        ∨ (serverType = "stdio" ∧ host ≠ "")
        ∨ serverType = "docker"))
  ∧ (out.2 = None →
       MCPServerConfig.Name out.1 = name
       ∧ MCPServerConfig.Type_ out.1 = serverType
       ∧ MCPServerConfig.Enabled out.1 = true
       ∧ if String.eqb serverType "stdio"
         then MCPServerConfig.Command out.1 = host
              ∧ MCPServerConfig.Host out.1 = ""
              ∧ MCPServerConfig.Port out.1 = 0
         else MCPServerConfig.Command out.1 = ""
              ∧ MCPServerConfig.Host out.1 = host
              ∧ MCPServerConfig.Port out.1 = port).
Proof.
  intros out. subst out. unfold NewMCPServerConfig.
  destruct (String.eqb_spec name "") as [->|Hname].
  { cbn. split; [| done]. split; [done |]. by intros [? _]. }
  destruct (String.eqb_spec serverType "tcp") as [->|Htcp].
  { cbn [orb]. destruct (String.eqb_spec host "") as [->|Hhost].
    - cbn. split; [| done]. split; [done |].
      intros [_ [(_ & ? & _) | [[? _] | ?]]]; done.
    - destruct (port <=? 0) eqn:E1; cbn [orb].
      + cbn. split; [| done]. split; [done |].
        intros [_ [(_ & _ & ?) | [[? _] | ?]]]; [lia | done | done].
      + destruct (65535 <? port) eqn:E2.
        * cbn. split; [| done]. split; [done |].
          intros [_ [(_ & _ & ?) | [[? _] | ?]]]; [lia | done | done].
        * cbn. split; [| done]. split; [| done]. intros _. split; [done |].
          left. split_and!; try done; [by left | lia | lia]. }
  destruct (String.eqb_spec serverType "websocket") as [->|Hws].
  { cbn [orb]. destruct (String.eqb_spec host "") as [->|Hhost].
    - cbn. split; [| done]. split; [done |].
      intros [_ [(_ & ? & _) | [[? _] | ?]]]; done.
    - destruct (port <=? 0) eqn:E1; cbn [orb].
      + cbn. split; [| done]. split; [done |].
        intros [_ [(_ & _ & ?) | [[? _] | ?]]]; [lia | done | done].
      + destruct (65535 <? port) eqn:E2.
        * cbn. split; [| done]. split; [done |].
          intros [_ [(_ & _ & ?) | [[? _] | ?]]]; [lia | done | done].
        * cbn. split; [| done]. split; [| done]. intros _. split; [done |].
          left. split_and!; try done; [by right | lia | lia]. }
  cbn [orb].
  destruct (String.eqb_spec serverType "stdio") as [->|Hstdio].
  { destruct (String.eqb_spec host "") as [->|Hhost].
    - cbn. split; [| done]. split; [done |].
      intros [_ [([?|?] & _) | [[_ ?] | ?]]]; done.
    - cbn. split; [| done]. split; [| done]. intros _. split; [done |].
      right. left. done. }
  destruct (String.eqb_spec serverType "docker") as [->|Hdocker].
  { cbn. split; [| done]. split; [| done]. intros _. split; [done |].
    right. right. done. }
  cbn. split; [| done]. split; [done |].
  intros [_ [([?|?] & _) | [[? _] | ?]]]; done.
Qed.

(** X22: [NewSTDIOServerConfig] and [NewMCPServerConfig] with the type [stdio]
    and the command as host return the same error, and the same
    configuration when there is none.  On an error the constructor for
    [stdio] returns the command as the command, with an empty host and the
    port zero, and the general constructor returns it as the host, with the
    port given and an empty command: the two configurations are the same
    exactly when there is no error, or the command is empty and the port is
    zero. *)
Theorem NewSTDIOServerConfig_agrees (name command : string) (port : Z) :
  let general := NewMCPServerConfig name "stdio" command port in
  let stdio := NewSTDIOServerConfig name command in
  stdio.2 = general.2
  ∧ (stdio.2 = None ↔ name ≠ "" ∧ command ≠ "")
  ∧ (stdio.2 = None → stdio.1 = general.1)
  ∧ (stdio.2 ≠ None →
       MCPServerConfig.Command stdio.1 = command
       ∧ MCPServerConfig.Host stdio.1 = ""
       ∧ MCPServerConfig.Port stdio.1 = 0
       ∧ MCPServerConfig.Command general.1 = ""
       ∧ MCPServerConfig.Host general.1 = command
       ∧ MCPServerConfig.Port general.1 = port)
  ∧ (stdio.1 = general.1 ↔ stdio.2 = None ∨ (command = "" ∧ port = 0)).
Proof.
  intros general stdio. subst general stdio.
  unfold NewMCPServerConfig, NewSTDIOServerConfig.
  change (String.eqb "stdio" "tcp" || String.eqb "stdio" "websocket") with false.
  change (String.eqb "stdio" "stdio") with true. cbv iota.
  destruct (String.eqb_spec name "") as [->|Hname].
  - cbn [fst snd]. split_and!; try done.
    + split; [done | by intros [? _]].
    + split.
      * intros [= <- <-]. by right.
      * intros [? | [-> ->]]; done.
  - destruct (String.eqb_spec command "") as [->|Hc]; cbn [fst snd].
    + split_and!; try done.
      * split; [done | by intros [_ ?]].
      * split.
        -- intros [= <-]. by right.
        -- intros [? | [_ ->]]; done.
    + split_and!; try done. split; [by left | done].
Qed.

(** X23: A configuration that [NewMCPServerConfig] accepts with a type other
    than [tcp] ([websocket], [stdio] or [docker]) cannot be connected: when
    it is the configuration found for its name, [Connect] fails with
    [unsupported server type] and [discoverToolsFromServer] likewise, both
    without touching the network or the manager. *)
Theorem accepted_type_not_connectable {World : Type} (env : Env World)
    (name serverType host : string) (port : Z) (serverConfig : MCPServerConfig.t)
    (m : realMCPManager.t) (w : World) :
  NewMCPServerConfig name serverType host port = (serverConfig, None) →
  serverType ≠ "tcp" →
  realMCPManager.serverNamed m name = Some serverConfig →
  realMCPManager.Connect env m name w
  = (Some ("unsupported server type: " +:+ serverType), m, w)
  ∧ realMCPManager.discoverToolsFromServer env m name w
    = ([], Some ("unsupported server type: " +:+ serverType), w).
Proof.
  intros Hnew Htcp Hsn.
  destruct (NewMCPServerConfig_fields _ _ _ _ _ Hnew) as [_ Hty].
  unfold realMCPManager.Connect, realMCPManager.discoverToolsFromServer.
  rewrite Hsn, Hty.
  destruct (String.eqb_spec serverType "tcp"); done.
Qed.

Lemma accepted_type_not_connectable_witness :
  let out := NewWebSocketServerConfig "ws" "localhost" 9000 in
  let m := realMCPManager.createRealMCPManager (Demo.mcpConfig [out.1]) in
  out.2 = None
  ∧ realMCPManager.Connect Demo.env m "ws" 0
    = (Some "unsupported server type: websocket", m, 0)
  ∧ realMCPManager.RefreshTools Demo.env m 0 = (None, m, 0).
Proof.
  intros out m.
  destruct (accepted_type_not_connectable Demo.env "ws" "websocket" "localhost" 9000
              out.1 m 0) as [H1 _].
  - reflexivity.
  - discriminate.
  - reflexivity.
  - split; [reflexivity |]. split; [exact H1 |]. reflexivity.
Defined.

(** *** The registry of function tools *)

Section RegistryFacts.

Context {World : Type} (env : Env World).
Variable Duration_String : GoTime.Duration → string.

(** Registering the tools of a list in turn, errors being ignored: a name
    that was registered keeps its tool; another name gets the first tool of
    the list with that name, unless the name is empty. *)
Lemma Register_fold (ts : list (FunctionTool World))
    (r : realFunctionToolRegistry.t World) (n : string) :
  realFunctionToolRegistry.tools
    (fold_left (λ r t, (realFunctionToolRegistry.Register r (Some t)).2) ts r) !! n
  = match realFunctionToolRegistry.tools r !! n with
    | Some t => Some t
    | None =>
        if String.eqb n "" then None
        else List.find (λ t, String.eqb (realFunctionToolRegistry.Name t) n) ts
    end.
Proof.
  revert r. induction ts as [|t ts IH]; intros r.
  - cbn. destruct (realFunctionToolRegistry.tools r !! n); [done |].
    by destruct (String.eqb n "").
  - cbn [fold_left List.find]. rewrite IH.
    unfold realFunctionToolRegistry.Register.
    destruct (String.eqb (realFunctionToolRegistry.Name t) "") eqn:He.
    + apply String.eqb_eq in He. cbn [snd].
      destruct (realFunctionToolRegistry.tools r !! n); [done |].
      destruct (String.eqb n "") eqn:En; [done |].
      destruct (String.eqb (realFunctionToolRegistry.Name t) n) eqn:Etn; [| done].
      apply String.eqb_eq in Etn. rewrite <- Etn, He in En. done.
    + destruct (realFunctionToolRegistry.tools r !! realFunctionToolRegistry.Name t)
        as [t0|] eqn:Et; cbn [snd realFunctionToolRegistry.tools].
      * destruct (realFunctionToolRegistry.tools r !! n) eqn:En; [done |].
        destruct (String.eqb n ""); [done |].
        destruct (String.eqb (realFunctionToolRegistry.Name t) n) eqn:Etn; [| done].
        apply String.eqb_eq in Etn. rewrite Etn in Et. congruence.
      * destruct (String.eqb (realFunctionToolRegistry.Name t) n) eqn:Etn.
        -- apply String.eqb_eq in Etn. rewrite <- Etn.
           by rewrite lookup_insert_eq, Et, He.
        -- apply String.eqb_neq in Etn. by rewrite lookup_insert_ne.
Qed.

Lemma find_fmap {A B : Type} (f : A → B) (p : B → bool) (l : list A) :
  List.find p (List.map f l) = f <$> List.find (λ a, p (f a)) l.
Proof.
  induction l as [|a l IH]; [done |]. cbn. by destruct (p (f a)).
Qed.

Lemma fold_left_fmap {A B C : Type} (f : C → B → C) (g : A → B) (l : list A) (c : C) :
  fold_left f (List.map g l) c = fold_left (λ c a, f c (g a)) l c.
Proof. revert c. induction l as [|a l IH]; intros c; [done |]. cbn. apply IH. Qed.

(** A result that [executeTool] returns without error names a server. *)
Lemma executeTool_ok_server (m : realMCPManager.t) (toolName : string)
    (args : gmap string value) (w : World) (r : MCPToolResult.t) :
  (realMCPManager.executeTool env m toolName args w).1 = Returns (r, None) →
  MCPToolResult.ServerName r ≠ "".
Proof.
  unfold realMCPManager.executeTool.
  destruct (String.eqb_spec
              match find (λ tool, String.eqb (MCPToolInfo.Name tool) toolName)
                      (realMCPManager.tools m) with
              | Some tool => MCPToolInfo.ServerName tool
              | None => ""
              end "") as [He|He]; [done |].
  destruct (realMCPManager.serverNamed m _); [| done].
  destruct (negb _); [done |].
  destruct (time_Now env w) as [start w0].
  destruct (client_Connect _ _ _) as [[e1|] w1]; [done |].
  destruct (client_Initialize _ _ _ _ _) as [[e2|] w2]; [done |].
  destruct (client_CallTool _ _ _ _ _) as [[result|e3] w3]; [| done].
  destruct (time_Now env w3) as [now w4]. cbn [fst].
  by intros [= <-].
Qed.

End RegistryFacts.

(** X24: [Register] refuses the [nil] tool, a tool with an empty name and a name
    that is taken, and then leaves the registry as it is: the first
    registration of a name stays.  Otherwise it adds the tool: [Get] on its
    name returns it, [Get] on another name is as before, and registering the
    tool a second time is refused. *)
Theorem Register_semantics {World : Type}
    (r : realFunctionToolRegistry.t World) (tool : option (FunctionTool World)) :
  let out := realFunctionToolRegistry.Register r tool in
  (out.1 ≠ None → out.2 = r)
  ∧ (out.1 = None
     ↔ ∃ t, tool = Some t
            ∧ realFunctionToolRegistry.Name t ≠ ""
            ∧ realFunctionToolRegistry.Get r (realFunctionToolRegistry.Name t)
              = (None, false))
  ∧ (∀ t, out.1 = None → tool = Some t →
       realFunctionToolRegistry.Get out.2 (realFunctionToolRegistry.Name t)
       = (Some t, true)
       ∧ (∀ n, n ≠ realFunctionToolRegistry.Name t →
               realFunctionToolRegistry.Get out.2 n = realFunctionToolRegistry.Get r n)
       ∧ realFunctionToolRegistry.Register out.2 tool
         = (Some ("tool " +:+ realFunctionToolRegistry.Name t +:+ " already registered"),
            out.2)).
Proof.
  intros out. subst out. unfold realFunctionToolRegistry.Register.
  destruct tool as [t|].
  2:{ cbn. split_and!; try done. split; [done |]. by intros (? & ? & _). }
  destruct (String.eqb_spec (realFunctionToolRegistry.Name t) "") as [He|He].
  { cbn. split_and!; try done. split; [done |]. intros (? & [= <-] & ? & _). done. }
  unfold realFunctionToolRegistry.Get.
  destruct (realFunctionToolRegistry.tools r !! realFunctionToolRegistry.Name t)
    as [t0|] eqn:Et; cbn [fst snd].
  { split_and!; try done. split; [done |]. intros (? & [= <-] & _ & H).
    by rewrite Et in H. }
  split_and!; try done.
  - split; [| done]. intros _. exists t. by rewrite Et.
  - intros t' _ [= <-]. cbn [realFunctionToolRegistry.tools].
    rewrite lookup_insert_eq. split_and!; try done.
    intros n Hn. by rewrite lookup_insert_ne.
Qed.

(** X25: A registry built from the empty one by registering tools one after the
    other, whatever [Register] answered, holds under each name the first of
    these tools with that name, and nothing under the empty name; so the
    tool that [Get] finds for a name has that name.  [List] gives the names
    that [Get] finds, each once. *)
Theorem Registry_first_wins {World : Type} (ts : list (FunctionTool World)) :
  let r :=
    fold_left (λ r t, (realFunctionToolRegistry.Register r (Some t)).2) ts
      realFunctionToolRegistry.createRealFunctionToolRegistry in
  (∀ n, realFunctionToolRegistry.Get r n
        = match
            (if String.eqb n "" then None
             else List.find (λ t, String.eqb (realFunctionToolRegistry.Name t) n) ts)
          with
          | Some t => (Some t, true)
          | None => (None, false)
          end)
  ∧ (∀ n t, (realFunctionToolRegistry.Get r n).1 = Some t →
            realFunctionToolRegistry.Name t = n ∧ n ≠ "")
  ∧ NoDup (realFunctionToolRegistry.List r)
  ∧ (∀ n, n ∈ realFunctionToolRegistry.List r
          ↔ (realFunctionToolRegistry.Get r n).2 = true).
Proof.
  intros r.
  assert (∀ n, realFunctionToolRegistry.tools r !! n
               = if String.eqb n "" then None
                 else List.find (λ t, String.eqb (realFunctionToolRegistry.Name t) n) ts)
    as Hr.
  { intros n. subst r. rewrite Register_fold. cbn. by rewrite lookup_empty. }
  assert (realFunctionToolRegistry.List r
          = (map_to_list (realFunctionToolRegistry.tools r)).*1) as HList.
  { unfold realFunctionToolRegistry.List, realFunctionToolRegistry.List_in.
    generalize (map_to_list (realFunctionToolRegistry.tools r)). intros l.
    assert (∀ acc, fold_left (λ names (kv : string * FunctionTool World), names ++ [kv.1])
                     l acc = acc ++ l.*1) as H.
    { induction l as [|kv l IH]; intros acc; cbn; [by rewrite app_nil_r |].
      by rewrite IH, <- app_assoc. }
    apply H. }
  split_and!.
  - intros n. unfold realFunctionToolRegistry.Get. rewrite Hr.
    by destruct (if String.eqb n "" then _ else _).
  - intros n t. unfold realFunctionToolRegistry.Get. rewrite Hr.
    destruct (String.eqb_spec n "") as [->|Hn]; [done |].
    destruct (find _ ts) as [t'|] eqn:Ef; [| done].
    cbn. intros [= <-]. apply find_some in Ef as [_ Heq%String.eqb_eq]. done.
  - rewrite HList. apply NoDup_fst_map_to_list.
  - intros n. rewrite HList. unfold realFunctionToolRegistry.Get.
    rewrite list_elem_of_fmap. split.
    + intros ([n' t] & -> & Hin%elem_of_map_to_list). cbn. by rewrite Hin.
    + destruct (realFunctionToolRegistry.tools r !! n) as [t|] eqn:Et; [| done].
      intros _. exists (n, t). split; [done |]. by apply elem_of_map_to_list.
Qed.

(** X26: [CallTool] on a name that is not registered fails without calling
    anything.  On an [mcpFunctionTool] it is [executeTool] on the name of the
    tool: it does not return when [executeTool] does not; an error of
    [executeTool] and a result without [Success] come back as an error that
    starts with [tool execution failed], twice for the latter, with no
    response; a result with [Success] comes back as a response whose
    [success] is true, whose [duration] is that of the result and whose
    [content] is absent when the result has no content. *)
Theorem CallTool_mcp {World : Type} (env : Env World)
    (Duration_String : GoTime.Duration → string)
    (m : realMCPManager.t) (r : realFunctionToolRegistry.t World)
    (name : string) (args : gmap string value) (w : World) :
  let out :=
    realFunctionToolRegistry.CallTool env Duration_String (RealMCPManager m) r name args w in
  (realFunctionToolRegistry.tools r !! name = None →
     out = (Returns (None, Some ("tool " +:+ name +:+ " not found")), w))
  ∧ (∀ toolInfo,
       realFunctionToolRegistry.tools r !! name = Some (McpFunctionTool toolInfo) →
       let ex := realMCPManager.executeTool env m (MCPToolInfo.Name toolInfo) args w in
       out.2 = ex.2
       ∧ match ex.1 with
         | Blocks => out.1 = Blocks
         | Returns (_, Some err) =>
             out.1 = Returns (None, Some ("tool execution failed: " +:+ err))
         | Returns (result, None) =>
             if MCPToolResult.Success result then
               ∃ response,
                 out.1 = Returns (Some response, None)
                 ∧ response !! "success" = Some (VBool true)
                 ∧ response !! "duration"
                   = Some (VString (Duration_String (MCPToolResult.Duration result)))
                 ∧ response !! "content"
                   = match MCPToolResult.Content result with
                     | [] => None
                     | content =>
                         Some (VArray (List.map mcpFunctionTool.contentMap content))
                     end
                 ∧ ∀ k, is_Some (response !! k) →
                        k = "success" ∨ k = "duration" ∨ k = "content"
             else
               out.1
               = Returns (None,
                          Some ("tool execution failed: tool execution failed: "
                                +:+ MCPToolResult.Error result))
         end).
Proof.
  intros out. subst out. unfold realFunctionToolRegistry.CallTool. split.
  - by intros ->.
  - intros toolInfo ->. cbv zeta.
    unfold realFunctionToolRegistry.Call, mcpFunctionTool.Call.
    destruct (realMCPManager.executeTool env m _ args w)
      as [[[result [err|]]|] w1]; cbn [fst snd]; [done | | done].
    destruct (MCPToolResult.Success result) eqn:Hs; cbn [negb]; [| done].
    cbn [fst snd]. split; [done |].
    destruct (MCPToolResult.Content result) as [|c content] eqn:Ec.
    + cbn [length Nat.ltb Nat.leb]. eexists. split; [done |]. split_and!; try done.
      intros k [v Hk].
      destruct (decide (k = "duration")) as [->|H1]; [auto |].
      rewrite lookup_insert_ne in Hk by done.
      destruct (decide (k = "success")) as [->|H2]; [auto |].
      rewrite lookup_insert_ne in Hk by done. by rewrite lookup_empty in Hk.
    + change (0 <? length (c :: content))%nat with true. cbv iota.
      eexists. split; [done |]. split_and!; try done.
      intros k [v Hk].
      destruct (decide (k = "content")) as [->|H0]; [auto |].
      rewrite lookup_insert_ne in Hk by done.
      destruct (decide (k = "duration")) as [->|H1]; [auto |].
      rewrite lookup_insert_ne in Hk by done.
      destruct (decide (k = "success")) as [->|H2]; [auto |].
      rewrite lookup_insert_ne in Hk by done. by rewrite lookup_empty in Hk.
Qed.

(** X27: [RegisterMCPToolsWithRegistry], with a manager and a registry, never
    fails.  It refreshes the manager and registers its catalogue: a name
    that was registered keeps its tool, another name gets the first tool of
    the catalogue with that name, which is the one [executeTool] resolves,
    unless the name is empty.  A call through the registry of a name that
    was not registered before then returns, whatever the servers answer. *)
Theorem RegisterMCPToolsWithRegistry_registers {World : Type} (env : Env World)
    (Duration_String : GoTime.Duration → string)
    (manager : realMCPManager.t) (registry : realFunctionToolRegistry.t World)
    (w : World) :
  let refreshed := realMCPManager.RefreshTools env manager w in
  ∃ registry',
    realFunctionToolRegistry.RegisterMCPToolsWithRegistry env (Some manager)
      (Some registry) w
    = (None, Some refreshed.1.2, Some registry', refreshed.2)
    ∧ (∀ n, realFunctionToolRegistry.tools registry' !! n
            = match realFunctionToolRegistry.tools registry !! n with
              | Some t => Some t
              | None =>
                  if String.eqb n "" then None
                  else McpFunctionTool
                       <$> List.find (λ tool, String.eqb (MCPToolInfo.Name tool) n)
                             (realMCPManager.tools refreshed.1.2)
              end)
    ∧ (∀ n args w0,
         realFunctionToolRegistry.tools registry !! n = None →
         (realFunctionToolRegistry.CallTool env Duration_String
            (RealMCPManager refreshed.1.2) registry' n args w0).1 ≠ Blocks).
Proof.
  intros refreshed. unfold realFunctionToolRegistry.RegisterMCPToolsWithRegistry.
  pose proof (RefreshTools_fold_inv env (MCPConfig.Servers (realMCPManager.config manager))
                (realMCPManager.with_tools manager [])) as Hinv.
  subst refreshed. unfold realMCPManager.RefreshTools in *.
  destruct (fold_left _ _ (realMCPManager.with_tools manager [], w)) as [m' w'] eqn:E.
  cbn [fst snd]. unfold realMCPManager.GetAvailableTools.
  destruct (Hinv m' w w' E) as (_ & _ & Hcat).
  assert (catalogued m') as Hm' by (apply Hcat; unfold catalogued; cbn; done).
  eexists. split; [done |].
  assert (∀ n, realFunctionToolRegistry.tools
                 (fold_left
                    (λ registry0 toolInfo,
                       (realFunctionToolRegistry.Register registry0
                          (Some (McpFunctionTool toolInfo))).2)
                    (realMCPManager.tools m') registry) !! n
               = match realFunctionToolRegistry.tools registry !! n with
                 | Some t => Some t
                 | None =>
                     if String.eqb n "" then None
                     else McpFunctionTool
                          <$> List.find (λ tool, String.eqb (MCPToolInfo.Name tool) n)
                                (realMCPManager.tools m')
                 end) as Hreg.
  { intros n.
    rewrite <- (fold_left_fmap
                  (λ r t, (realFunctionToolRegistry.Register r (Some t)).2)
                  McpFunctionTool).
    rewrite Register_fold.
    destruct (realFunctionToolRegistry.tools registry !! n); [done |].
    destruct (String.eqb n ""); [done |].
    by rewrite find_fmap. }
  split; [exact Hreg |].
  intros n args w0 Hn. unfold realFunctionToolRegistry.CallTool.
  rewrite Hreg, Hn.
  destruct (String.eqb n ""); [done |].
  destruct (find _ (realMCPManager.tools m')) as [toolInfo|]; [| done].
  cbn [fmap option_fmap option_map].
  unfold realFunctionToolRegistry.Call, mcpFunctionTool.Call.
  pose proof (executeTool_returns env m' (MCPToolInfo.Name toolInfo) args w0 Hm') as Hret.
  destruct (realMCPManager.executeTool env m' _ args w0)
    as [[[result [err|]]|] w1]; cbn [fst snd] in *; [done | | done].
  by destruct (negb _).
Qed.

(** *** [ExecuteMCPTool] *)

(** X28: [ExecuteMCPTool] without a manager fails and touches nothing; with a
    [realMCPManager] and no cache manager it is [executeTool].  With a cache
    manager it goes through the cache with an execution that names no
    server: what it stores is stored in the cache of the pair of the tool
    and the empty server name, under a key with the empty server name, so
    [InvalidateByPattern] with a pattern that the tool name followed by a
    colon does not contain, the name of the server for one, leaves the entry
    in place. *)
Theorem ExecuteMCPTool_paths {World : Type} (env : Env World)
    (globalMCPManager : option MCPManager)
    (globalCacheManager : option realMCPCacheManager.t)
    (toolName : string) (args : gmap string value) (w : World) :
  let out := ExecuteMCPTool env globalMCPManager globalCacheManager toolName args w in
  (globalMCPManager = None →
     out = (Returns (MCPToolResult.zero, Some "MCP manager not initialized"),
            globalCacheManager, w))
  ∧ (∀ m, globalMCPManager = Some (RealMCPManager m) → globalCacheManager = None →
       (out.1.1, out.2) = realMCPManager.executeTool env m toolName args w
       ∧ out.1.2 = None)
  ∧ (∀ manager cm, globalMCPManager = Some manager → globalCacheManager = Some cm →
       out.1.1
       = (realMCPCacheManager.ExecuteWithCache env cm globalMCPManager
            (MCPToolExecution.Make toolName args "") w).1.1
       ∧ ∃ cm',
           out.1.2 = Some cm'
           ∧ realMCPCacheManager.config cm' = realMCPCacheManager.config cm
           ∧ ∀ p k e, entryAt cm' p k = Some e →
               entryAt cm p k = Some e
               ∨ (p = realMCPCacheManager.pairKey toolName ""
                  ∧ MCPCacheKey.ServerName (MCPCachedResult.Key e) = ""
                  ∧ MCPToolResult.Success (MCPCachedResult.Result e) = true
                  ∧ ∀ pattern,
                      GoStrings.Contains p pattern = false →
                      entryAt (realMCPCacheManager.InvalidateByPattern cm' pattern).2 p k
                      = Some e)).
Proof.
  intros out. subst out. unfold ExecuteMCPTool. split_and!.
  - by intros ->.
  - intros m -> ->.
    by destruct (realMCPManager.executeTool env m toolName args w) as [o w1].
  - intros manager cm -> ->.
    destruct (realMCPCacheManager.ExecuteWithCache env cm (Some manager)
                (MCPToolExecution.Make toolName args "") w) as [[o cm'] w'] eqn:E.
    cbn [fst snd]. split; [done |]. exists cm'. split; [done |].
    destruct (ExecuteWithCache_entries env _ _ _ _ _ _ _ E) as [Hcfg H].
    split; [done |]. intros p k e He.
    destruct (H p k e He) as [? | (-> & -> & result & _ & Hs & Hk & Hr & _)]; [by left |].
    right. cbn [MCPToolExecution.ToolName MCPToolExecution.ServerName] in *.
    split_and!; try done.
    + by rewrite Hk.
    + by rewrite Hr.
    + intros pattern Hp.
      destruct (InvalidateByPattern_lookup pattern
                  (map_to_list (realMCPCacheManager.caches cm')) cm') as (_ & _ & H3).
      { unfold range_of. reflexivity. }
      unfold realMCPCacheManager.InvalidateByPattern.
      unfold entryAt at 1. rewrite H3, Hp.
      unfold entryAt in He.
      by destruct (realMCPCacheManager.caches cm' !! _).
Qed.

(** *** More on the parser *)

Section MoreParserFacts.

Variable Unmarshal : string → gmap string value * error.

Lemma ParseLLMToolCalls_part_acc (toolCalls : list (gmap string value)) (part : string) :
  ParseLLMToolCalls_part Unmarshal toolCalls part
  = toolCalls ++ ParseLLMToolCalls_part Unmarshal [] part.
Proof.
  unfold ParseLLMToolCalls_part.
  destruct (GoStrings.HasPrefix part "{"); [| by rewrite app_nil_r].
  destruct (0 <? findClosingBrace part 0 0); [| by rewrite app_nil_r].
  cbv zeta. destruct (0 <? size _)%nat; [done | by rewrite app_nil_r].
Qed.

Lemma ParseLLMToolCalls_fold_acc (parts : list string)
    (toolCalls : list (gmap string value)) :
  fold_left (ParseLLMToolCalls_part Unmarshal) parts toolCalls
  = toolCalls ++ fold_left (ParseLLMToolCalls_part Unmarshal) parts [].
Proof.
  revert toolCalls. induction parts as [|part parts IH]; intros toolCalls.
  - cbn. by rewrite app_nil_r.
  - cbn [fold_left]. rewrite IH, (IH (ParseLLMToolCalls_part Unmarshal [] part)).
    by rewrite (ParseLLMToolCalls_part_acc toolCalls), <- app_assoc.
Qed.

(** A segment adds at most one call, and a call is not empty. *)
Lemma ParseLLMToolCalls_part_one (part : string) :
  (length (ParseLLMToolCalls_part Unmarshal [] part) ≤ 1)%nat
  ∧ Forall (λ toolCall : gmap string value, toolCall ≠ ∅)
      (ParseLLMToolCalls_part Unmarshal [] part).
Proof.
  unfold ParseLLMToolCalls_part.
  destruct (GoStrings.HasPrefix part "{"); [| by cbn; split; [lia | constructor]].
  destruct (0 <? findClosingBrace part 0 0); [| by cbn; split; [lia | constructor]].
  cbv zeta. generalize (ParseToolCallJSON Unmarshal
                          (substring 0 (Z.to_nat (findClosingBrace part 0 0 + 1)) part)).
  intros toolCall.
  destruct (0 <? size toolCall)%nat eqn:E; [| by cbn; split; [lia | constructor]].
  split; [cbn [app length]; lia |]. constructor; [| constructor].
  intros ->. by rewrite map_size_empty in E.
Qed.

Lemma ParseLLMToolCalls_fold_one (parts : list string) :
  (length (fold_left (ParseLLMToolCalls_part Unmarshal) parts []) ≤ length parts)%nat
  ∧ Forall (λ toolCall : gmap string value, toolCall ≠ ∅)
      (fold_left (ParseLLMToolCalls_part Unmarshal) parts []).
Proof.
  induction parts as [|part parts [IH1 IH2]]; [by cbn; split; [lia | constructor] |].
  cbn [fold_left]. rewrite ParseLLMToolCalls_fold_acc.
  destruct (ParseLLMToolCalls_part_one part) as [H1 H2].
  rewrite length_app, Forall_app. cbn [length]. split; [lia | done].
Qed.

(** What the fallback adds for one piece is a string, or a mapping under
    the key [args]. *)
Lemma fallbackEntry_values (result : gmap string value) (part k : string) (v : value) :
  fallbackEntry Unmarshal result part !! k = Some v →
  result !! k = Some v
  ∨ (∃ s, v = VString s)
  ∨ (k = "args" ∧ ∃ m, v = VObject m).
Proof.
  unfold fallbackEntry.
  destruct (GoStrings.Contains part ":"); [| by left].
  destruct (GoStrings.SplitN2 part ":") as [|k0 [|v0 [|? ?]]]; try by left.
  cbv zeta.
  destruct (String.eqb_spec (GoStrings.Trim k0 quoteCutset) "args") as [Hk|Hk].
  - cbn [andb].
    destruct (GoStrings.HasPrefix (GoStrings.Trim v0 quoteCutset) "{"
              && GoStrings.HasSuffix (GoStrings.Trim v0 quoteCutset) "}");
      rewrite Hk.
    + destruct (decide (k = "args")) as [->|Hne].
      * rewrite lookup_insert_eq. intros [= <-]. right. right. eauto.
      * rewrite lookup_insert_ne by done. by left.
    + destruct (decide (k = "args")) as [->|Hne].
      * rewrite lookup_insert_eq. intros [= <-]. right. left. eauto.
      * rewrite lookup_insert_ne by done. by left.
  - cbn [andb].
    destruct (decide (k = GoStrings.Trim k0 quoteCutset)) as [->|Hne].
    + rewrite lookup_insert_eq. intros [= <-]. right. left. eauto.
    + rewrite lookup_insert_ne by done. by left.
Qed.

Lemma fallback_fold_values (pieces : list string) (result : gmap string value)
    (k : string) (v : value) :
  fold_left (fallbackEntry Unmarshal) pieces result !! k = Some v →
  result !! k = Some v
  ∨ (∃ s, v = VString s)
  ∨ (k = "args" ∧ ∃ m, v = VObject m).
Proof.
  revert result. induction pieces as [|piece pieces IH]; intros result; [by left |].
  cbn [fold_left]. intros [H | H]%IH; [| by right].
  by apply fallbackEntry_values in H.
Qed.

End MoreParserFacts.

(** X29: [ParseLLMToolCalls] returns at most one call for each marker, and no
    empty mapping.  The text before the first marker is ignored, and the
    segments after the markers are decoded one by one, in order: the calls of
    a text are those of its part up to a marker, followed by those of the
    rest. *)
Theorem ParseLLMToolCalls_per_marker
    (Unmarshal : string → gmap string value * error) (content : string) :
  (length (ParseLLMToolCalls Unmarshal content) + 1
   ≤ length (GoStrings.Split content "TOOL_CALL"))%nat
  ∧ Forall (λ toolCall : gmap string value, toolCall ≠ ∅)
      (ParseLLMToolCalls Unmarshal content)
  ∧ (∀ pre r,
       GoStrings.Contains pre "TOOL_CALL" = false →
       content = pre +:+ "TOOL_CALL" +:+ r →
       ParseLLMToolCalls Unmarshal content
       = ParseLLMToolCalls Unmarshal ("TOOL_CALL" +:+ r))
  ∧ (∀ pre seg r,
       GoStrings.Contains pre "TOOL_CALL" = false →
       GoStrings.Contains seg "TOOL_CALL" = false →
       content = pre +:+ "TOOL_CALL" +:+ seg +:+ "TOOL_CALL" +:+ r →
       ParseLLMToolCalls Unmarshal content
       = ParseLLMToolCalls Unmarshal (pre +:+ "TOOL_CALL" +:+ seg)
         ++ ParseLLMToolCalls Unmarshal ("TOOL_CALL" +:+ r)).
Proof.
  assert (∀ r, ParseLLMToolCalls Unmarshal ("TOOL_CALL" +:+ r)
               = fold_left (ParseLLMToolCalls_part Unmarshal)
                   (GoStrings.Split r "TOOL_CALL") []) as Hhead.
  { intros r. unfold ParseLLMToolCalls.
    rewrite <- (str_app_nil_l ("TOOL_CALL" +:+ r)).
    by rewrite Split_marker_first. }
  split_and!.
  - unfold ParseLLMToolCalls.
    pose proof (split_from_not_nil "TOOL_CALL" content 0) as Hne.
    fold (GoStrings.Split content "TOOL_CALL") in Hne.
    destruct (GoStrings.Split content "TOOL_CALL") as [|p ps]; [done |].
    cbn [tail length].
    destruct (ParseLLMToolCalls_fold_one Unmarshal ps) as [H _]. lia.
  - unfold ParseLLMToolCalls. apply ParseLLMToolCalls_fold_one.
  - intros pre r Hpre ->. rewrite Hhead. unfold ParseLLMToolCalls.
    by rewrite Split_marker_first.
  - intros pre seg r Hpre Hseg ->. rewrite Hhead. unfold ParseLLMToolCalls.
    rewrite !Split_marker_first by done.
    rewrite (Split_without "TOOL_CALL" seg) by done.
    cbn [tail fold_left]. by rewrite ParseLLMToolCalls_fold_acc.
Qed.

(** X30: [ParseToolCallJSON] on a text that decodes returns the decoded mapping.
    On a text that does not, every entry of the result that the decoder did
    not leave is a string, or a mapping under the key [args]: a number, a
    boolean or [null] of a near-JSON text comes back as a string. *)
Theorem ParseToolCallJSON_values
    (Unmarshal : string → gmap string value * error) (s : string) :
  ((Unmarshal s).2 = None → ParseToolCallJSON Unmarshal s = (Unmarshal s).1)
  ∧ (∀ k v,
       (Unmarshal s).2 ≠ None →
       ParseToolCallJSON Unmarshal s !! k = Some v →
       (Unmarshal s).1 !! k = Some v
       ∨ (∃ str, v = VString str)
       ∨ (k = "args" ∧ ∃ m, v = VObject m)).
Proof.
  rewrite ParseToolCallJSON_eq. destruct (Unmarshal s) as [result [err|]]; cbn [fst snd].
  - split; [done |]. intros k v _. apply fallback_fold_values.
  - split; [done |]. by intros k v H.
Qed.

(** *** Examples for the default ttl and for servers that are down *)

Lemma RefreshTools_all_down_witness :
  let m := realMCPManager.createRealMCPManager (Demo.mcpConfig [Demo.server]) in
  let out := realMCPManager.RefreshTools Demo.offline m 0 in
  out.1.1 = None
  ∧ realMCPManager.tools out.1.2 = []
  ∧ realMCPManager.connectedServers out.1.2 = realMCPManager.connectedServers m.
Proof.
  intros m out.
  apply (RefreshTools_all_down Demo.offline m 0).
  intros network address timeout w0. cbn. discriminate.
Defined.

Lemma ExecuteWithCache_stores_DefaultTTL_witness :
  let gm := Some (RealMCPManager Demo.manager) in
  let out := realMCPCacheManager.ExecuteWithCache Demo.env Demo.cacheManager gm Demo.search 0 in
  let key := GenerateCacheKey "web_search" "docker-mcp" {[ "query" := "x" ]} in
  ∃ e, entryAt out.1.2 "web_search:docker-mcp" (keyToString key) = Some e
       ∧ (entryAt Demo.cacheManager "web_search:docker-mcp" (keyToString key) = Some e
          ∨ MCPCachedResult.TTL e = 15 * GoTime.Minute).
Proof.
  intros gm out key.
  destruct (entryAt out.1.2 "web_search:docker-mcp" (keyToString key)) as [e|] eqn:He;
    [| vm_compute in He; discriminate].
  exists e. split; [done |].
  exact (ExecuteWithCache_stores_DefaultTTL Demo.env Demo.cacheManager gm Demo.search 0
           "web_search:docker-mcp" (keyToString key) e He).
Defined.
